(** * ROI Zoom Tool: a shallow embedding of [roi_zoom_tool_v2.py]

    The development follows the processing module function by function:
    [find_roi_position], [draw_dashed_line], [draw_scale_bar],
    [draw_annotation], [draw_watermark] and the orchestrator
    [create_zoom_figure].

    - Python [int] is [Z]; Python [float] is IEEE binary64, taken from the
      standard library's executable specification [SpecFloat] at precision
      53 and maximal exponent 1024, so every rounding of the source is
      reproduced bit for bit.
    - A call either returns, raises, or has not returned yet ([OutOfFuel],
      the only loop of the module that can spin is the dash march).
    - OpenCV, Pillow, the font files and the file system are collaborators
      of the module, not part of it: they are the fields of the class
      [Collaborators].  A call of theirs fails where the library does:
      OpenCV's decoder and Pillow's decoder each on a file it cannot read
      (the two decode independently and need not agree on the size),
      Pillow on an image size it refuses, and the encoder on what it
      cannot write.  Drawing on an image that exists does not fail.
    - A Pillow image is the history of the operations applied to it. *)

From Stdlib Require Import ZArith List String Ascii Bool Lia.
From Stdlib Require Import SpecFloat DecimalString.
Import ListNotations.
Local Open Scope string_scope.
Local Open Scope Z_scope.

(** ** Outcomes of a call *)

Inductive exn : Type :=
| ValueError (msg : string)
| OverflowError
| ZeroDivisionError
| OSError (path : string)
| MemoryError.

Inductive outcome (A : Type) : Type :=
| Ok (a : A)
| Raise (e : exn)
| OutOfFuel.

Arguments Ok {A} a.
Arguments Raise {A} e.
Arguments OutOfFuel {A}.

Definition bind {A B : Type} (m : outcome A) (k : A -> outcome B) : outcome B :=
  match m with
  | Ok a => k a
  | Raise e => Raise e
  | OutOfFuel => OutOfFuel
  end.

Declare Scope outcome_scope.
Delimit Scope outcome_scope with outcome.
Notation "'let*' x ':=' m 'in' k" := (bind m (fun x => k))
  (at level 10, x pattern, m at level 100, k at level 200) : outcome_scope.
Local Open Scope outcome_scope.

Definition returns {A : Type} (m : outcome A) : Prop := exists a, m = Ok a.

(** ** Python numbers *)

Module Py.

Definition prec : Z := 53.
Definition emax : Z := 1024.

Definition float : Type := spec_float.

Inductive num : Type :=
| Int (z : Z)
| Float (f : float).

Definition fadd : float -> float -> float := SFadd prec emax.
Definition fsub : float -> float -> float := SFsub prec emax.
Definition fmul : float -> float -> float := SFmul prec emax.
Definition fdiv : float -> float -> float := SFdiv prec emax.
Definition fsqrt : float -> float := SFsqrt prec emax.

(** The float nearest to an integer (ties to even); may be an infinity. *)
Definition round_Z (z : Z) : float := binary_normalize prec emax z 0 false.

(** [float(z)]: "int too large to convert to float" past the range. *)
Definition float_of_int (z : Z) : outcome float :=
  match round_Z z with
  | S754_infinity _ => Raise OverflowError
  | f => Ok f
  end.

Definition to_float (x : num) : outcome float :=
  match x with
  | Int z => float_of_int z
  | Float f => Ok f
  end.

(** A decimal literal [n / d] where [n] and [d] are small integers:
    the division is correctly rounded, so this is the float that the
    literal denotes ([dec 9 10] is [0.9]). *)
Definition dec (n d : Z) : float := fdiv (round_Z n) (round_Z d).

Definition is_zero (f : float) : bool :=
  match f with
  | S754_zero _ => true
  | _ => false
  end.

(** Exact order between an integer and a float; [None] on NaN. *)
Definition cmp_int_float (z : Z) (f : float) : option comparison :=
  match f with
  | S754_nan => None
  | S754_infinity s => Some (if s then Gt else Lt)
  | S754_zero _ => Some (z ?= 0)
  | S754_finite s m e =>
      let mz := cond_Zopp s (Zpos m) in
      Some (if 0 <=? e then z ?= mz * 2 ^ e else z * 2 ^ (- e) ?= mz)
  end.

Definition cmp (x y : num) : option comparison :=
  match x, y with
  | Int a, Int b => Some (a ?= b)
  | Int a, Float g => cmp_int_float a g
  | Float f, Int b => option_map CompOpp (cmp_int_float b f)
  | Float f, Float g => SFcompare f g
  end.

Definition lt (x y : num) : bool :=
  match cmp x y with Some Lt => true | _ => false end.
Definition gt (x y : num) : bool :=
  match cmp x y with Some Gt => true | _ => false end.
Definition ge (x y : num) : bool :=
  match cmp x y with Some Gt | Some Eq => true | _ => false end.
Definition eq (x y : num) : bool :=
  match cmp x y with Some Eq => true | _ => false end.
Definition ne (x y : num) : bool := negb (eq x y).

(** [x + y], [x - y], [x * y]: integers stay integers, anything else is
    computed in floats after converting the integer operand. *)
Definition arith (fz : Z -> Z -> Z) (ff : float -> float -> float)
           (x y : num) : outcome num :=
  match x, y with
  | Int a, Int b => Ok (Int (fz a b))
  | _, _ =>
      let* f := to_float x in
      let* g := to_float y in
      Ok (Float (ff f g))
  end.

Definition add : num -> num -> outcome num := arith Z.add fadd.
Definition sub : num -> num -> outcome num := arith Z.sub fsub.
Definition mul : num -> num -> outcome num := arith Z.mul fmul.

(** [a / b] on two integers is the correctly rounded quotient, whatever
    their size. *)
Definition int_truediv (a b : Z) : outcome float :=
  match b with
  | Z0 => Raise ZeroDivisionError
  | _ =>
      match a with
      | Z0 => Ok (S754_zero (b <? 0))
      | _ =>
          match fdiv (S754_finite (a <? 0) (Z.to_pos (Z.abs a)) 0)
                     (S754_finite (b <? 0) (Z.to_pos (Z.abs b)) 0) with
          | S754_infinity _ => Raise OverflowError
          | q => Ok q
          end
      end
  end.

(** [x / y]: true division. *)
Definition truediv (x y : num) : outcome float :=
  match x, y with
  | Int a, Int b => int_truediv a b
  | _, _ =>
      let* f := to_float x in
      let* g := to_float y in
      if is_zero g then Raise ZeroDivisionError else Ok (fdiv f g)
  end.

(** [n ** 0.5] on an integer: the integer is converted and the C
    library's [pow] is applied.  [pow] is modelled by the correctly
    rounded square root, with which it agrees whenever the root is a
    float, and like which it vanishes only at zero.  Where the root is
    not a float the two may differ in the last bit; the properties below
    either concern lengths whose root is exact or hold for whatever
    length is computed. *)
Definition int_pow_half (n : Z) : outcome float :=
  let* f := float_of_int n in
  Ok (fsqrt f).

(** [int(x)]: truncation toward zero. *)
Definition trunc (f : float) : outcome Z :=
  match f with
  | S754_zero _ => Ok 0
  | S754_finite s m e =>
      Ok (cond_Zopp s (if 0 <=? e then Zpos m * 2 ^ e
                       else Zpos m / 2 ^ (- e)))
  | S754_infinity _ => Raise OverflowError
  | S754_nan => Raise (ValueError "cannot convert float NaN to integer")
  end.

Definition int (x : num) : outcome Z :=
  match x with
  | Int z => Ok z
  | Float f => trunc f
  end.

(** Nearest integer to [n / d], ties to even ([0 <= n], [0 < d]). *)
Definition div_half_even (n d : Z) : Z :=
  let q := n / d in
  let r := n mod d in
  match 2 * r ?= d with
  | Lt => q
  | Gt => q + 1
  | Eq => if Z.even q then q else q + 1
  end.

(** [round(x)] on a float. *)
Definition round (f : float) : outcome Z :=
  match f with
  | S754_zero _ => Ok 0
  | S754_finite s m e =>
      Ok (cond_Zopp s (if 0 <=? e then Zpos m * 2 ^ e
                       else div_half_even (Zpos m) (2 ^ (- e))))
  | S754_infinity _ => Raise OverflowError
  | S754_nan => Raise (ValueError "cannot convert float NaN to integer")
  end.

Definition str_of_Z (z : Z) : string :=
  NilZero.string_of_int (Z.to_int z).

Fixpoint zeros (n : nat) : string :=
  match n with
  | O => EmptyString
  | S n' => "0" ++ zeros n'
  end.

(** The digits of [n], left-padded with zeros to [p] places. *)
Definition pad (p : nat) (n : Z) : string :=
  let s := str_of_Z n in
  zeros (p - String.length s) ++ s.

(** The scaled magnitude [|f| * 10^p] rounded to an integer, ties to
    even on the exact binary value. *)
Definition scaled (p : nat) (m : positive) (e : Z) : Z :=
  let t := 10 ^ Z.of_nat p in
  if 0 <=? e then Zpos m * 2 ^ e * t
  else div_half_even (Zpos m * t) (2 ^ (- e)).

Definition fixed_digits (p : nat) (n : Z) : string :=
  let t := 10 ^ Z.of_nat p in
  match p with
  | O => str_of_Z n
  | _ => str_of_Z (n / t) ++ "." ++ pad p (n mod t)
  end.

Definition sign_str (s : bool) : string := if s then "-" else EmptyString.

(** [f"{x:.pf}"] on a float. *)
Definition format_float (p : nat) (f : float) : string :=
  match f with
  | S754_nan => "nan"
  | S754_infinity s => sign_str s ++ "inf"
  | S754_zero s => sign_str s ++ fixed_digits p 0
  | S754_finite s m e => sign_str s ++ fixed_digits p (scaled p m e)
  end.

(** [f"{x:.pf}"]: an integer is converted to a float first. *)
Definition format_f (p : nat) (x : num) : outcome string :=
  let* f := to_float x in
  Ok (format_float p f).

End Py.

(** ** Pillow images as histories *)

Definition color : Type := (Z * Z * Z)%type.
Definition point : Type := (Z * Z)%type.

(** A fill is an RGB triple or, for the watermark, RGB plus alpha. *)
Inductive paint : Type :=
| Solid (c : color)
| Alpha (c : color) (opacity : Z).

(** [ImageFont.truetype(path, size)] or [ImageFont.load_default()]. *)
Inductive font : Type :=
| TrueType (path : string) (size : Z)
| DefaultFont.

(** One call on an [ImageDraw] object. *)
Inductive drawop : Type :=
| Rectangle (x1 y1 x2 y2 : Z) (outline : color)
| Line (p q : Py.num * Py.num) (fill : color) (width : Z)
| Polygon (pts : list point) (fill : option color) (outline : option color)
          (width : option Z)
| Ellipse (x1 y1 x2 y2 : Z) (outline : color) (width : Z)
| Text (pos : point) (text : string) (fill : paint) (f : font).

Inductive mode : Type := RGB | RGBA.

(** Where a pasted picture comes from. *)
Inductive source : Type :=
| FromFile (path : string)
| Resized (s : source) (size : Z * Z).

(** One step in the life of an image. *)
Inductive step : Type :=
| Pasted (s : source) (pos : point)
| Drawn (d : drawop)
| Composited (layer : list drawop)
| Converted (m : mode).

Record image : Type := {
  size : Z * Z;
  img_mode : mode;
  history : list step
}.

(** An image of a mode and a size on which nothing has been pasted or
    drawn yet. *)
Definition blank (m : mode) (sz : Z * Z) : image :=
  {| size := sz; img_mode := m; history := [] |}.

Definition record_step (s : step) (im : image) : image :=
  {| size := size im; img_mode := img_mode im; history := history im ++ [s] |}.

Definition draw (d : drawop) : image -> image := record_step (Drawn d).

Definition ipoint (p : point) : Py.num * Py.num :=
  (Py.Int (fst p), Py.Int (snd p)).

(** What the module writes besides its return value: the warning it
    prints, the file that [canvas.save] has written, and the line
    [print(f"图像已保存到: {output_path}")] that follows. *)
Inductive event : Type :=
| LowConfidenceWarning (confidence : Py.num)
| Saved (path : string) (im : image)
| Announced (path : string).

(** [d.get(key, default)] on a key that may be absent. *)
Definition get {A : Type} (o : option A) (default : A) : A :=
  match o with
  | Some a => a
  | None => default
  end.

(** [range(n)] *)
Definition range (n : Z) : list Z := map Z.of_nat (seq 0 (Z.to_nat n)).

(** ** Collaborators *)

(** OpenCV: a decoded image, its [shape[:2]] as (rows, columns), the
    decoder ([None] for a missing or corrupt file), area resampling to a
    (width, height), the normalised correlation map and its extrema
    (min_val, max_val, min_loc, max_loc).

    Pillow and the platform: whether [ImageFont.truetype] loads a path at
    a size, [platform.system()], [draw.textbbox((0, 0), text, font)] and
    [str.lower]; Pillow's own decoder, [Image.open(path).convert('RGB')],
    which gives the size (width, height) of the picture or the exception
    it raises; the exception, if any, with which Pillow's storage refuses
    an image of a size (too large for the memory or for the C integers);
    and the exception, if any, with which [canvas.save(path, quality=95)]
    fails. *)
Class Collaborators : Type := {
  Mat : Type;
  shape : Mat -> Z * Z;
  imread : string -> option Mat;
  resize : Mat -> Z * Z -> Mat;
  ResultMap : Type;
  matchTemplate : Mat -> Mat -> ResultMap;
  minMaxLoc : ResultMap -> Py.float * Py.float * point * point;
  font_file : string -> Z -> bool;
  system : string;
  textbbox : string -> font -> Z * Z * Z * Z;
  lower : string -> string;
  decode : string -> exn + Z * Z;
  storage : Z * Z -> option exn;
  save : string -> image -> option exn
}.

(** ** The module *)

Section RoiZoomTool.

Context `{Collaborators}.

(** *** get_default_font, get_font *)

Definition truetype (path : string) (sz : Z) : option font :=
  if font_file path sz then Some (TrueType path sz) else None.

(** [for path in font_paths: try: return truetype(path, size)
    except: continue] *)
Fixpoint first_font (font_paths : list string) (sz : Z) : option font :=
  match font_paths with
  | [] => None
  | path :: rest =>
      match truetype path sz with
      | Some f => Some f
      | None => first_font rest sz
      end
  end.

Definition get_default_font (sz : Z) : font :=
  let font_paths :=
    if (system =? "Darwin")%string then
      [ "/System/Library/Fonts/Helvetica.ttc";
        "/System/Library/Fonts/STHeiti Light.ttc";
        "/Library/Fonts/Arial.ttf" ]
    else if (system =? "Windows")%string then
      [ "C:/Windows/Fonts/arial.ttf";
        "C:/Windows/Fonts/msyh.ttc" ]
    else
      [ "/usr/share/fonts/truetype/dejavu/DejaVuSans.ttf";
        "/usr/share/fonts/truetype/liberation/LiberationSans-Regular.ttf" ]
  in
  get (first_font font_paths sz) DefaultFont.

Definition get_font (font_family : string) (font_size : Z) : font :=
  match truetype font_family font_size with
  | Some f => f
  | None =>
      let font_paths :=
        [ "/System/Library/Fonts/" ++ font_family ++ ".ttf";
          "/System/Library/Fonts/Supplemental/" ++ font_family ++ ".ttf";
          "/Library/Fonts/" ++ font_family ++ ".ttf";
          "C:/Windows/Fonts/" ++ font_family ++ ".ttf";
          "/usr/share/fonts/truetype/" ++ lower font_family ++ "/"
            ++ font_family ++ ".ttf" ]%string
      in
      match first_font font_paths font_size with
      | Some f => f
      | None => get_default_font font_size
      end
  end.

(** *** find_roi_position *)

(** (x, y, w, h, scale) *)
Definition best_match_t : Type := (Z * Z * Z * Z * Py.float)%type.

Record search : Type := {
  best_match : option best_match_t;
  best_confidence : Py.num
}.

Definition scales : list Py.float :=
  [ Py.dec 10 10; Py.dec 9 10; Py.dec 8 10; Py.dec 7 10; Py.dec 6 10;
    Py.dec 5 10; Py.dec 4 10; Py.dec 3 10; Py.dec 25 100; Py.dec 2 10;
    Py.dec 15 100; Py.dec 1 10 ].

(** [int(n * scale)] *)
Definition scaled_dim (n : Z) (scale : Py.num) : outcome Z :=
  let* p := Py.mul (Py.Int n) scale in
  Py.int p.

(** One turn of [for scale in scales]. *)
Definition try_scale (panorama zoom_img : Mat) (st : search)
           (scale : Py.float) : outcome search :=
  let '(zoom_h, zoom_w) := shape zoom_img in
  let '(pano_h, pano_w) := shape panorama in
  let* new_w := scaled_dim zoom_w (Py.Float scale) in
  let* new_h := scaled_dim zoom_h (Py.Float scale) in
  if (new_w >=? pano_w) || (new_h >=? pano_h) then Ok st
  else if (new_w <? 10) || (new_h <? 10) then Ok st
  else
    let template := resize zoom_img (new_w, new_h) in
    let result := matchTemplate panorama template in
    let '(min_val, max_val, min_loc, max_loc) := minMaxLoc result in
    if Py.gt (Py.Float max_val) (best_confidence st) then
      Ok {| best_match :=
              Some (fst max_loc, snd max_loc, new_w, new_h, scale);
            best_confidence := Py.Float max_val |}
    else Ok st.

Fixpoint search_scales (panorama zoom_img : Mat) (ss : list Py.float)
         (st : search) : outcome search :=
  match ss with
  | [] => Ok st
  | scale :: rest =>
      let* st' := try_scale panorama zoom_img st scale in
      search_scales panorama zoom_img rest st'
  end.

Definition no_match_message : string := "无法找到匹配位置".

Definition find_roi_position (panorama_path zoom_path : string)
  : outcome (Z * Z * Z * Z * Py.num) :=
  match imread panorama_path, imread zoom_path with
  | None, _ => Raise (ValueError ("无法读取全景图: " ++ panorama_path))
  | Some _, None => Raise (ValueError ("无法读取放大图: " ++ zoom_path))
  | Some panorama, Some zoom_img =>
      let* st := search_scales panorama zoom_img scales
                   {| best_match := None; best_confidence := Py.Int (-1) |} in
      match best_match st with
      | None => Raise (ValueError no_match_message)
      | Some (x, y, w, h, scale) => Ok (x, y, w, h, best_confidence st)
      end
  end.

(** *** draw_dashed_line *)

(** [min(a, b)]: [b] when [b < a], else [a]. *)
Definition py_min (a b : Py.num) : Py.num := if Py.lt b a then b else a.

(** [x1 + ux * t] *)
Definition along (x1 : Z) (ux : Py.float) (t : Py.num) : outcome Py.num :=
  let* d := Py.mul (Py.Float ux) t in
  Py.add (Py.Int x1) d.

(** The two end points of the dash that starts at [current_pos]. *)
Definition dash_ends (x1 y1 : Z) (ux uy : Py.float) (current_pos : Z)
           (seg_length : Py.num)
  : outcome ((Py.num * Py.num) * (Py.num * Py.num)) :=
  let* sx := along x1 ux (Py.Int current_pos) in
  let* sy := along y1 uy (Py.Int current_pos) in
  let* tx := Py.add (Py.Int current_pos) seg_length in
  let* ex := along x1 ux tx in
  let* ty := Py.add (Py.Int current_pos) seg_length in
  let* ey := along y1 uy ty in
  Ok ((sx, sy), (ex, ey)).

(** [seg_length = min(dash_length, length - current_pos)] *)
Definition seg_length_at (length : Py.float) (dash_length current_pos : Z)
  : outcome Py.num :=
  let* rest := Py.sub (Py.Float length) (Py.Int current_pos) in
  Ok (py_min (Py.Int dash_length) rest).

(** [while current_pos < length: ...]; one unit of fuel per turn. *)
Fixpoint dash_loop (fuel : nat) (x1 y1 : Z) (ux uy length : Py.float)
         (fill : color) (width dash_length gap_length : Z)
         (current_pos : Z) (drawing : bool) (im : image) : outcome image :=
  if Py.lt (Py.Int current_pos) (Py.Float length) then
    match fuel with
    | O => OutOfFuel
    | S fuel' =>
        if drawing then
          let* seg_length := seg_length_at length dash_length current_pos in
          let* (seg_start, seg_end) :=
            dash_ends x1 y1 ux uy current_pos seg_length in
          dash_loop fuel' x1 y1 ux uy length fill width dash_length
            gap_length (current_pos + dash_length) (negb drawing)
            (draw (Line seg_start seg_end fill width) im)
        else
          dash_loop fuel' x1 y1 ux uy length fill width dash_length
            gap_length (current_pos + gap_length) (negb drawing) im
    end
  else Ok im.

Definition draw_dashed_line (fuel : nat) (im : image) (start end_ : point)
           (fill : color) (width dash_length gap_length : Z)
  : outcome image :=
  let '(x1, y1) := start in
  let '(x2, y2) := end_ in
  let dx := x2 - x1 in
  let dy := y2 - y1 in
  let* length := Py.int_pow_half (dx ^ 2 + dy ^ 2) in
  if Py.eq (Py.Float length) (Py.Int 0) then Ok im
  else
    let* ux := Py.truediv (Py.Int dx) (Py.Float length) in
    let* uy := Py.truediv (Py.Int dy) (Py.Float length) in
    dash_loop fuel x1 y1 ux uy length fill width dash_length gap_length
      0 true im.

(** *** draw_scale_bar *)

(** The label: millimetres with one decimal from 1000 micrometres on,
    whole micrometres below. *)
Definition scale_bar_text (length_um : Py.num) : outcome string :=
  if Py.ge length_um (Py.Int 1000) then
    let* mm := Py.truediv length_um (Py.Int 1000) in
    Ok (Py.format_float 1 mm ++ " mm")%string
  else
    let* um := Py.format_f 0 length_um in
    Ok (um ++ " μm")%string.

Definition vline (x y1 y2 : Z) (fill : color) (width : Z) : drawop :=
  Line (ipoint (x, y1)) (ipoint (x, y2)) fill width.

(** The bar itself and, by style, its end ticks and centre tick. *)
Definition scale_bar_strokes (im : image) (x y length_pixels : Z)
           (fill : color) (thickness : Z) (style : string) : image :=
  let im := draw (Line (ipoint (x, y)) (ipoint (x + length_pixels, y))
                       fill thickness) im in
  let end_height := thickness * 3 in
  if (style =? "ends")%string then
    let im := draw (vline x (y - end_height) (y + end_height)
                          fill thickness) im in
    draw (vline (x + length_pixels) (y - end_height) (y + end_height)
                fill thickness) im
  else if (style =? "ticks")%string then
    let im := draw (vline x (y - end_height) (y + end_height)
                          fill thickness) im in
    let im := draw (vline (x + length_pixels) (y - end_height)
                          (y + end_height) fill thickness) im in
    let mid_x := x + length_pixels / 2 in
    let mid_height := end_height / 2 in
    draw (vline mid_x (y - mid_height) (y + mid_height) fill
                (Z.max 1 (thickness / 2))) im
  else im.

Definition draw_scale_bar (im : image) (position : point)
           (length_pixels : Z) (length_um : Py.num) (fill : color)
           (thickness font_size : Z) (show_text : bool) (style : string)
           (font_family : string) (text_gap : Z) : outcome image :=
  let '(x, y) := position in
  let im := scale_bar_strokes im x y length_pixels fill thickness style in
  let end_height := thickness * 3 in
  if show_text then
    let f := get_font font_family font_size in
    let* text := scale_bar_text length_um in
    let '(b0, b1, b2, b3) := textbbox text f in
    let text_width := b2 - b0 in
    let text_height := b3 - b1 in
    let text_x := x + (length_pixels - text_width) / 2 in
    let text_y :=
      if (style =? "line")%string then y - text_height - text_gap
      else y - end_height - text_height - text_gap in
    Ok (draw (Text (text_x, text_y) text (Solid fill) f) im)
  else Ok im.

(** *** draw_annotation *)

Definition arrow (x y end_x end_y : Z) (head : list point) (fill : color)
           (thickness : Z) (im : image) : image :=
  let im := draw (Line (ipoint (x, y)) (ipoint (end_x, end_y))
                       fill thickness) im in
  draw (Polygon head (Some fill) None None) im.

Definition draw_annotation (im : image) (annotation_type : string)
           (position : point) (fill : color) (sz thickness : Z)
           (text : option string) (font_size : Z) (direction : string)
  : image :=
  let '(x, y) := position in
  if (annotation_type =? "arrow")%string then
    let arrow_length := sz in
    let head_length := sz / 3 in
    let head_width := sz / 4 in
    if (direction =? "up")%string then
      let end_y := y - arrow_length in
      arrow x y x end_y
        [ (x, end_y); (x - head_width, end_y + head_length);
          (x + head_width, end_y + head_length) ] fill thickness im
    else if (direction =? "down")%string then
      let end_y := y + arrow_length in
      arrow x y x end_y
        [ (x, end_y); (x - head_width, end_y - head_length);
          (x + head_width, end_y - head_length) ] fill thickness im
    else if (direction =? "left")%string then
      let end_x := x - arrow_length in
      arrow x y end_x y
        [ (end_x, y); (end_x + head_length, y - head_width);
          (end_x + head_length, y + head_width) ] fill thickness im
    else if (direction =? "right")%string then
      let end_x := x + arrow_length in
      arrow x y end_x y
        [ (end_x, y); (end_x - head_length, y - head_width);
          (end_x - head_length, y + head_width) ] fill thickness im
    else im
  else if (annotation_type =? "star")%string then
    let f := get_default_font (sz * 2) in
    draw (Text (x - sz / 2, y - sz) "*" (Solid fill) f) im
  else if (annotation_type =? "circle")%string then
    draw (Ellipse (x - sz) (y - sz) (x + sz) (y + sz) fill thickness) im
  else if (annotation_type =? "triangle")%string then
    let points := [ (x, y - sz); (x - sz, y + sz); (x + sz, y + sz) ] in
    draw (Polygon points None (Some fill) (Some thickness)) im
  else if (annotation_type =? "text")%string then
    match text with
    | Some t =>
        if (t =? EmptyString)%string then im
        else draw (Text (x, y) t (Solid fill) (get_default_font font_size)) im
    | None => im
    end
  else im.

(** *** draw_watermark *)

Definition watermark_margin : Z := 20.

(** Where the text goes on a canvas of the given size. *)
Definition watermark_origin (position : string) (img_size : Z * Z)
           (text_width text_height : Z) : point :=
  let margin := watermark_margin in
  let '(img_width, img_height) := img_size in
  if (position =? "bottom-right")%string then
    (img_width - text_width - margin, img_height - text_height - margin)
  else if (position =? "bottom-left")%string then
    (margin, img_height - text_height - margin)
  else if (position =? "top-right")%string then
    (img_width - text_width - margin, margin)
  else if (position =? "top-left")%string then
    (margin, margin)
  else
    ((img_width - text_width) / 2, (img_height - text_height) / 2).

(** What is drawn on the transparent layer. *)
Definition watermark_layer (img_size : Z * Z) (text : string)
           (position : string) (opacity font_size : Z) (c : color)
  : list drawop :=
  let f := get_default_font font_size in
  let '(b0, b1, b2, b3) := textbbox text f in
  let text_width := b2 - b0 in
  let text_height := b3 - b1 in
  let xy := watermark_origin position img_size text_width text_height in
  [ Text xy text (Alpha c opacity) f ].

Definition draw_watermark (im : image) (text : string) (position : string)
           (opacity font_size : Z) (c : color) : image :=
  let layer := watermark_layer (size im) text position opacity font_size c in
  let converted :=
    match img_mode im with
    | RGBA => []
    | RGB => [ Converted RGBA ]
    end in
  {| size := size im;
     img_mode := RGB;
     history := history im ++ converted
                  ++ [ Composited layer; Converted RGB ] |}.

(** *** create_zoom_figure *)

(** The dictionaries the caller passes; an absent key is [None]. *)
Record scale_bar_config : Type := {
  sb_enabled : option bool;
  sb_position : option string;
  sb_corner : option string;
  sb_offset_x : option Z;
  sb_offset_y : option Z;
  sb_length_um : option Py.num;
  sb_pixels_per_um : option Py.num;
  sb_color : option color;
  sb_thickness : option Z;
  sb_font_size : option Z;
  sb_style : option string;
  sb_font_family : option string;
  sb_text_gap : option Z
}.

Record annotation : Type := {
  ann_type : option string;
  ann_position : option point;
  ann_target : option string;
  ann_color : option color;
  ann_size : option Z;
  ann_thickness : option Z;
  ann_text : option string;
  ann_font_size : option Z;
  ann_direction : option string
}.

Record watermark_config : Type := {
  wm_enabled : option bool;
  wm_text : option string;
  wm_position : option string;
  wm_opacity : option Z;
  wm_font_size : option Z;
  wm_color : option color
}.

(** [scale_bar] is [None], one dictionary, or a list of them. *)
Inductive scale_bar_arg : Type :=
| NoScaleBar
| OneScaleBar (sb : scale_bar_config)
| ScaleBars (sbs : list scale_bar_config).

Record figure_args : Type := {
  panorama_path : string;
  zoom_path : string;
  output_path : string;
  box_color : color;
  box_thickness : Z;
  line_color : color;
  line_thickness : Z;
  zoom_position : string;
  zoom_scale : Py.num;
  padding : Z;
  zoom_box_color : color;
  zoom_box_thickness : Z;
  line_style : string;
  dash_length : Z;
  gap_length : Z;
  roi_offset : Z * Z;
  scale_bar : scale_bar_arg;
  annotations : option (list annotation);
  watermark : option watermark_config
}.

Record metadata : Type := {
  roi_x : Z;
  roi_y : Z;
  roi_w : Z;
  roi_h : Z;
  confidence : Py.num;
  pano_pos : point;
  zoom_pos : point
}.

Record layout : Type := {
  canvas_w : Z;
  canvas_h : Z;
  lay_pano_pos : point;
  lay_zoom_pos : point
}.

(** The four-way placement: canvas size and the corner of each image. *)
Definition compute_layout (zoom_position : string) (pano_size zoom_size : Z * Z)
           (padding margin : Z) : layout :=
  let '(pano_w, pano_h) := pano_size in
  let '(zoom_w, zoom_h) := zoom_size in
  if (zoom_position =? "right")%string then
    {| canvas_w := margin + pano_w + padding + zoom_w + margin;
       canvas_h := margin + Z.max pano_h zoom_h + margin;
       lay_pano_pos := (margin, margin + (Z.max pano_h zoom_h - pano_h) / 2);
       lay_zoom_pos := (margin + pano_w + padding,
                        margin + (Z.max pano_h zoom_h - zoom_h) / 2) |}
  else if (zoom_position =? "left")%string then
    {| canvas_w := margin + zoom_w + padding + pano_w + margin;
       canvas_h := margin + Z.max pano_h zoom_h + margin;
       lay_pano_pos := (margin + zoom_w + padding,
                        margin + (Z.max pano_h zoom_h - pano_h) / 2);
       lay_zoom_pos := (margin, margin + (Z.max pano_h zoom_h - zoom_h) / 2) |}
  else if (zoom_position =? "bottom")%string then
    {| canvas_w := margin + Z.max pano_w zoom_w + margin;
       canvas_h := margin + pano_h + padding + zoom_h + margin;
       lay_pano_pos := (margin + (Z.max pano_w zoom_w - pano_w) / 2, margin);
       lay_zoom_pos := (margin + (Z.max pano_w zoom_w - zoom_w) / 2,
                        margin + pano_h + padding) |}
  else
    {| canvas_w := margin + Z.max pano_w zoom_w + margin;
       canvas_h := margin + zoom_h + padding + pano_h + margin;
       lay_pano_pos := (margin + (Z.max pano_w zoom_w - pano_w) / 2,
                        margin + zoom_h + padding);
       lay_zoom_pos := (margin + (Z.max pano_w zoom_w - zoom_w) / 2, margin) |}.

(** [margin = max(box_thickness, zoom_box_thickness) + 5] *)
Definition border_margin (a : figure_args) : Z :=
  Z.max (box_thickness a) (zoom_box_thickness a) + 5.

(** [for i in range(t): draw.rectangle([x1 - i, y1 - i, x2 + i, y2 + i])] *)
Definition draw_border (x1 y1 x2 y2 t : Z) (outline : color) (im : image)
  : image :=
  fold_left
    (fun im i => draw (Rectangle (x1 - i) (y1 - i) (x2 + i) (y2 + i) outline) im)
    (range t) im.

(** [Image.open(path).convert('RGB')]: Pillow decodes the file itself,
    whatever OpenCV made of it; the picture comes with its size
    (width, height). *)
Definition Image_open (path : string) : outcome (source * (Z * Z)) :=
  match decode path with
  | inr sz => Ok (FromFile path, sz)
  | inl e => Raise e
  end.

(** [Image.new(mode, size, color)]: a negative width or height is
    refused, and so is a size that the storage cannot hold. *)
Definition Image_new (m : mode) (sz : Z * Z) : outcome image :=
  if (fst sz <? 0) || (snd sz <? 0)
  then Raise (ValueError "Width and height must be >= 0")
  else
    match storage sz with
    | Some e => Raise e
    | None => Ok (blank m sz)
    end.

(** [img.resize(size, Image.Resampling.LANCZOS)]: a width or a height
    below 1 is refused, and so is a size that the storage cannot hold. *)
Definition Image_resize (img : source) (sz : Z * Z)
  : outcome (source * (Z * Z)) :=
  if (fst sz <? 1) || (snd sz <? 1)
  then Raise (ValueError "height and width must be > 0")
  else
    match storage sz with
    | Some e => Raise e
    | None => Ok (Resized img sz, sz)
    end.

Definition draw_guide_line (fuel : nat) (a : figure_args) (im : image)
           (start end_ : point) : outcome image :=
  if (line_style a =? "dashed")%string then
    draw_dashed_line fuel im start end_ (line_color a) (line_thickness a)
      (dash_length a) (gap_length a)
  else
    Ok (draw (Line (ipoint start) (ipoint end_) (line_color a)
                   (line_thickness a)) im).

(** A dictionary is true when it has a key. *)
Definition sb_nonempty (c : scale_bar_config) : bool :=
  match c with
  | {| sb_enabled := None; sb_position := None; sb_corner := None;
       sb_offset_x := None; sb_offset_y := None; sb_length_um := None;
       sb_pixels_per_um := None; sb_color := None; sb_thickness := None;
       sb_font_size := None; sb_style := None; sb_font_family := None;
       sb_text_gap := None |} => false
  | _ => true
  end.

Definition wm_nonempty (c : watermark_config) : bool :=
  match c with
  | {| wm_enabled := None; wm_text := None; wm_position := None;
       wm_opacity := None; wm_font_size := None; wm_color := None |} => false
  | _ => true
  end.

(** [int(sb_length_um * sb_pixels_per_um)] *)
Definition sb_length_pixels_of (sb_config : scale_bar_config) : outcome Z :=
  let sb_length_um := get (sb_length_um sb_config) (Py.Int 100) in
  let sb_pixels_per_um :=
    get (sb_pixels_per_um sb_config) (Py.Float (Py.dec 1 1)) in
  let* p := Py.mul sb_length_um sb_pixels_per_um in
  Py.int p.

(** Where the bar starts: (sb_x, sb_y). *)
Definition sb_anchor (sb_config : scale_bar_config) (sb_length_pixels : Z)
           (pano_pos zoom_pos : point) (pano_size zoom_size : Z * Z) : point :=
  let sb_position := get (sb_position sb_config) "zoom" in
  let sb_corner := get (sb_corner sb_config) "right" in
  let sb_offset_x := get (sb_offset_x sb_config) 30 in
  let sb_offset_y := get (sb_offset_y sb_config) 30 in
  if (sb_position =? "panorama")%string then
    let sb_x :=
      if (sb_corner =? "left")%string then fst pano_pos + sb_offset_x
      else fst pano_pos + fst pano_size - sb_length_pixels - sb_offset_x in
    (sb_x, snd pano_pos + snd pano_size - sb_offset_y)
  else
    let sb_x :=
      if (sb_corner =? "left")%string then fst zoom_pos + sb_offset_x
      else fst zoom_pos + fst zoom_size - sb_length_pixels - sb_offset_x in
    (sb_x, snd zoom_pos + snd zoom_size - sb_offset_y).

Definition draw_single_scale_bar (pano_pos zoom_pos : point)
           (pano_size zoom_size : Z * Z) (im : image)
           (sb_config : scale_bar_config) : outcome image :=
  if negb (sb_nonempty sb_config) || negb (get (sb_enabled sb_config) false)
  then Ok im
  else
    let* sb_length_pixels := sb_length_pixels_of sb_config in
    let xy := sb_anchor sb_config sb_length_pixels pano_pos zoom_pos
                        pano_size zoom_size in
    draw_scale_bar im xy sb_length_pixels
      (get (sb_length_um sb_config) (Py.Int 100))
      (get (sb_color sb_config) (0, 0, 0))
      (get (sb_thickness sb_config) 5)
      (get (sb_font_size sb_config) 24)
      true
      (get (sb_style sb_config) "ends")
      (get (sb_font_family sb_config) "Arial")
      (get (sb_text_gap sb_config) 5).

Fixpoint draw_scale_bars (pano_pos zoom_pos : point)
         (pano_size zoom_size : Z * Z) (sbs : list scale_bar_config)
         (im : image) : outcome image :=
  match sbs with
  | [] => Ok im
  | sb :: rest =>
      let* im' := draw_single_scale_bar pano_pos zoom_pos pano_size
                    zoom_size im sb in
      draw_scale_bars pano_pos zoom_pos pano_size zoom_size rest im'
  end.

Definition draw_one_annotation (pano_pos zoom_pos : point) (im : image)
           (ann : annotation) : image :=
  let ann_type := get (ann_type ann) "arrow" in
  let ann_pos := get (ann_position ann) (0, 0) in
  let ann_target := get (ann_target ann) "zoom" in
  let abs_pos :=
    if (ann_target =? "panorama")%string then
      (fst pano_pos + fst ann_pos, snd pano_pos + snd ann_pos)
    else
      (fst zoom_pos + fst ann_pos, snd zoom_pos + snd ann_pos) in
  draw_annotation im ann_type abs_pos
    (get (ann_color ann) (255, 0, 0))
    (get (ann_size ann) 20)
    (get (ann_thickness ann) 3)
    (ann_text ann)
    (get (ann_font_size ann) 16)
    (get (ann_direction ann) "up").

(** The two guide lines: which corners of the ROI box meet which corners
    of the zoom border. *)
Definition guide_lines (zoom_position : string)
           (box_x1 box_y1 box_x2 box_y2 : Z)
           (zoom_box_x1 zoom_box_y1 zoom_box_x2 zoom_box_y2 : Z)
  : (point * point) * (point * point) :=
  if (zoom_position =? "right")%string then
    (((box_x2, box_y1), (zoom_box_x1, zoom_box_y1)),
     ((box_x2, box_y2), (zoom_box_x1, zoom_box_y2)))
  else if (zoom_position =? "left")%string then
    (((box_x1, box_y1), (zoom_box_x2, zoom_box_y1)),
     ((box_x1, box_y2), (zoom_box_x2, zoom_box_y2)))
  else if (zoom_position =? "bottom")%string then
    (((box_x1, box_y2), (zoom_box_x1, zoom_box_y1)),
     ((box_x2, box_y2), (zoom_box_x2, zoom_box_y1)))
  else
    (((box_x1, box_y1), (zoom_box_x1, zoom_box_y2)),
     ((box_x2, box_y1), (zoom_box_x2, zoom_box_y2))).

(** Read both images and scale the zoom image: each comes with where it
    is from and its size (width, height). *)
Definition load_images (a : figure_args)
  : outcome ((source * (Z * Z)) * (source * (Z * Z))) :=
  let* (panorama, pano_size) := Image_open (panorama_path a) in
  let* (zoom_img, zoom_size) := Image_open (zoom_path a) in
  let* zoom :=
    if Py.ne (zoom_scale a) (Py.Float (Py.dec 1 1)) then
      let* nw := scaled_dim (fst zoom_size) (zoom_scale a) in
      let* nh := scaled_dim (snd zoom_size) (zoom_scale a) in
      Image_resize zoom_img (nw, nh)
    else Ok (zoom_img, zoom_size) in
  Ok ((panorama, pano_size), zoom).

(** The corners of the ROI box on the canvas. *)
Definition roi_box (lay : layout) (x y w h : Z) : Z * Z * Z * Z :=
  let box_x1 := fst (lay_pano_pos lay) + x in
  let box_y1 := snd (lay_pano_pos lay) + y in
  (box_x1, box_y1, box_x1 + w, box_y1 + h).

(** The new canvas with both images pasted, the panorama border, the
    ROI box and the zoom border. *)
Definition framed_canvas (a : figure_args) (lay : layout) (x y w h : Z)
           (panorama : source) (pano_size : Z * Z)
           (zoom_img : source) (zoom_size : Z * Z) (canvas : image) : image :=
  let '(pano_w, pano_h) := pano_size in
  let '(zoom_w, zoom_h) := zoom_size in
  let pano_pos := lay_pano_pos lay in
  let zoom_pos := lay_zoom_pos lay in
  let canvas := record_step (Pasted panorama pano_pos) canvas in
  let canvas := record_step (Pasted zoom_img zoom_pos) canvas in
  let canvas :=
    draw_border (fst pano_pos) (snd pano_pos) (fst pano_pos + pano_w)
      (snd pano_pos + pano_h) (zoom_box_thickness a) (zoom_box_color a)
      canvas in
  let '(box_x1, box_y1, box_x2, box_y2) := roi_box lay x y w h in
  let canvas :=
    draw_border box_x1 box_y1 box_x2 box_y2 (box_thickness a) (box_color a)
      canvas in
  draw_border (fst zoom_pos) (snd zoom_pos) (fst zoom_pos + zoom_w)
    (snd zoom_pos + zoom_h) (zoom_box_thickness a) (zoom_box_color a) canvas.

(** The two guide lines. *)
Definition draw_guide_lines (fuel : nat) (a : figure_args) (lay : layout)
           (x y w h : Z) (zoom_size : Z * Z) (canvas : image)
  : outcome image :=
  let '(box_x1, box_y1, box_x2, box_y2) := roi_box lay x y w h in
  let zoom_pos := lay_zoom_pos lay in
  let '(g1, g2) :=
    guide_lines (zoom_position a) box_x1 box_y1 box_x2 box_y2
      (fst zoom_pos) (snd zoom_pos) (fst zoom_pos + fst zoom_size)
      (snd zoom_pos + snd zoom_size) in
  let* canvas := draw_guide_line fuel a canvas (fst g1) (snd g1) in
  draw_guide_line fuel a canvas (fst g2) (snd g2).

(** [if scale_bar: ...]: one bar or a list of bars. *)
Definition draw_all_scale_bars (a : figure_args) (lay : layout)
           (pano_size zoom_size : Z * Z) (canvas : image) : outcome image :=
  match scale_bar a with
  | NoScaleBar => Ok canvas
  | OneScaleBar sb =>
      if sb_nonempty sb then
        draw_single_scale_bar (lay_pano_pos lay) (lay_zoom_pos lay)
          pano_size zoom_size canvas sb
      else Ok canvas
  | ScaleBars sbs =>
      draw_scale_bars (lay_pano_pos lay) (lay_zoom_pos lay) pano_size
        zoom_size sbs canvas
  end.

(** [if annotations: for ann in annotations: ...] *)
Definition draw_annotations (a : figure_args) (lay : layout) (canvas : image)
  : image :=
  match annotations a with
  | Some anns =>
      fold_left (draw_one_annotation (lay_pano_pos lay) (lay_zoom_pos lay))
        anns canvas
  | None => canvas
  end.

(** [if watermark and watermark.get('enabled'): ...] *)
Definition add_watermark (a : figure_args) (canvas : image) : image :=
  match watermark a with
  | Some wm =>
      if wm_nonempty wm && get (wm_enabled wm) false then
        draw_watermark canvas
          (get (wm_text wm) EmptyString)
          (get (wm_position wm) "bottom-right")
          (get (wm_opacity wm) 128)
          (get (wm_font_size wm) 24)
          (get (wm_color wm) (128, 128, 128))
      else canvas
  | None => canvas
  end.

(** Everything between the confidence check and [canvas.save]: read and
    scale the images, lay them out, make the canvas, paste, draw borders,
    ROI box, guide lines, scale bars, annotations and the watermark.
    [x y w h] is the located box after the manual offset; the confidence
    is not among the arguments. *)
Definition compose (fuel : nat) (a : figure_args) (x y w h : Z)
  : outcome (image * layout) :=
  let* ((panorama, pano_size), (zoom_img, zoom_size)) := load_images a in
  let lay := compute_layout (zoom_position a) pano_size zoom_size
                            (padding a) (border_margin a) in
  let* canvas := Image_new RGB (canvas_w lay, canvas_h lay) in
  let canvas :=
    framed_canvas a lay x y w h panorama pano_size zoom_img zoom_size
      canvas in
  let* canvas := draw_guide_lines fuel a lay x y w h zoom_size canvas in
  let* canvas := draw_all_scale_bars a lay pano_size zoom_size canvas in
  let canvas := draw_annotations a lay canvas in
  let canvas := add_watermark a canvas in
  Ok (canvas, lay).

(** The orchestrator.  Besides its outcome it reports what it printed
    and saved on the way: the warning before anything is read or drawn,
    the file and the line that announces it once the canvas is complete
    and [canvas.save] has returned. *)
Definition create_zoom_figure (fuel : nat) (a : figure_args)
  : list event * outcome (image * metadata) :=
  match find_roi_position (panorama_path a) (zoom_path a) with
  | Ok (x, y, w, h, best_confidence) =>
      let x := x + fst (roi_offset a) in
      let y := y + snd (roi_offset a) in
      let warned :=
        if Py.lt best_confidence (Py.Float (Py.dec 5 10))
        then [ LowConfidenceWarning best_confidence ] else [] in
      match compose fuel a x y w h with
      | Ok (canvas, lay) =>
          match save (output_path a) canvas with
          | None =>
              ((warned ++ [ Saved (output_path a) canvas;
                            Announced (output_path a) ])%list,
               Ok (canvas,
                   {| roi_x := x; roi_y := y; roi_w := w; roi_h := h;
                      confidence := best_confidence;
                      pano_pos := lay_pano_pos lay;
                      zoom_pos := lay_zoom_pos lay |}))
          | Some e => (warned, Raise e)
          end
      | Raise e => (warned, Raise e)
      | OutOfFuel => (warned, OutOfFuel)
      end
  | Raise e => ([], Raise e)
  | OutOfFuel => ([], OutOfFuel)
  end.

End RoiZoomTool.

(** ** A laboratory instance of the collaborators

    Two files exist, ["pano.png"] and ["zoom.png"]; a decoded image is its
    shape (rows, columns); every correlation map has the same peak at the
    same place; no font file loads, so every text is set in the default
    font; every size is stored.  A [studio] is told what Pillow makes of
    a file, how the font measures a text and which paths cannot be
    written; on the [bench] Pillow decodes what OpenCV decodes, a text
    measures ten pixels a byte and twelve pixels high from the origin,
    and every path can be written. *)

Module Lab.

Definition files (pano zoom : Z * Z) (path : string) : option (Z * Z) :=
  if (path =? "pano.png")%string then Some pano
  else if (path =? "zoom.png")%string then Some zoom
  else None.

Definition studio (pano zoom : Z * Z) (peak : Py.float) (loc : point)
           (pictures : string -> exn + Z * Z)
           (measure : string -> Z * Z * Z * Z)
           (refused : string -> option exn)
  : Collaborators :=
  {| Mat := (Z * Z)%type;
     shape := fun m => m;
     imread := files pano zoom;
     resize := fun _ sz => (snd sz, fst sz);
     ResultMap := unit;
     matchTemplate := fun _ _ => tt;
     minMaxLoc := fun _ => (peak, peak, loc, loc);
     font_file := fun _ _ => false;
     system := "Linux";
     textbbox := fun text _ => measure text;
     lower := fun s => s;
     decode := pictures;
     storage := fun _ => None;
     save := fun path _ => refused path |}.

(** Pillow finds the pictures that OpenCV finds, (columns, rows) in
    size. *)
Definition upright (pano zoom : Z * Z) (path : string) : exn + Z * Z :=
  match files pano zoom path with
  | Some (rows, cols) => inr (cols, rows)
  | None => inl (OSError path)
  end.

Definition monospace (text : string) : Z * Z * Z * Z :=
  (0, 0, 10 * Z.of_nat (String.length text), 12).

Definition bench (pano zoom : Z * Z) (peak : Py.float) (loc : point)
  : Collaborators :=
  studio pano zoom peak loc (upright pano zoom) monospace (fun _ => None).

Definition red : color := (255, 0, 0).

(** The defaults of [create_zoom_figure]. *)
Definition defaults : figure_args :=
  {| panorama_path := "pano.png";
     zoom_path := "zoom.png";
     output_path := "out.png";
     box_color := red;
     box_thickness := 3;
     line_color := red;
     line_thickness := 2;
     zoom_position := "right";
     zoom_scale := Py.Float (Py.dec 1 1);
     padding := 50;
     zoom_box_color := red;
     zoom_box_thickness := 3;
     line_style := "solid";
     dash_length := 15;
     gap_length := 10;
     roi_offset := (0, 0);
     scale_bar := NoScaleBar;
     annotations := None;
     watermark := None |}.

(** [{'enabled': True, 'length_um': l, 'pixels_per_um': r}] *)
Definition bar (l r : Py.num) : scale_bar_config :=
  {| sb_enabled := Some true; sb_position := None; sb_corner := None;
     sb_offset_x := None; sb_offset_y := None; sb_length_um := Some l;
     sb_pixels_per_um := Some r; sb_color := None; sb_thickness := None;
     sb_font_size := None; sb_style := None; sb_font_family := None;
     sb_text_gap := None |}.

(** [{'enabled': True, 'text': t}] *)
Definition mark (t : string) : watermark_config :=
  {| wm_enabled := Some true; wm_text := Some t; wm_position := None;
     wm_opacity := None; wm_font_size := None; wm_color := None |}.

Definition with_scale_bar (sb : scale_bar_arg) (a : figure_args)
  : figure_args :=
  {| panorama_path := panorama_path a; zoom_path := zoom_path a;
     output_path := output_path a; box_color := box_color a;
     box_thickness := box_thickness a; line_color := line_color a;
     line_thickness := line_thickness a; zoom_position := zoom_position a;
     zoom_scale := zoom_scale a; padding := padding a;
     zoom_box_color := zoom_box_color a;
     zoom_box_thickness := zoom_box_thickness a;
     line_style := line_style a; dash_length := dash_length a;
     gap_length := gap_length a; roi_offset := roi_offset a;
     scale_bar := sb; annotations := annotations a;
     watermark := watermark a |}.

Definition with_watermark (wm : option watermark_config) (a : figure_args)
  : figure_args :=
  {| panorama_path := panorama_path a; zoom_path := zoom_path a;
     output_path := output_path a; box_color := box_color a;
     box_thickness := box_thickness a; line_color := line_color a;
     line_thickness := line_thickness a; zoom_position := zoom_position a;
     zoom_scale := zoom_scale a; padding := padding a;
     zoom_box_color := zoom_box_color a;
     zoom_box_thickness := zoom_box_thickness a;
     line_style := line_style a; dash_length := dash_length a;
     gap_length := gap_length a; roi_offset := roi_offset a;
     scale_bar := scale_bar a; annotations := annotations a;
     watermark := wm |}.


Definition with_padding (p : Z) (a : figure_args) : figure_args :=
  {| panorama_path := panorama_path a; zoom_path := zoom_path a;
     output_path := output_path a; box_color := box_color a;
     box_thickness := box_thickness a; line_color := line_color a;
     line_thickness := line_thickness a; zoom_position := zoom_position a;
     zoom_scale := zoom_scale a; padding := p;
     zoom_box_color := zoom_box_color a;
     zoom_box_thickness := zoom_box_thickness a;
     line_style := line_style a; dash_length := dash_length a;
     gap_length := gap_length a; roi_offset := roi_offset a;
     scale_bar := scale_bar a; annotations := annotations a;
     watermark := watermark a |}.

Definition with_zoom_scale (scale : Py.num) (a : figure_args) : figure_args :=
  {| panorama_path := panorama_path a; zoom_path := zoom_path a;
     output_path := output_path a; box_color := box_color a;
     box_thickness := box_thickness a; line_color := line_color a;
     line_thickness := line_thickness a; zoom_position := zoom_position a;
     zoom_scale := scale; padding := padding a;
     zoom_box_color := zoom_box_color a;
     zoom_box_thickness := zoom_box_thickness a;
     line_style := line_style a; dash_length := dash_length a;
     gap_length := gap_length a; roi_offset := roi_offset a;
     scale_bar := scale_bar a; annotations := annotations a;
     watermark := watermark a |}.

(** Pillow finds the two pictures at the sizes (width, height) given,
    whatever OpenCV makes of the files: a photograph whose EXIF
    orientation OpenCV applies and Pillow does not is such a file. *)
Definition as_stored (pano zoom : Z * Z) (path : string) : exn + Z * Z :=
  if (path =? "pano.png")%string then inr pano
  else if (path =? "zoom.png")%string then inr zoom
  else inl (OSError path).


Definition with_panorama (path : string) (a : figure_args) : figure_args :=
  {| panorama_path := path; zoom_path := zoom_path a;
     output_path := output_path a; box_color := box_color a;
     box_thickness := box_thickness a; line_color := line_color a;
     line_thickness := line_thickness a; zoom_position := zoom_position a;
     zoom_scale := zoom_scale a; padding := padding a;
     zoom_box_color := zoom_box_color a;
     zoom_box_thickness := zoom_box_thickness a;
     line_style := line_style a; dash_length := dash_length a;
     gap_length := gap_length a; roi_offset := roi_offset a;
     scale_bar := scale_bar a; annotations := annotations a;
     watermark := watermark a |}.

End Lab.

(** ** The window: [roi_zoom_gui.py]

    The parts of the window that decide what the processing module is
    asked for: the undo history, the click that places an annotation, and
    the arguments of the two calls of [create_zoom_figure].  Tk variables
    are the values they hold; [deepcopy] is the identity on values. *)

Module Gui.

(** [len(l)] *)
Definition len {A : Type} (l : list A) : Z := Z.of_nat (List.length l).

(** [l[:stop]] *)
Definition slice_to {A : Type} (l : list A) (stop : Z) : list A :=
  firstn (Z.to_nat (if stop <? 0 then len l + stop else stop)) l.

(** [l[i]]; [None] stands for IndexError. *)
Definition item {A : Type} (l : list A) (i : Z) : option A :=
  let j := if i <? 0 then len l + i else i in
  if j <? 0 then None else nth_error l (Z.to_nat j).

(** [d.get(key)] on a dictionary given as its items. *)
Fixpoint lookup (key : string) (items : list (string * string))
  : option string :=
  match items with
  | [] => None
  | (k, v) :: rest => if (k =? key)%string then Some v else lookup key rest
  end.

Section History.

Context {State : Type}.

(** [class HistoryManager] *)
Record HistoryManager : Type := {
  max_history : Z;
  history : list State;
  current_index : Z
}.

(** What a method hands back: a state, [None], or an IndexError. *)
Inductive reply : Type :=
| Returned (state : option State)
| IndexError.

(** [HistoryManager(max_history)] *)
Definition init (max : Z) : HistoryManager :=
  {| max_history := max; history := []; current_index := -1 |}.

Definition push (m : HistoryManager) (state : State) : HistoryManager :=
  let history1 :=
    if current_index m <? len (history m) - 1
    then slice_to (history m) (current_index m + 1)
    else history m in
  let history2 := (history1 ++ [state])%list in
  if len history2 >? max_history m then
    {| max_history := max_history m;
       history := tl history2;
       current_index := current_index m |}
  else
    {| max_history := max_history m;
       history := history2;
       current_index := current_index m + 1 |}.

Definition can_undo (m : HistoryManager) : bool := current_index m >? 0.

Definition can_redo (m : HistoryManager) : bool :=
  current_index m <? len (history m) - 1.

(** [return deepcopy(self.history[self.current_index])] *)
Definition current (m : HistoryManager) : reply :=
  match item (history m) (current_index m) with
  | Some state => Returned (Some state)
  | None => IndexError
  end.

(** [self.current_index += by_] *)
Definition move (m : HistoryManager) (by_ : Z) : HistoryManager :=
  {| max_history := max_history m;
     history := history m;
     current_index := current_index m + by_ |}.

Definition undo (m : HistoryManager) : HistoryManager * reply :=
  if can_undo m then (move m (-1), current (move m (-1)))
  else (m, Returned None).

Definition redo (m : HistoryManager) : HistoryManager * reply :=
  if can_redo m then (move m 1, current (move m 1))
  else (m, Returned None).

Definition undo_count (m : HistoryManager) : Z := current_index m.

Definition clear (m : HistoryManager) : HistoryManager :=
  {| max_history := max_history m; history := []; current_index := -1 |}.

(** A call on the manager, and a session of calls. *)
Inductive call : Type :=
| Push (state : State)
| Undo
| Redo
| Clear.

Definition perform (m : HistoryManager) (c : call) : HistoryManager * reply :=
  match c with
  | Push state => (push m state, Returned None)
  | Undo => undo m
  | Redo => redo m
  | Clear => (clear m, Returned None)
  end.

Fixpoint session (calls : list call) (m : HistoryManager)
  : HistoryManager * list reply :=
  match calls with
  | [] => (m, [])
  | c :: rest =>
      let '(m1, r) := perform m c in
      let '(m2, rs) := session rest m1 in
      (m2, r :: rs)
  end.

(** The manager is in order: the index is -1 on an empty history and
    points into the history otherwise, and the history holds no more
    than [max_history] states. *)
Definition in_order (m : HistoryManager) : Prop :=
  ((current_index m = -1 /\ history m = []) \/
   0 <= current_index m < len (history m)) /\
  len (history m) <= Z.max 0 (max_history m).

End History.

(** [int(canvas_x / self.preview_scale)] when there is a preview scale
    and it is not zero, [int(canvas_x)] otherwise. *)
Definition image_coordinate (preview_scale : option Py.float)
           (canvas_c : Py.num) : outcome Z :=
  match preview_scale with
  | Some scale =>
      if Py.ne (Py.Float scale) (Py.Int 0) then
        let* q := Py.truediv canvas_c (Py.Float scale) in
        Py.int (Py.Float q)
      else Py.int canvas_c
  | None => Py.int canvas_c
  end.

(** The dictionary that a click at image pixel (img_x, img_y) adds to
    [self.annotations]. *)
Definition clicked_annotation (meta : metadata) (target tool : string)
           (colour : color) (sz : Z) (direction text : string)
           (img_x img_y : Z) : annotation :=
  let rel :=
    if (target =? "panorama")%string
    then (img_x - fst (pano_pos meta), img_y - snd (pano_pos meta))
    else (img_x - fst (zoom_pos meta), img_y - snd (zoom_pos meta)) in
  {| ann_type := Some tool;
     ann_position := Some rel;
     ann_target := Some target;
     ann_color := Some colour;
     ann_size := Some sz;
     ann_thickness := None;
     ann_text := if (tool =? "text")%string then Some text else None;
     ann_font_size := None;
     ann_direction := Some direction |}.

(** [ROIZoomGUI.on_canvas_click]: the annotation it appends, if any. *)
Definition on_canvas_click (is_dragging adding_annotation : bool)
           (preview_scale : option Py.float) (meta : option metadata)
           (target tool : string) (colour : color) (sz : Z)
           (direction text : string) (canvas_x canvas_y : Py.num)
  : outcome (option annotation) :=
  if is_dragging then Ok None
  else if negb adding_annotation then Ok None
  else
    let* img_x := image_coordinate preview_scale canvas_x in
    let* img_y := image_coordinate preview_scale canvas_y in
    match meta with
    | Some meta =>
        Ok (Some (clicked_annotation meta target tool colour sz direction
                    text img_x img_y))
    | None => Ok None
    end.

(** The variables of [ROIZoomGUI] that [generate_preview] and
    [BatchProcessDialog.process_files] read.  [watermark_position_map]
    is there once the watermark panel is built. *)
Record settings : Type := {
  panorama_path_var : string;
  zoom_path_var : string;
  position_var : string;
  padding_var : Z;
  box_thickness_var : Z;
  line_thickness_var : Z;
  color_var : color;
  line_style_var : string;
  dash_length_var : Z;
  gap_length_var : Z;
  roi_offset_x : Z;
  roi_offset_y : Z;
  pano_scale_bar_enabled : bool;
  pano_scale_bar_length_um : Py.float;
  pano_scale_bar_pixels_per_um : Py.float;
  pano_scale_bar_thickness : Z;
  pano_scale_bar_font_size : Z;
  pano_scale_bar_color : color;
  pano_scale_bar_pos_x : string;
  pano_scale_bar_offset_x : Z;
  pano_scale_bar_offset_y : Z;
  zoom_scale_bar_enabled : bool;
  zoom_scale_bar_length_um : Py.float;
  zoom_scale_bar_pixels_per_um : Py.float;
  zoom_scale_bar_color : color;
  zoom_scale_bar_pos_x : string;
  zoom_scale_bar_offset_x : Z;
  zoom_scale_bar_offset_y : Z;
  scale_bar_style : string;
  scale_bar_font_family : string;
  scale_bar_text_gap : Z;
  the_annotations : list annotation;
  watermark_enabled : bool;
  watermark_text : string;
  watermark_position : string;
  watermark_opacity : Z;
  watermark_font_size : Z;
  watermark_color : color;
  watermark_position_map : option (list (string * string))
}.

(** The values that [ROIZoomGUI.__init__] and the watermark panel set. *)
Definition initial : settings :=
  {| panorama_path_var := EmptyString;
     zoom_path_var := EmptyString;
     position_var := "right";
     padding_var := 50;
     box_thickness_var := 3;
     line_thickness_var := 2;
     color_var := (255, 0, 0);
     line_style_var := "solid";
     dash_length_var := 15;
     gap_length_var := 10;
     roi_offset_x := 0;
     roi_offset_y := 0;
     pano_scale_bar_enabled := false;
     pano_scale_bar_length_um := Py.round_Z 100;
     pano_scale_bar_pixels_per_um := Py.dec 1 1;
     pano_scale_bar_thickness := 5;
     pano_scale_bar_font_size := 24;
     pano_scale_bar_color := (0, 0, 0);
     pano_scale_bar_pos_x := "右";
     pano_scale_bar_offset_x := 30;
     pano_scale_bar_offset_y := 30;
     zoom_scale_bar_enabled := false;
     zoom_scale_bar_length_um := Py.round_Z 100;
     zoom_scale_bar_pixels_per_um := Py.dec 1 1;
     zoom_scale_bar_color := (0, 0, 0);
     zoom_scale_bar_pos_x := "右";
     zoom_scale_bar_offset_x := 30;
     zoom_scale_bar_offset_y := 30;
     scale_bar_style := "line";
     scale_bar_font_family := "Arial";
     scale_bar_text_gap := 5;
     the_annotations := [];
     watermark_enabled := false;
     watermark_text := EmptyString;
     watermark_position := "右下";
     watermark_opacity := 128;
     watermark_font_size := 24;
     watermark_color := (128, 128, 128);
     watermark_position_map :=
       Some [ ("右下", "bottom-right"); ("左下", "bottom-left");
              ("右上", "top-right"); ("左上", "top-left");
              ("居中", "center") ] |}.

Definition pano_scale_bar_config (g : settings) : scale_bar_config :=
  {| sb_enabled := Some true;
     sb_position := Some "panorama";
     sb_corner := Some (if (pano_scale_bar_pos_x g =? "左")%string
                        then "left" else "right");
     sb_offset_x := Some (pano_scale_bar_offset_x g);
     sb_offset_y := Some (pano_scale_bar_offset_y g);
     sb_length_um := Some (Py.Float (pano_scale_bar_length_um g));
     sb_pixels_per_um := Some (Py.Float (pano_scale_bar_pixels_per_um g));
     sb_color := Some (pano_scale_bar_color g);
     sb_thickness := Some (pano_scale_bar_thickness g);
     sb_font_size := Some (pano_scale_bar_font_size g);
     sb_style := Some (scale_bar_style g);
     sb_font_family := Some (scale_bar_font_family g);
     sb_text_gap := Some (scale_bar_text_gap g) |}.

(** The zoom bar takes its thickness and its font size from the
    panorama bar's variables. *)
Definition zoom_scale_bar_config (g : settings) : scale_bar_config :=
  {| sb_enabled := Some true;
     sb_position := Some "zoom";
     sb_corner := Some (if (zoom_scale_bar_pos_x g =? "左")%string
                        then "left" else "right");
     sb_offset_x := Some (zoom_scale_bar_offset_x g);
     sb_offset_y := Some (zoom_scale_bar_offset_y g);
     sb_length_um := Some (Py.Float (zoom_scale_bar_length_um g));
     sb_pixels_per_um := Some (Py.Float (zoom_scale_bar_pixels_per_um g));
     sb_color := Some (zoom_scale_bar_color g);
     sb_thickness := Some (pano_scale_bar_thickness g);
     sb_font_size := Some (pano_scale_bar_font_size g);
     sb_style := Some (scale_bar_style g);
     sb_font_family := Some (scale_bar_font_family g);
     sb_text_gap := Some (scale_bar_text_gap g) |}.

(** [scale_bars]: the enabled bars, the panorama's first. *)
Definition scale_bars (g : settings) : list scale_bar_config :=
  ((if pano_scale_bar_enabled g then [ pano_scale_bar_config g ] else [])
     ++ (if zoom_scale_bar_enabled g then [ zoom_scale_bar_config g ] else []))
  %list.

(** [watermark_config]: there is one when the watermark is enabled and
    its text is not empty. *)
Definition preview_watermark (g : settings) : option watermark_config :=
  if watermark_enabled g && negb (watermark_text g =? EmptyString)%string
  then
    let pos := watermark_position g in
    let pos :=
      match watermark_position_map g with
      | Some map => get (lookup pos map) pos
      | None => pos
      end in
    Some {| wm_enabled := Some true;
            wm_text := Some (watermark_text g);
            wm_position := Some pos;
            wm_opacity := Some (watermark_opacity g);
            wm_font_size := Some (watermark_font_size g);
            wm_color := Some (watermark_color g) |}
  else None.

(** The arguments of the call that [generate_preview] makes. *)
Definition generate_preview_args (g : settings) (temp_output_path : string)
  : figure_args :=
  {| panorama_path := panorama_path_var g;
     zoom_path := zoom_path_var g;
     output_path := temp_output_path;
     box_color := color_var g;
     box_thickness := box_thickness_var g;
     line_color := color_var g;
     line_thickness := line_thickness_var g;
     zoom_position := position_var g;
     zoom_scale := Py.Float (Py.dec 1 1);
     padding := padding_var g;
     zoom_box_color := color_var g;
     zoom_box_thickness := box_thickness_var g;
     line_style := line_style_var g;
     dash_length := dash_length_var g;
     gap_length := gap_length_var g;
     roi_offset := (roi_offset_x g, roi_offset_y g);
     scale_bar :=
       match scale_bars g with
       | [ sb ] => OneScaleBar sb
       | [] => NoScaleBar
       | sbs => ScaleBars sbs
       end;
     annotations :=
       match the_annotations g with
       | [] => None
       | anns => Some anns
       end;
     watermark := preview_watermark g |}.

(** The arguments of the call that [process_files] makes for the pair
    (pano, zoom); the output path is put together by [pathlib]. *)
Definition process_files_args (g : settings) (pano zoom output_path : string)
  : figure_args :=
  {| panorama_path := pano;
     zoom_path := zoom;
     output_path := output_path;
     box_color := color_var g;
     box_thickness := box_thickness_var g;
     line_color := color_var g;
     line_thickness := line_thickness_var g;
     zoom_position := position_var g;
     zoom_scale := Py.Float (Py.dec 1 1);
     padding := padding_var g;
     zoom_box_color := color_var g;
     zoom_box_thickness := box_thickness_var g;
     line_style := line_style_var g;
     dash_length := dash_length_var g;
     gap_length := gap_length_var g;
     roi_offset := (0, 0);
     scale_bar := NoScaleBar;
     annotations := None;
     watermark := None |}.

(** The dictionary that [save_state] builds; an absent key is [None]. *)
Record state : Type := {
  st_roi_offset_x : option Z;
  st_roi_offset_y : option Z;
  st_annotations : option (list annotation);
  st_pano_scale_bar_enabled : option bool;
  st_pano_scale_bar_length_um : option Py.float;
  st_pano_scale_bar_pixels_per_um : option Py.float;
  st_zoom_scale_bar_enabled : option bool;
  st_zoom_scale_bar_length_um : option Py.float;
  st_zoom_scale_bar_pixels_per_um : option Py.float;
  st_watermark_enabled : option bool;
  st_watermark_text : option string
}.

(** A dictionary is true when it has a key. *)
Definition state_nonempty (s : state) : bool :=
  match s with
  | {| st_roi_offset_x := None; st_roi_offset_y := None;
       st_annotations := None; st_pano_scale_bar_enabled := None;
       st_pano_scale_bar_length_um := None;
       st_pano_scale_bar_pixels_per_um := None;
       st_zoom_scale_bar_enabled := None;
       st_zoom_scale_bar_length_um := None;
       st_zoom_scale_bar_pixels_per_um := None;
       st_watermark_enabled := None; st_watermark_text := None |} => false
  | _ => true
  end.

(** The state that [save_state] pushes. *)
Definition saved_state (g : settings) : state :=
  {| st_roi_offset_x := Some (roi_offset_x g);
     st_roi_offset_y := Some (roi_offset_y g);
     st_annotations := Some (the_annotations g);
     st_pano_scale_bar_enabled := Some (pano_scale_bar_enabled g);
     st_pano_scale_bar_length_um := Some (pano_scale_bar_length_um g);
     st_pano_scale_bar_pixels_per_um := Some (pano_scale_bar_pixels_per_um g);
     st_zoom_scale_bar_enabled := Some (zoom_scale_bar_enabled g);
     st_zoom_scale_bar_length_um := Some (zoom_scale_bar_length_um g);
     st_zoom_scale_bar_pixels_per_um := Some (zoom_scale_bar_pixels_per_um g);
     st_watermark_enabled := Some (watermark_enabled g);
     st_watermark_text := Some (watermark_text g) |}.

(** [ROIZoomGUI.save_state] *)
Definition save_state (m : @HistoryManager state) (g : settings)
  : @HistoryManager state :=
  push m (saved_state g).

(** [ROIZoomGUI.restore_state] *)
Definition restore_state (g : settings) (s : state) : settings :=
  {| panorama_path_var := panorama_path_var g;
     zoom_path_var := zoom_path_var g;
     position_var := position_var g;
     padding_var := padding_var g;
     box_thickness_var := box_thickness_var g;
     line_thickness_var := line_thickness_var g;
     color_var := color_var g;
     line_style_var := line_style_var g;
     dash_length_var := dash_length_var g;
     gap_length_var := gap_length_var g;
     roi_offset_x := get (st_roi_offset_x s) 0;
     roi_offset_y := get (st_roi_offset_y s) 0;
     pano_scale_bar_enabled := get (st_pano_scale_bar_enabled s) false;
     pano_scale_bar_length_um :=
       get (st_pano_scale_bar_length_um s) (Py.round_Z 100);
     pano_scale_bar_pixels_per_um :=
       get (st_pano_scale_bar_pixels_per_um s) (Py.dec 1 1);
     pano_scale_bar_thickness := pano_scale_bar_thickness g;
     pano_scale_bar_font_size := pano_scale_bar_font_size g;
     pano_scale_bar_color := pano_scale_bar_color g;
     pano_scale_bar_pos_x := pano_scale_bar_pos_x g;
     pano_scale_bar_offset_x := pano_scale_bar_offset_x g;
     pano_scale_bar_offset_y := pano_scale_bar_offset_y g;
     zoom_scale_bar_enabled := get (st_zoom_scale_bar_enabled s) false;
     zoom_scale_bar_length_um :=
       get (st_zoom_scale_bar_length_um s) (Py.round_Z 100);
     zoom_scale_bar_pixels_per_um :=
       get (st_zoom_scale_bar_pixels_per_um s) (Py.dec 1 1);
     zoom_scale_bar_color := zoom_scale_bar_color g;
     zoom_scale_bar_pos_x := zoom_scale_bar_pos_x g;
     zoom_scale_bar_offset_x := zoom_scale_bar_offset_x g;
     zoom_scale_bar_offset_y := zoom_scale_bar_offset_y g;
     scale_bar_style := scale_bar_style g;
     scale_bar_font_family := scale_bar_font_family g;
     scale_bar_text_gap := scale_bar_text_gap g;
     the_annotations := get (st_annotations s) [];
     watermark_enabled := get (st_watermark_enabled s) false;
     watermark_text := get (st_watermark_text s) EmptyString;
     watermark_position := watermark_position g;
     watermark_opacity := watermark_opacity g;
     watermark_font_size := watermark_font_size g;
     watermark_color := watermark_color g;
     watermark_position_map := watermark_position_map g |}.

(** [state = self.history.undo(); if state: self.restore_state(state)] *)
Definition restored (g : settings) (r : @reply state) : settings :=
  match r with
  | Returned (Some s) => if state_nonempty s then restore_state g s else g
  | _ => g
  end.

(** [ROIZoomGUI.undo] and [ROIZoomGUI.redo] on the history and the
    variables. *)
Definition gui_undo (m : @HistoryManager state) (g : settings)
  : @HistoryManager state * settings :=
  (fst (undo m), restored g (snd (undo m))).

Definition gui_redo (m : @HistoryManager state) (g : settings)
  : @HistoryManager state * settings :=
  (fst (redo m), restored g (snd (redo m))).

End Gui.

(** ** Vocabulary of the properties *)

Definition directions : list string := [ "right"; "left"; "bottom"; "top" ].

(** A placed image lies in the canvas minus its border margin. *)
Definition within (margin : Z) (lay : layout) (pos : point) (sz : Z * Z)
  : Prop :=
  margin <= fst pos /\ fst pos + fst sz <= canvas_w lay - margin /\
  margin <= snd pos /\ snd pos + snd sz <= canvas_h lay - margin.

(** Two placed images share no pixel: one ends before the other starts,
    along x or along y. *)
Definition apart (p1 : point) (s1 : Z * Z) (p2 : point) (s2 : Z * Z) : Prop :=
  fst p1 + fst s1 <= fst p2 \/ fst p2 + fst s2 <= fst p1 \/
  snd p1 + snd s1 <= snd p2 \/ snd p2 + snd s2 <= snd p1.

(** The stroke from parameter [fa] to parameter [fb] of the line that
    leaves (fx, fy) with unit direction (ux, uy): the segment
    (fx + ux * fa, fy + uy * fa) -- (fx + ux * fb, fy + uy * fb), whose
    length along the line is [fb - fa]. *)
Definition stroke (fx fy ux uy fa fb : Py.float) (fill : color) (width : Z)
  : drawop :=
  Line (Py.Float (Py.fadd fx (Py.fmul ux fa)),
        Py.Float (Py.fadd fy (Py.fmul uy fa)))
       (Py.Float (Py.fadd fx (Py.fmul ux fb)),
        Py.Float (Py.fadd fy (Py.fmul uy fb)))
       fill width.

(** The Euclidean length of a drawn line, in float arithmetic. *)
Definition line_length (d : drawop) : outcome Py.float :=
  match d with
  | Line (px, py) (qx, qy) _ _ =>
      let* dx := Py.sub qx px in
      let* dy := Py.sub qy py in
      let* dx2 := Py.mul dx dx in
      let* dy2 := Py.mul dy dy in
      let* s := Py.add dx2 dy2 in
      let* f := Py.to_float s in
      Ok (Py.fsqrt f)
  | _ => Ok (S754_zero false)
  end.

(** The lines drawn on an image, oldest first. *)
Fixpoint drawn_lines (steps : list step) : list drawop :=
  match steps with
  | [] => []
  | Drawn (Line p q c w) :: rest => Line p q c w :: drawn_lines rest
  | _ :: rest => drawn_lines rest
  end.

(** The sum of the lengths of some lines. *)
Fixpoint total_length (ds : list drawop) : outcome Py.float :=
  match ds with
  | [] => Ok (S754_zero false)
  | d :: rest =>
      let* l := line_length d in
      let* t := total_length rest in
      Ok (Py.fadd l t)
  end.

(** [round(length_um * pixels_per_um)], the pixel length as the
    specification words it. *)
Definition rounded_length_pixels (length_um pixels_per_um : Py.num)
  : outcome Z :=
  let* p := Py.mul length_um pixels_per_um in
  match p with
  | Py.Int z => Ok z
  | Py.Float f => Py.round f
  end.

(** [n] is the number [p] with its fractional part dropped: same sign,
    and a magnitude within one below that of [p]. *)
Definition toward_zero (p : Py.num) (n : Z) : Prop :=
  match p with
  | Py.Int z => n = z
  | Py.Float (S754_zero _) => n = 0
  | Py.Float (S754_finite s m e) =>
      n = cond_Zopp s (Z.abs n) /\
      (if 0 <=? e then (Z.abs n = Zpos m * 2 ^ e)
       else (Z.abs n * 2 ^ (- e) <= Zpos m < (Z.abs n + 1) * 2 ^ (- e)))
  | Py.Float _ => False
  end.

(** The label as the specification words it: millimetres with one
    decimal from 1000 micrometres on, whole micrometres below. *)
Definition label_reads (length_um : Py.num) (text : string) : Prop :=
  (Py.ge length_um (Py.Int 1000) = true ->
   exists mm, Py.truediv length_um (Py.Int 1000) = Ok mm /\
              text = (Py.format_float 1 mm ++ " mm")%string) /\
  (Py.ge length_um (Py.Int 1000) = false ->
   exists um, Py.format_f 0 length_um = Ok um /\
              text = (um ++ " μm")%string).

(** [t] tenths of a millimetre, written with one decimal. *)
Definition tenths_mm (t : Z) : string :=
  (Py.str_of_Z (t / 10) ++ "." ++ Py.str_of_Z (t mod 10) ++ " mm")%string.

(** A whole number of micrometres below 1000 is printed as it is, be it
    given as an integer or as a float. *)
Definition prints_micrometres (n : Z) : bool :=
  match scale_bar_text (Py.Int n),
        scale_bar_text (Py.Float (Py.round_Z n)) with
  | Ok t, Ok t' =>
      String.eqb t (Py.str_of_Z n ++ " μm") && String.eqb t' t
  | _, _ => false
  end.

(** From 1000 micrometres on the label is a nearest tenth of a
    millimetre (either neighbour when the length is half way). *)
Definition prints_millimetres (n : Z) : bool :=
  match scale_bar_text (Py.Int n),
        scale_bar_text (Py.Float (Py.round_Z n)) with
  | Ok t, Ok t' =>
      let q := n / 100 in
      ((String.eqb t (tenths_mm q) && (Z.abs (100 * q - n) <=? 50))
       || (String.eqb t (tenths_mm (q + 1))
           && (Z.abs (100 * (q + 1) - n) <=? 50)))
      && String.eqb t' t
  | _, _ => false
  end.

(** The integers [lo], [lo + 1], ..., [lo + len - 1]. *)
Definition interval (lo : Z) (len : nat) : list Z :=
  map (fun i => lo + Z.of_nat i) (seq 0 len).

Section LocateVocabulary.

Context `{Collaborators}.

(** The size (width, height) of the zoom image resized by [scale]. *)
Definition template_size (zoom_img : Mat) (scale : Py.float)
  : outcome (Z * Z) :=
  let* new_w := scaled_dim (snd (shape zoom_img)) (Py.Float scale) in
  let* new_h := scaled_dim (fst (shape zoom_img)) (Py.Float scale) in
  Ok (new_w, new_h).

(** A template that strictly fits the panorama and is no smaller than
    10 pixels either way. *)
Definition fits (panorama : Mat) (template : Z * Z) : bool :=
  negb ((fst template >=? snd (shape panorama))
        || (snd template >=? fst (shape panorama)))
  && negb ((fst template <? 10) || (snd template <? 10)).

(** [scale] produces a valid template. *)
Definition valid_template (panorama zoom_img : Mat) (scale : Py.float)
  : Prop :=
  exists template,
    template_size zoom_img scale = Ok template /\
    fits panorama template = true.

(** The correlation peak of the template of a given size. *)
Definition peak (panorama zoom_img : Mat) (template : Z * Z) : Py.float :=
  snd (fst (fst (minMaxLoc
                   (matchTemplate panorama (resize zoom_img template))))).

(** [scale] produces a valid template whose correlation peak is above
    the initial [best_confidence = -1]. *)
Definition beats_sentinel (panorama zoom_img : Mat) (scale : Py.float)
  : Prop :=
  exists template,
    template_size zoom_img scale = Ok template /\
    fits panorama template = true /\
    Py.gt (Py.Float (peak panorama zoom_img template)) (Py.Int (-1)) = true.

(** The search state is as the loop keeps it: no match yet means the
    confidence is still the initial -1. *)
Definition search_ok (st : search) : Prop :=
  best_match st = None -> best_confidence st = Py.Int (-1).

End LocateVocabulary.

Definition raises_only {A : Type} (P : exn -> Prop) (m : outcome A) : Prop :=
  forall e, m = Raise e -> P e.

(** What converting a number can raise: an integer past the float range,
    or [int()] of an infinity or a NaN. *)
Definition numeric_error (e : exn) : Prop :=
  e = OverflowError \/ e = ValueError "cannot convert float NaN to integer".

(** What [find_roi_position] can raise. *)
Definition locate_error (panorama_path zoom_path : string) (e : exn) : Prop :=
  e = ValueError ("无法读取全景图: " ++ panorama_path) \/
  e = ValueError ("无法读取放大图: " ++ zoom_path) \/
  e = ValueError no_match_message \/
  numeric_error e.

(** A scale bar that is switched on although its length is not
    positive; a watermark that is switched on although its text is
    empty; a call that carries one of them. *)
Definition invalid_scale_bar (sb : scale_bar_config) : Prop :=
  sb_enabled sb = Some true /\
  Py.gt (get (sb_length_um sb) (Py.Int 100)) (Py.Int 0) = false.

Definition invalid_watermark (wm : watermark_config) : Prop :=
  wm_enabled wm = Some true /\ get (wm_text wm) EmptyString = EmptyString.

Definition structurally_invalid (a : figure_args) : Prop :=
  match scale_bar a with
  | NoScaleBar => False
  | OneScaleBar sb => invalid_scale_bar sb
  | ScaleBars sbs => Exists invalid_scale_bar sbs
  end \/
  match watermark a with
  | Some wm => invalid_watermark wm
  | None => False
  end.

(** The metadata returned for a box located at (x, y, w, h) with
    confidence [c], after the manual offset. *)
Definition metadata_of (a : figure_args) (x y w h : Z) (c : Py.num)
           (lay : layout) : metadata :=
  {| roi_x := x + fst (roi_offset a);
     roi_y := y + snd (roi_offset a);
     roi_w := w;
     roi_h := h;
     confidence := c;
     pano_pos := lay_pano_pos lay;
     zoom_pos := lay_zoom_pos lay |}.

(** The scale bars a call asks for, one dictionary being a list of
    one. *)
Definition asked_bars (a : figure_args) : list scale_bar_config :=
  match scale_bar a with
  | NoScaleBar => []
  | OneScaleBar sb => [ sb ]
  | ScaleBars sbs => sbs
  end.



(** An image grows out of another by further steps only. *)
Definition extends (im im' : image) : Prop :=
  exists steps, history im' = (history im ++ steps)%list.

(** *** Further vocabulary *)

Section LocateOrder.

Context `{Collaborators}.

(** Where the correlation of the template of a given size peaks. *)
Definition peak_loc (panorama zoom_img : Mat) (template : Z * Z) : point :=
  snd (minMaxLoc (matchTemplate panorama (resize zoom_img template))).

(** The peak that the loop compares at [scale]; none when the scale is
    skipped. *)
Definition scale_peak (panorama zoom_img : Mat) (scale : Py.float)
  : option Py.float :=
  match template_size zoom_img scale with
  | Ok template =>
      if fits panorama template
      then Some (peak panorama zoom_img template) else None
  | _ => None
  end.

(** Of the scales [tried], the record [m] with confidence [c] is that of
    the first scale with the highest peak: its peak is above that of
    every earlier scale that was above -1, and no later scale is above
    it. *)
Definition first_best (panorama zoom_img : Mat) (tried : list Py.float)
           (m : best_match_t) (c : Py.num) : Prop :=
  let '(x, y, w, h, scale) := m in
  exists before after,
    tried = (before ++ scale :: after)%list /\
    template_size zoom_img scale = Ok (w, h) /\
    fits panorama (w, h) = true /\
    (x, y) = peak_loc panorama zoom_img (w, h) /\
    c = Py.Float (peak panorama zoom_img (w, h)) /\
    (forall s p, In s before -> scale_peak panorama zoom_img s = Some p ->
                 Py.gt (Py.Float p) (Py.Int (-1)) = true ->
                 Py.gt c (Py.Float p) = true) /\
    (forall s p, In s after -> scale_peak panorama zoom_img s = Some p ->
                 Py.gt (Py.Float p) c = false).

(** The search state after the scales [tried]. *)
Definition scanned (panorama zoom_img : Mat) (tried : list Py.float)
           (st : search) : Prop :=
  match best_match st with
  | None =>
      best_confidence st = Py.Int (-1) /\
      forall s p, In s tried -> scale_peak panorama zoom_img s = Some p ->
                  Py.gt (Py.Float p) (Py.Int (-1)) = false
  | Some m => first_best panorama zoom_img tried m (best_confidence st)
  end.

End LocateOrder.

(** The dash that starts [pos] along the line. *)
Definition dash_at (x1 y1 : Z) (ux uy length : Py.float) (fill : color)
           (width dash_length pos : Z) : outcome drawop :=
  let* seg_length := seg_length_at length dash_length pos in
  let* (seg_start, seg_end) := dash_ends x1 y1 ux uy pos seg_length in
  Ok (Line seg_start seg_end fill width).

(** The [n] dashes that start at [pos], [pos + period], ... *)
Fixpoint dashes (n : nat) (x1 y1 : Z) (ux uy length : Py.float)
         (fill : color) (width dash_length period pos : Z)
  : outcome (list drawop) :=
  match n with
  | O => Ok []
  | S n' =>
      let* d := dash_at x1 y1 ux uy length fill width dash_length pos in
      let* ds := dashes n' x1 y1 ux uy length fill width dash_length period
                   (pos + period) in
      Ok (d :: ds)
  end.

(** The line from [start] to [end_] is no longer than [bound]. *)
Definition no_longer_than (bound : Z) (start end_ : point) : bool :=
  match Py.int_pow_half ((fst end_ - fst start) ^ 2
                         + (snd end_ - snd start) ^ 2) with
  | Ok length => negb (Py.lt (Py.Int bound) (Py.Float length))
  | _ => true
  end.

(** Whether an annotation of this type, direction and text shows on the
    image. *)
Definition annotation_shows (annotation_type direction : string)
           (text : option string) : bool :=
  if (annotation_type =? "arrow")%string then
    existsb (String.eqb direction) [ "up"; "down"; "left"; "right" ]
  else if existsb (String.eqb annotation_type) [ "star"; "circle"; "triangle" ]
  then true
  else if (annotation_type =? "text")%string then
    match text with
    | Some t => negb (t =? EmptyString)%string
    | None => false
    end
  else false.

(** The unit step of an arrow direction, y growing downwards. *)
Definition arrow_unit (direction : string) : option (Z * Z) :=
  if (direction =? "up")%string then Some (0, -1)
  else if (direction =? "down")%string then Some (0, 1)
  else if (direction =? "left")%string then Some (-1, 0)
  else if (direction =? "right")%string then Some (1, 0)
  else None.

(** The arrow of length [sz] that leaves (x, y) along the unit step
    (ux, uy): the shaft to the tip, and a head whose apex is the tip and
    whose base lies [sz // 3] behind it, [sz // 4] to either side of the
    shaft. *)
Definition arrow_shape (x y ux uy sz : Z) (fill : color) (thickness : Z)
  : list drawop :=
  let tip := (x + ux * sz, y + uy * sz) in
  let back := (fst tip - ux * (sz / 3), snd tip - uy * (sz / 3)) in
  let vx := Z.abs uy in
  let vy := Z.abs ux in
  [ Line (ipoint (x, y)) (ipoint tip) fill thickness;
    Polygon [ tip;
              (fst back - vx * (sz / 4), snd back - vy * (sz / 4));
              (fst back + vx * (sz / 4), snd back + vy * (sz / 4)) ]
            (Some fill) None None ].

(** The image a scale bar belongs to: its corner and its size. *)
Definition sb_target (sb_config : scale_bar_config) (pano_pos zoom_pos : point)
           (pano_size zoom_size : Z * Z) : point * (Z * Z) :=
  if (get (sb_position sb_config) "zoom" =? "panorama")%string
  then (pano_pos, pano_size) else (zoom_pos, zoom_size).

(** A scale bar that is switched off. *)
Definition switched_off (sb : scale_bar_config) : bool :=
  negb (get (sb_enabled sb) false).

(** The [i]-th ring of a border around the image placed at [pos]. *)
Definition ring (pos : point) (sz : Z * Z) (i : Z) (outline : color)
  : drawop :=
  Rectangle (fst pos - i) (snd pos - i)
            (fst pos + fst sz + i) (snd pos + snd sz + i) outline.

(** A rectangle that keeps [k] pixels away from every edge of a canvas
    of the given size. *)
Definition inset (k : Z) (canvas_size : Z * Z) (d : drawop) : Prop :=
  match d with
  | Rectangle x1 y1 x2 y2 _ =>
      k <= x1 /\ x2 <= fst canvas_size - k /\
      k <= y1 /\ y2 <= snd canvas_size - k
  | _ => True
  end.

(** Drawing leaves the size and the mode of an image alone. *)
Definition same_frame (im im' : image) : Prop :=
  size im' = size im /\ img_mode im' = img_mode im.

(** The layout with the roles of the two images exchanged. *)
Definition exchanged (lay : layout) : layout :=
  {| canvas_w := canvas_w lay; canvas_h := canvas_h lay;
     lay_pano_pos := lay_zoom_pos lay; lay_zoom_pos := lay_pano_pos lay |}.

(** [n] times the point a fraction [t / n] of the way along a segment. *)
Definition part_way (t n : Z) (seg : point * point) : point :=
  ((n - t) * fst (fst seg) + t * fst (snd seg),
   (n - t) * snd (fst seg) + t * snd (snd seg)).

(** The zoom image lies beyond the side of the ROI box that the
    direction names (top for any other word). *)
Definition faces (zoom_position : string)
           (box_x1 box_y1 box_x2 box_y2 : Z)
           (zoom_box_x1 zoom_box_y1 zoom_box_x2 zoom_box_y2 : Z) : Prop :=
  if (zoom_position =? "right")%string then box_x2 < zoom_box_x1
  else if (zoom_position =? "left")%string then zoom_box_x2 < box_x1
  else if (zoom_position =? "bottom")%string then box_y2 < zoom_box_y1
  else zoom_box_y2 < box_y1.

(** A step that pastes a picture or draws a rectangle or a line. *)
Definition bare (s : step) : Prop :=
  match s with
  | Pasted _ _ => True
  | Drawn (Rectangle _ _ _ _ _) => True
  | Drawn (Line _ _ _ _) => True
  | _ => False
  end.

(** An image grows out of another by steps that all satisfy [P]. *)
Definition grows_by (P : step -> Prop) (im im' : image) : Prop :=
  exists steps, history im' = (history im ++ steps)%list /\ Forall P steps.

Section TextVocabulary.

Context `{Collaborators}.

(** [draw.textbbox(pos, text, font)]: the box (left, top, right, bottom)
    that the text covers when it is drawn at [pos], which is the box
    measured at the origin moved by [pos]. *)
Definition text_box (pos : point) (text : string) (f : font)
  : Z * Z * Z * Z :=
  let '(b0, b1, b2, b3) := textbbox text f in
  (fst pos + b0, snd pos + b1, fst pos + b2, snd pos + b3).

End TextVocabulary.

(** The sides of a box (left, top, right, bottom). *)
Definition box_left (box : Z * Z * Z * Z) : Z := fst (fst (fst box)).
Definition box_top (box : Z * Z * Z * Z) : Z := snd (fst (fst box)).
Definition box_right (box : Z * Z * Z * Z) : Z := snd (fst box).
Definition box_bottom (box : Z * Z * Z * Z) : Z := snd box.

(** How far the lower edge of a box lies above a scale bar drawn at
    height [y]: above the bar itself for style 'line', above the top of
    its end ticks, 3 * thickness higher, for any other style. *)
Definition gap_above_bar (y thickness : Z) (style : string)
           (box : Z * Z * Z * Z) : Z :=
  (if (style =? "line")%string then y else y - thickness * 3)
  - box_bottom box.

(** The room between the left end of a bar that runs from [x] to
    [x + length_pixels] and a box over it, and the room between the box
    and the right end. *)
Definition room_left (x : Z) (box : Z * Z * Z * Z) : Z := box_left box - x.
Definition room_right (x length_pixels : Z) (box : Z * Z * Z * Z) : Z :=
  x + length_pixels - box_right box.

(** ** Outcomes *)

Lemma bind_Ok {A B : Type} (m : outcome A) (k : A -> outcome B) (b : B) :
  bind m k = Ok b -> exists a, m = Ok a /\ k a = Ok b.
Proof.
  destruct m as [a| |]; simpl; intros E; try discriminate.
  exists a; split; [reflexivity | exact E].
Qed.

Lemma bind_Raise {A B : Type} (m : outcome A) (k : A -> outcome B) (e : exn) :
  bind m k = Raise e ->
  m = Raise e \/ exists a, m = Ok a /\ k a = Raise e.
Proof.
  destruct m as [a| |]; simpl; intros E; try discriminate.
  - right. exists a. split; [reflexivity | exact E].
  - left. injection E as ->. reflexivity.
Qed.

(** ** Layout *)

Section Layout.

Variables pano_w pano_h zoom_w zoom_h padding margin : Z.

Let pano := (pano_w, pano_h).
Let zoom := (zoom_w, zoom_h).

Lemma centre_offset (big own : Z) :
  own <= big -> 0 <= (big - own) / 2 /\ (big - own) / 2 + own <= big.
Proof.
  intros Hle. split.
  - apply Z.div_pos; lia.
  - assert ((big - own) / 2 <= big - own)
      by (apply Z.div_le_upper_bound; lia).
    lia.
Qed.

(** Whatever the direction string, both images lie inside the margin
    and, sizes and padding being non-negative, they do not overlap. *)
Lemma layout_invariant (d : string) :
  0 <= pano_w -> 0 <= pano_h -> 0 <= zoom_w -> 0 <= zoom_h ->
  0 <= padding ->
  let lay := compute_layout d pano zoom padding margin in
  within margin lay (lay_pano_pos lay) pano /\
  within margin lay (lay_zoom_pos lay) zoom /\
  apart (lay_pano_pos lay) pano (lay_zoom_pos lay) zoom.
Proof.
  intros Hpw Hph Hzw Hzh Hpad.
  pose proof (centre_offset (Z.max pano_h zoom_h) pano_h (Z.le_max_l _ _)).
  pose proof (centre_offset (Z.max pano_h zoom_h) zoom_h (Z.le_max_r _ _)).
  pose proof (centre_offset (Z.max pano_w zoom_w) pano_w (Z.le_max_l _ _)).
  pose proof (centre_offset (Z.max pano_w zoom_w) zoom_w (Z.le_max_r _ _)).
  unfold compute_layout, pano, zoom, within, apart.
  destruct (d =? "right")%string;
    [| destruct (d =? "left")%string;
       [| destruct (d =? "bottom")%string ] ];
    cbn [canvas_w canvas_h lay_pano_pos lay_zoom_pos fst snd]; lia.
Qed.

End Layout.

(** C2. For [zoom_position = "right"] the layout is
    canvas_w = margin + pano_w + padding + zoom_w + margin,
    canvas_h = margin + max(pano_h, zoom_h) + margin, the panorama at
    x = margin and the zoom at x = margin + pano_w + padding, each at
    y = margin + (max_h - own_h) // 2 with floor division; and the call
    with pano = (200, 100), zoom = (80, 80), padding = 20 and border
    thickness 3 (margin 8) yields canvas (316, 116), pano_pos (8, 8) and
    zoom_pos (228, 18), both in [compute_layout] and in the metadata that
    [create_zoom_figure] returns. *)
Theorem C2_layout_right (pano_w pano_h zoom_w zoom_h padding margin : Z) :
  let lay := compute_layout "right" (pano_w, pano_h) (zoom_w, zoom_h)
                            padding margin in
  let max_h := Z.max pano_h zoom_h in
  (canvas_w lay = margin + pano_w + padding + zoom_w + margin /\
   canvas_h lay = margin + max_h + margin /\
   lay_pano_pos lay = (margin, margin + (max_h - pano_h) / 2) /\
   lay_zoom_pos lay = (margin + pano_w + padding,
                       margin + (max_h - zoom_h) / 2)) /\
  (2 * ((max_h - pano_h) / 2) <= max_h - pano_h
     < 2 * ((max_h - pano_h) / 2) + 2 /\
   2 * ((max_h - zoom_h) / 2) <= max_h - zoom_h
     < 2 * ((max_h - zoom_h) / 2) + 2) /\
  (compute_layout "right" (200, 100) (80, 80) 20 8 =
     {| canvas_w := 316; canvas_h := 116;
        lay_pano_pos := (8, 8); lay_zoom_pos := (228, 18) |} /\
   exists canvas meta,
     snd (@create_zoom_figure
            (Lab.bench (100, 200) (80, 80) (Py.dec 9 10) (5, 7)) 0
            (Lab.with_padding 20 Lab.defaults)) = Ok (canvas, meta) /\
     size canvas = (316, 116) /\
     pano_pos meta = (8, 8) /\ zoom_pos meta = (228, 18)).
Proof.
  cbv zeta. split; [| split].
  - unfold compute_layout. cbn. repeat split; reflexivity.
  - split.
    + pose proof (Z.mod_pos_bound (Z.max pano_h zoom_h - pano_h) 2 eq_refl).
      pose proof (Z.div_mod (Z.max pano_h zoom_h - pano_h) 2). lia.
    + pose proof (Z.mod_pos_bound (Z.max pano_h zoom_h - zoom_h) 2 eq_refl).
      pose proof (Z.div_mod (Z.max pano_h zoom_h - zoom_h) 2). lia.
  - split; [reflexivity |].
    eexists. eexists. split; [vm_compute; reflexivity |].
    repeat split; reflexivity.
Qed.

(** C7. For every direction among right, left, bottom and top, positive
    image sizes, padding >= 0 and margin >= 0, both placed images lie in
    [margin, canvas_w - margin] x [margin, canvas_h - margin] and they do
    not overlap. *)
Theorem C7_layout_within_margin_and_apart
        (d : string) (pano_w pano_h zoom_w zoom_h padding margin : Z) :
  In d directions ->
  0 < pano_w -> 0 < pano_h -> 0 < zoom_w -> 0 < zoom_h ->
  0 <= padding -> 0 <= margin ->
  let lay := compute_layout d (pano_w, pano_h) (zoom_w, zoom_h)
                            padding margin in
  within margin lay (lay_pano_pos lay) (pano_w, pano_h) /\
  within margin lay (lay_zoom_pos lay) (zoom_w, zoom_h) /\
  apart (lay_pano_pos lay) (pano_w, pano_h)
        (lay_zoom_pos lay) (zoom_w, zoom_h).
Proof.
  intros _ Hpw Hph Hzw Hzh Hpad _. apply layout_invariant; lia.
Qed.

Lemma C7_layout_witness :
  let lay := compute_layout "bottom" (200, 100) (80, 80) 20 8 in
  within 8 lay (lay_pano_pos lay) (200, 100) /\
  within 8 lay (lay_zoom_pos lay) (80, 80) /\
  apart (lay_pano_pos lay) (200, 100) (lay_zoom_pos lay) (80, 80).
Proof.
  apply (C7_layout_within_margin_and_apart "bottom" 200 100 80 80 20 8);
    [ right; right; left; reflexivity | lia .. ].
Defined.

(** ** Watermark *)

Section Watermark.

Context `{Collaborators}.

Lemma watermark_origin_bottom_right (img_w img_h text_w text_h : Z) :
  watermark_origin "bottom-right" (img_w, img_h) text_w text_h =
  (img_w - text_w - 20, img_h - text_h - 20).
Proof. reflexivity. Qed.

(** The watermark is laid over everything drawn before it. *)
Lemma draw_watermark_extends (im : image) (text position : string)
      (opacity font_size : Z) (c : color) :
  extends im (draw_watermark im text position opacity font_size c).
Proof.
  unfold extends, draw_watermark. cbn [history].
  eexists. reflexivity.
Qed.

(** C9. With anchor bottom-right the watermark text is drawn with its
    origin at x = canvas_w - text_w - 20 and y = canvas_h - text_h - 20,
    where (text_w, text_h) is the measured bounding box of the text in
    the watermark font; this holds for every canvas, in particular for
    one at least as large as the box.  The text is the only thing on
    the layer, which is composited last. *)
Theorem C9_watermark_bottom_right_origin
        (im : image) (text : string) (opacity font_size : Z) (c : color) :
  let f := get_default_font font_size in
  let text_w := snd (fst (textbbox text f)) - fst (fst (fst (textbbox text f))) in
  let text_h := snd (textbbox text f) - snd (fst (fst (textbbox text f))) in
  let canvas_w := fst (size im) in
  let canvas_h := snd (size im) in
  text_w <= canvas_w -> text_h <= canvas_h ->
  let x := canvas_w - text_w - 20 in
  let y := canvas_h - text_h - 20 in
  exists earlier,
    history (draw_watermark im text "bottom-right" opacity font_size c) =
    (earlier ++ [ Composited [ Text (x, y) text (Alpha c opacity) f ];
                  Converted RGB ])%list /\
    size (draw_watermark im text "bottom-right" opacity font_size c) =
    size im.
Proof.
  cbv zeta. intros _ _.
  unfold draw_watermark, watermark_layer. cbn [history size].
  destruct (textbbox text (get_default_font font_size)) as [[[b0 b1] b2] b3].
  destruct (size im) as [img_w img_h].
  rewrite watermark_origin_bottom_right. cbn [fst snd].
  exists (history im ++ match img_mode im with
                        | RGB => [ Converted RGBA ]
                        | RGBA => []
                        end)%list.
  split; [| reflexivity].
  rewrite <- app_assoc. reflexivity.
Qed.

End Watermark.

Lemma C9_watermark_witness :
  exists earlier,
    history (@draw_watermark (Lab.bench (100, 200) (80, 80) (Py.dec 9 10) (5, 7))
               (blank RGB (346, 116)) "Leo" "bottom-right" 128 24
               (128, 128, 128)) =
    (earlier ++ [ Composited [ Text (296, 84) "Leo"
                                    (Alpha (128, 128, 128) 128) DefaultFont ];
                  Converted RGB ])%list /\
    size (@draw_watermark (Lab.bench (100, 200) (80, 80) (Py.dec 9 10) (5, 7))
            (blank RGB (346, 116)) "Leo" "bottom-right" 128 24
            (128, 128, 128)) = (346, 116).
Proof.
  apply (@C9_watermark_bottom_right_origin
           (Lab.bench (100, 200) (80, 80) (Py.dec 9 10) (5, 7))
           (blank RGB (346, 116)) "Leo" 128 24 (128, 128, 128));
    cbn; lia.
Defined.

(** ** Which exceptions a computation can raise *)

Create HintDb raises.

Lemma raises_only_Ok {A : Type} (P : exn -> Prop) (a : A) :
  raises_only P (Ok a).
Proof. intros e E. discriminate E. Qed.

Lemma raises_only_OutOfFuel {A : Type} (P : exn -> Prop) :
  raises_only P (@OutOfFuel A).
Proof. intros e E. discriminate E. Qed.

Lemma raises_only_bind {A B : Type} (P : exn -> Prop) (m : outcome A)
      (k : A -> outcome B) :
  raises_only P m -> (forall a, m = Ok a -> raises_only P (k a)) ->
  raises_only P (bind m k).
Proof.
  intros Hm Hk e E. apply bind_Raise in E as [E | [a [Ea E]]].
  - apply Hm. exact E.
  - apply (Hk a Ea). exact E.
Qed.

Lemma raises_only_weaken {A : Type} (P Q : exn -> Prop) (m : outcome A) :
  (forall e, P e -> Q e) -> raises_only P m -> raises_only Q m.
Proof. intros HPQ Hm e E. apply HPQ, Hm, E. Qed.

#[local] Hint Resolve raises_only_Ok raises_only_OutOfFuel : raises.

Lemma numeric_error_overflow : numeric_error OverflowError.
Proof. left. reflexivity. Qed.

Lemma numeric_error_not_zero_division (e : exn) :
  numeric_error e -> e <> ZeroDivisionError.
Proof. intros [-> | ->]; discriminate. Qed.

Module PyFacts.

Import Py.

Lemma float_of_int_raises (z : Z) : raises_only numeric_error (float_of_int z).
Proof.
  intros e. unfold float_of_int.
  destruct (round_Z z); intros E; try discriminate E.
  injection E as <-. apply numeric_error_overflow.
Qed.

Lemma to_float_raises (x : num) : raises_only numeric_error (to_float x).
Proof.
  destruct x; simpl; [apply float_of_int_raises | apply raises_only_Ok].
Qed.

Lemma arith_raises fz ff (x y : num) :
  raises_only numeric_error (arith fz ff x y).
Proof.
  destruct x as [a | f], y as [b | g]; simpl;
    try apply raises_only_Ok;
    repeat (apply raises_only_bind;
            [ first [ apply float_of_int_raises | apply raises_only_Ok ]
            | intros ? _ ]);
    apply raises_only_Ok.
Qed.

Lemma add_raises (x y : num) : raises_only numeric_error (add x y).
Proof. apply arith_raises. Qed.

Lemma sub_raises (x y : num) : raises_only numeric_error (sub x y).
Proof. apply arith_raises. Qed.

Lemma mul_raises (x y : num) : raises_only numeric_error (mul x y).
Proof. apply arith_raises. Qed.

Lemma trunc_raises (f : float) : raises_only numeric_error (trunc f).
Proof.
  intros e. destruct f; simpl; intros E; try discriminate E;
    injection E as <-; [left | right]; reflexivity.
Qed.

Lemma int_raises (x : num) : raises_only numeric_error (int x).
Proof.
  destruct x; simpl; [apply raises_only_Ok | apply trunc_raises].
Qed.

Lemma format_f_raises (p : nat) (x : num) :
  raises_only numeric_error (format_f p x).
Proof.
  unfold format_f. apply raises_only_bind;
    [apply to_float_raises | intros; apply raises_only_Ok].
Qed.

Lemma int_pow_half_raises (n : Z) :
  raises_only numeric_error (int_pow_half n).
Proof.
  unfold int_pow_half. apply raises_only_bind;
    [apply float_of_int_raises | intros; apply raises_only_Ok].
Qed.

(** [length == 0] is the test "is a zero". *)
Lemma eq_zero (f : float) : eq (Float f) (Int 0) = is_zero f.
Proof.
  unfold eq, cmp, cmp_int_float.
  destruct f as [s | s | | s m e]; cbv [option_map is_zero];
    try reflexivity.
  - destruct s; reflexivity.
  - assert (Hm : cond_Zopp s (Z.pos m) <> 0) by (destruct s; discriminate).
    destruct (0 <=? e) eqn:He.
    + apply Z.leb_le in He.
      assert (Hp : 0 < 2 ^ e) by (apply Z.pow_pos_nonneg; lia).
      assert (Hne : cond_Zopp s (Z.pos m) * 2 ^ e <> 0)
        by (apply Z.neq_mul_0; split; [exact Hm | lia]).
      destruct (Z.compare_spec 0 (cond_Zopp s (Z.pos m) * 2 ^ e));
        [congruence | reflexivity | reflexivity].
    + rewrite Z.mul_0_l.
      destruct (Z.compare_spec 0 (cond_Zopp s (Z.pos m)));
        [congruence | reflexivity | reflexivity].
Qed.

(** True division raises [ZeroDivisionError] only on a zero divisor. *)
Lemma truediv_float_raises (x : num) (g : float) :
  is_zero g = false -> raises_only numeric_error (truediv x (Float g)).
Proof.
  intros Hg. unfold truediv.
  assert (Hk : forall f : float,
             raises_only numeric_error
               (if is_zero g then Raise ZeroDivisionError
                else Ok (fdiv f g) : outcome float))
    by (intros f; rewrite Hg; apply raises_only_Ok).
  destruct x as [a | f]; simpl.
  - apply raises_only_bind; [apply float_of_int_raises | intros f _; apply Hk].
  - apply Hk.
Qed.

Lemma int_truediv_raises (a b : Z) :
  b <> 0 -> raises_only numeric_error (int_truediv a b).
Proof.
  intros Hb e. unfold int_truediv.
  destruct b as [| pb | pb]; [contradiction Hb; reflexivity | |];
    (destruct a; [intros E; discriminate E | |]);
    match goal with
    | |- context [fdiv ?u ?v] => destruct (fdiv u v)
    end;
    intros E; try discriminate E; injection E as <-;
    apply numeric_error_overflow.
Qed.

Lemma truediv_by_1000_raises (x : num) :
  raises_only numeric_error (truediv x (Int 1000)).
Proof.
  destruct x as [a | f].
  - apply int_truediv_raises. discriminate.
  - unfold truediv. simpl. apply raises_only_Ok.
Qed.

End PyFacts.

(** ** Dashed lines *)

Section DashLoop.

Variables (x1 y1 : Z) (ux uy length : Py.float).
Variables (fill : color) (width dash_length gap_length : Z).

Let loop (fuel : nat) : Z -> bool -> image -> outcome image :=
  dash_loop fuel x1 y1 ux uy length fill width dash_length gap_length.

(** The three ways a turn of the loop goes. *)
Lemma dash_loop_done (fuel : nat) (pos : Z) (drawing : bool) (im : image) :
  Py.lt (Py.Int pos) (Py.Float length) = false ->
  loop fuel pos drawing im = Ok im.
Proof.
  intros Hlt. unfold loop. destruct fuel; simpl; rewrite Hlt; reflexivity.
Qed.

Lemma dash_loop_gap (fuel : nat) (pos : Z) (im : image) :
  Py.lt (Py.Int pos) (Py.Float length) = true ->
  loop (S fuel) pos false im = loop fuel (pos + gap_length) true im.
Proof. intros Hlt. unfold loop. simpl. rewrite Hlt. reflexivity. Qed.

Lemma dash_loop_dash (fuel : nat) (pos : Z) (im : image)
      (seg_length : Py.num) (p q : Py.num * Py.num) :
  Py.lt (Py.Int pos) (Py.Float length) = true ->
  seg_length_at length dash_length pos = Ok seg_length ->
  dash_ends x1 y1 ux uy pos seg_length = Ok (p, q) ->
  loop (S fuel) pos true im =
  loop fuel (pos + dash_length) false (draw (Line p q fill width) im).
Proof.
  intros Hlt Hseg Hends. unfold loop. simpl.
  rewrite Hlt, Hseg. simpl. rewrite Hends. reflexivity.
Qed.

Lemma seg_length_at_raises (pos : Z) :
  raises_only numeric_error (seg_length_at length dash_length pos).
Proof.
  unfold seg_length_at. apply raises_only_bind;
    [apply PyFacts.sub_raises | intros; apply raises_only_Ok].
Qed.

Lemma along_raises (x : Z) (u : Py.float) (t : Py.num) :
  raises_only numeric_error (along x u t).
Proof.
  unfold along. apply raises_only_bind;
    [apply PyFacts.mul_raises | intros; apply PyFacts.add_raises].
Qed.

Lemma dash_ends_raises (pos : Z) (seg_length : Py.num) :
  raises_only numeric_error (dash_ends x1 y1 ux uy pos seg_length).
Proof.
  unfold dash_ends.
  repeat (apply raises_only_bind;
          [ first [ apply along_raises | apply PyFacts.add_raises ]
          | intros ? _ ]).
  apply raises_only_Ok.
Qed.

(** The march raises nothing but what number conversions raise. *)
Lemma dash_loop_raises (fuel : nat) :
  forall pos drawing im,
    raises_only numeric_error (loop fuel pos drawing im).
Proof.
  unfold loop.
  induction fuel as [| fuel IH]; intros pos drawing im; simpl;
    destruct (Py.lt (Py.Int pos) (Py.Float length));
    auto with raises.
  destruct drawing; [| apply IH].
  apply raises_only_bind; [apply seg_length_at_raises | intros sl _].
  apply raises_only_bind; [apply dash_ends_raises | intros [p q] _].
  apply IH.
Qed.


(** The march only adds strokes to the image. *)
Lemma dash_loop_extends (fuel : nat) :
  forall pos drawing im im',
    loop fuel pos drawing im = Ok im' -> extends im im'.
Proof.
  unfold loop.
  induction fuel as [| fuel IH]; intros pos drawing im im' E; simpl in E;
    destruct (Py.lt (Py.Int pos) (Py.Float length));
    try discriminate E;
    try (injection E as <-; exists []; rewrite app_nil_r; reflexivity).
  destruct drawing; [| apply (IH _ _ _ _ E)].
  destruct (seg_length_at length dash_length pos) as [sl | |];
    simpl in E; try discriminate E.
  destruct (dash_ends x1 y1 ux uy pos sl) as [[p q] | |];
    simpl in E; try discriminate E.
  apply IH in E as [steps E].
  exists (Drawn (Line p q fill width) :: steps).
  rewrite E. cbn [draw record_step history].
  rewrite <- app_assoc. reflexivity.
Qed.

End DashLoop.

Lemma draw_dashed_line_raises (fuel : nat) (im : image) (start end_ : point)
      (fill : color) (width dash_length gap_length : Z) :
  raises_only numeric_error
    (draw_dashed_line fuel im start end_ fill width dash_length gap_length).
Proof.
  destruct start as [x1 y1], end_ as [x2 y2]. unfold draw_dashed_line.
  apply raises_only_bind; [apply PyFacts.int_pow_half_raises | intros len _].
  rewrite PyFacts.eq_zero.
  destruct (Py.is_zero len) eqn:Hz; [apply raises_only_Ok |].
  apply raises_only_bind;
    [apply PyFacts.truediv_float_raises; exact Hz | intros ux _].
  apply raises_only_bind;
    [apply PyFacts.truediv_float_raises; exact Hz | intros uy _].
  apply dash_loop_raises.
Qed.

Lemma draw_dashed_line_extends (fuel : nat) (im im' : image)
      (start end_ : point) (fill : color) (width dash_length gap_length : Z) :
  draw_dashed_line fuel im start end_ fill width dash_length gap_length
    = Ok im' ->
  extends im im'.
Proof.
  destruct start as [x1 y1], end_ as [x2 y2]. unfold draw_dashed_line.
  intros E. apply bind_Ok in E as [len [_ E]].
  destruct (Py.eq (Py.Float len) (Py.Int 0)).
  - injection E as <-. exists []. rewrite app_nil_r. reflexivity.
  - apply bind_Ok in E as [ux [_ E]]. apply bind_Ok in E as [uy [_ E]].
    apply dash_loop_extends in E. exact E.
Qed.


(** C10. When the start point equals the end point the line length is 0
    and [draw_dashed_line] returns at once, the image untouched; and for
    every pair of end points the call never raises [ZeroDivisionError]:
    the two divisions by the length come after the test [length == 0],
    and a length that passes the test is no zero of either sign. *)
Theorem C10_dashed_line_zero_length_guard
        (fuel : nat) (im : image) (start end_ : point)
        (fill : color) (width dash_length gap_length : Z) :
  draw_dashed_line fuel im start start fill width dash_length gap_length
    = Ok im /\
  draw_dashed_line fuel im start end_ fill width dash_length gap_length
    <> Raise ZeroDivisionError /\
  (forall (n : Py.num) (len : Py.float),
      Py.eq (Py.Float len) (Py.Int 0) = false ->
      Py.truediv n (Py.Float len) <> Raise ZeroDivisionError).
Proof.
  split; [| split].
  - destruct start as [x1 y1]. unfold draw_dashed_line.
    rewrite !Z.sub_diag. reflexivity.
  - intros E. apply draw_dashed_line_raises in E.
    apply numeric_error_not_zero_division in E. apply E. reflexivity.
  - intros n len Hne E. rewrite PyFacts.eq_zero in Hne.
    apply (PyFacts.truediv_float_raises n len Hne) in E.
    apply numeric_error_not_zero_division in E. apply E. reflexivity.
Qed.

(** *** The line of length 100 with dashes of 15 and gaps of 10 *)

Lemma dash_ends_int (x1 y1 : Z) (fx fy ux uy : Py.float) (a len : Z)
      (fa fb : Py.float) :
  Py.float_of_int x1 = Ok fx -> Py.float_of_int y1 = Ok fy ->
  Py.float_of_int a = Ok fa -> Py.float_of_int (a + len) = Ok fb ->
  dash_ends x1 y1 ux uy a (Py.Int len) =
  Ok ((Py.Float (Py.fadd fx (Py.fmul ux fa)),
       Py.Float (Py.fadd fy (Py.fmul uy fa))),
      (Py.Float (Py.fadd fx (Py.fmul ux fb)),
       Py.Float (Py.fadd fy (Py.fmul uy fb)))).
Proof.
  intros Hx Hy Ha Hb.
  unfold dash_ends, along, Py.mul, Py.add, Py.arith, Py.to_float.
  cbn [bind]. rewrite Ha, Hb, Hx, Hy. reflexivity.
Qed.

(** One dash of the march: the turn that draws from [a] to [a + 15] and
    the turn that skips the gap after it. *)
Ltac dash_turn Hx Hy :=
  erewrite dash_loop_dash;
    [ | vm_compute; reflexivity
      | vm_compute; reflexivity
      | eapply dash_ends_int;
        [ exact Hx | exact Hy | vm_compute; reflexivity .. ] ];
  rewrite dash_loop_gap by (vm_compute; reflexivity).

Lemma march_100_15_10 (extra : nat) (im : image) (x1 y1 : Z)
      (fx fy ux uy : Py.float) (fill : color) (width : Z) :
  Py.float_of_int x1 = Ok fx -> Py.float_of_int y1 = Ok fy ->
  dash_loop (8 + extra) x1 y1 ux uy (Py.round_Z 100) fill width 15 10 0 true im =
  Ok (fold_left (fun im d => draw d im)
        (map (fun ab => stroke fx fy ux uy (Py.round_Z (fst ab))
                               (Py.round_Z (snd ab)) fill width)
             [ (0, 15); (25, 40); (50, 65); (75, 90) ])
        im).
Proof.
  intros Hx Hy. cbn [Nat.add].
  do 4 dash_turn Hx Hy.
  rewrite dash_loop_done by (vm_compute; reflexivity).
  reflexivity.
Qed.

(** C3, as the code has it.  On a horizontal line of length 100 with
    dash_length = 15 and gap_length = 10 the march draws exactly four
    strokes, from 0 to 15, 25 to 40, 50 to 65 and 75 to 90 along the
    line; each has length 15 = dash_length, none passes the end point,
    and their lengths add up to 60, which is at most 100 but less than
    100 - dash_length.  The start point is any pair of integers that
    convert to floats, the line runs to the right or to the left, and
    eight turns of the loop (or more) are enough. *)
Theorem C3_dashed_line_100_15_10
        (extra : nat) (im : image) (x1 y1 dir : Z) (fx fy : Py.float)
        (fill : color) (width : Z) :
  Py.float_of_int x1 = Ok fx -> Py.float_of_int y1 = Ok fy ->
  dir = 100 \/ dir = -100 ->
  let ux := Py.round_Z (dir / 100) in
  let uy := Py.round_Z 0 in
  let dashes := [ (0, 15); (25, 40); (50, 65); (75, 90) ] in
  draw_dashed_line (8 + extra) im (x1, y1) (x1 + dir, y1) fill width 15 10 =
  Ok (fold_left (fun im d => draw d im)
        (map (fun ab => stroke fx fy ux uy (Py.round_Z (fst ab))
                               (Py.round_Z (snd ab)) fill width)
             dashes)
        im) /\
  fold_right Z.add 0 (map (fun ab => snd ab - fst ab) dashes) = 60 /\
  60 <= 100 /\ 60 < 100 - 15 /\
  Forall (fun ab => 0 <= fst ab /\ snd ab - fst ab <= 15 /\ snd ab <= 100)
         dashes.
Proof.
  intros Hx Hy Hdir. cbv zeta.
  split; [| split; [reflexivity | split; [lia | split; [lia |] ] ] ].
  - unfold draw_dashed_line.
    replace (x1 + dir - x1) with dir by lia.
    replace (y1 - y1) with 0 by lia.
    destruct Hdir as [-> | ->].
    + change (Py.int_pow_half (100 ^ 2 + 0 ^ 2)) with (Ok (Py.round_Z 100)).
      cbn [bind].
      change (Py.eq (Py.Float (Py.round_Z 100)) (Py.Int 0)) with false.
      change (Py.truediv (Py.Int 100) (Py.Float (Py.round_Z 100)))
        with (Ok (Py.round_Z (100 / 100))).
      change (Py.truediv (Py.Int 0) (Py.Float (Py.round_Z 100)))
        with (Ok (Py.round_Z 0)).
      cbn [bind]. apply march_100_15_10; assumption.
    + change (Py.int_pow_half ((-100) ^ 2 + 0 ^ 2)) with (Ok (Py.round_Z 100)).
      cbn [bind].
      change (Py.eq (Py.Float (Py.round_Z 100)) (Py.Int 0)) with false.
      change (Py.truediv (Py.Int (-100)) (Py.Float (Py.round_Z 100)))
        with (Ok (Py.round_Z (-100 / 100))).
      change (Py.truediv (Py.Int 0) (Py.Float (Py.round_Z 100)))
        with (Ok (Py.round_Z 0)).
      cbn [bind]. apply march_100_15_10; assumption.
  - repeat constructor; cbn; lia.
Qed.

Lemma C3_dashed_line_witness :
  draw_dashed_line (8 + 0) (blank RGB (200, 50)) (0, 0) (0 + 100, 0)
    Lab.red 2 15 10 =
  Ok (fold_left (fun im d => draw d im)
        (map (fun ab => stroke (Py.round_Z 0) (Py.round_Z 0)
                               (Py.round_Z (100 / 100)) (Py.round_Z 0)
                               (Py.round_Z (fst ab)) (Py.round_Z (snd ab))
                               Lab.red 2)
             [ (0, 15); (25, 40); (50, 65); (75, 90) ])
        (blank RGB (200, 50))) /\
  fold_right Z.add 0
    (map (fun ab => snd ab - fst ab) [ (0, 15); (25, 40); (50, 65); (75, 90) ])
    = 60 /\
  60 <= 100 /\ 60 < 100 - 15 /\
  Forall (fun ab => 0 <= fst ab /\ snd ab - fst ab <= 15 /\ snd ab <= 100)
         [ (0, 15); (25, 40); (50, 65); (75, 90) ].
Proof.
  apply (C3_dashed_line_100_15_10 0 (blank RGB (200, 50)) 0 0 100
           (Py.round_Z 0) (Py.round_Z 0) Lab.red 2);
    [ reflexivity | reflexivity | left; reflexivity ].
Defined.

(** C3 as the specification words it fails on the line from (0, 0) to
    (100, 0): the lengths of the four strokes drawn add up to 60.0, below
    100 - dash_length = 85. *)
Lemma C3_dashed_coverage_counterexample :
  exists im',
    draw_dashed_line 8 (blank RGB (200, 50)) (0, 0) (100, 0)
      Lab.red 2 15 10 = Ok im' /\
    List.length (drawn_lines (history im')) = 4%nat /\
    total_length (drawn_lines (history im')) = Ok (Py.round_Z 60) /\
    Py.ge (Py.Float (Py.round_Z 60)) (Py.Int (100 - 15)) = false.
Proof.
  eexists. split; [vm_compute; reflexivity |].
  split; [| split]; vm_compute; reflexivity.
Qed.

(** ** Scale bars *)

Lemma forallb_interval (P : Z -> bool) (lo : Z) (len : nat) :
  forallb P (interval lo len) = true ->
  forall n, lo <= n < lo + Z.of_nat len -> P n = true.
Proof.
  intros Hall n Hn. rewrite forallb_forall in Hall. apply Hall.
  unfold interval. apply in_map_iff.
  exists (Z.to_nat (n - lo)). split; [lia |].
  apply in_seq. lia.
Qed.

Lemma micrometres_below_1000 (n : Z) :
  0 <= n < 1000 -> prints_micrometres n = true.
Proof.
  apply (forallb_interval prints_micrometres 0 (Z.to_nat 1000)).
  vm_compute. reflexivity.
Qed.

Lemma millimetres_from_1000 (n : Z) :
  1000 <= n < 10000 -> prints_millimetres n = true.
Proof.
  apply (forallb_interval prints_millimetres 1000 (Z.to_nat 9000)).
  vm_compute. reflexivity.
Qed.

Lemma trunc_toward_zero (f : Py.float) (n : Z) :
  Py.trunc f = Ok n -> toward_zero (Py.Float f) n.
Proof.
  destruct f as [s | s | | s m e]; unfold Py.trunc; intros E;
    try discriminate E.
  - unfold toward_zero. congruence.
  - assert (En : n = cond_Zopp s (if 0 <=? e then Z.pos m * 2 ^ e
                                  else Z.pos m / 2 ^ (- e)))
      by congruence.
    clear E. unfold toward_zero. destruct (0 <=? e) eqn:He.
    + apply Z.leb_le in He.
      assert (Hk : 0 < Z.pos m * 2 ^ e)
        by (apply Z.mul_pos_pos; [lia | apply Z.pow_pos_nonneg; lia]).
      set (k := Z.pos m * 2 ^ e) in *. clearbody k. subst n.
      destruct s; cbn [cond_Zopp]; split; lia.
    + apply Z.leb_gt in He.
      assert (Hd : 0 < 2 ^ (- e)) by (apply Z.pow_pos_nonneg; lia).
      pose proof (Z.mul_div_le (Z.pos m) _ Hd) as Hlo.
      pose proof (Z.mul_succ_div_gt (Z.pos m) _ Hd) as Hhi.
      assert (Hk : 0 <= Z.pos m / 2 ^ (- e)) by (apply Z.div_pos; lia).
      set (d := 2 ^ (- e)) in *. clearbody d.
      set (k := Z.pos m / d) in *. clearbody k. subst n.
      assert (Habs : Z.abs (cond_Zopp s k) = k)
        by (destruct s; cbn [cond_Zopp]; lia).
      rewrite Habs. split; [reflexivity | lia].
Qed.

Lemma int_toward_zero (p : Py.num) (n : Z) :
  Py.int p = Ok n -> toward_zero p n.
Proof.
  destruct p as [z | f]; simpl.
  - intros E. injection E as <-. reflexivity.
  - apply trunc_toward_zero.
Qed.

Section ScaleBar.

Context `{Collaborators}.

Lemma scale_bar_text_reads (length_um : Py.num) (text : string) :
  scale_bar_text length_um = Ok text -> label_reads length_um text.
Proof.
  unfold scale_bar_text, label_reads. intros E.
  destruct (Py.ge length_um (Py.Int 1000));
    apply bind_Ok in E as [v [Ev E]]; injection E as <-.
  - split; [intros _ | intros D; discriminate D].
    exists v. split; [exact Ev | reflexivity].
  - split; [intros D; discriminate D | intros _].
    exists v. split; [exact Ev | reflexivity].
Qed.

Lemma scale_bar_text_raises (length_um : Py.num) :
  raises_only numeric_error (scale_bar_text length_um).
Proof.
  unfold scale_bar_text. destruct (Py.ge length_um (Py.Int 1000)).
  - apply raises_only_bind;
      [apply PyFacts.truediv_by_1000_raises | intros; apply raises_only_Ok].
  - apply raises_only_bind;
      [apply PyFacts.format_f_raises | intros; apply raises_only_Ok].
Qed.

(** The bar is drawn first; the ticks, if any, follow it. *)
Lemma scale_bar_strokes_history (im : image) (x y length_pixels : Z)
      (fill : color) (thickness : Z) (style : string) :
  exists ticks,
    history (scale_bar_strokes im x y length_pixels fill thickness style) =
    (history im
       ++ Drawn (Line (ipoint (x, y)) (ipoint (x + length_pixels, y))
                      fill thickness) :: ticks)%list.
Proof.
  unfold scale_bar_strokes.
  destruct (style =? "ends")%string; [| destruct (style =? "ticks")%string];
    cbn [draw record_step history]; rewrite <- ?app_assoc;
    eexists; cbn [app]; reflexivity.
Qed.

(** With the label computed, the call returns: strokes, then the text. *)
Lemma draw_scale_bar_with_text (im : image) (x y length_pixels : Z)
      (length_um : Py.num) (fill : color) (thickness font_size : Z)
      (style font_family : string) (text_gap : Z) (text : string) :
  scale_bar_text length_um = Ok text ->
  let f := get_font font_family font_size in
  let text_w := snd (fst (textbbox text f)) - fst (fst (fst (textbbox text f))) in
  let text_h := snd (textbbox text f) - snd (fst (fst (textbbox text f))) in
  draw_scale_bar im (x, y) length_pixels length_um fill thickness font_size
    true style font_family text_gap =
  Ok (draw (Text (x + (length_pixels - text_w) / 2,
                  if (style =? "line")%string then y - text_h - text_gap
                  else y - thickness * 3 - text_h - text_gap)
                 text (Solid fill) f)
           (scale_bar_strokes im x y length_pixels fill thickness style)).
Proof.
  intros E. cbv zeta. unfold draw_scale_bar. rewrite E. cbn [bind].
  destruct (textbbox text (get_font font_family font_size))
    as [[[b0 b1] b2] b3].
  reflexivity.
Qed.

Lemma draw_scale_bar_raises (im : image) (position : point)
      (length_pixels : Z) (length_um : Py.num) (fill : color)
      (thickness font_size : Z) (show_text : bool)
      (style font_family : string) (text_gap : Z) :
  raises_only numeric_error
    (draw_scale_bar im position length_pixels length_um fill thickness
       font_size show_text style font_family text_gap).
Proof.
  destruct position as [x y]. unfold draw_scale_bar.
  destruct show_text; [| apply raises_only_Ok].
  apply raises_only_bind; [apply scale_bar_text_raises | intros text _].
  destruct (textbbox text (get_font font_family font_size))
    as [[[b0 b1] b2] b3].
  apply raises_only_Ok.
Qed.

Lemma draw_scale_bar_extends (im im' : image) (position : point)
      (length_pixels : Z) (length_um : Py.num) (fill : color)
      (thickness font_size : Z) (show_text : bool)
      (style font_family : string) (text_gap : Z) :
  draw_scale_bar im position length_pixels length_um fill thickness
    font_size show_text style font_family text_gap = Ok im' ->
  extends im im'.
Proof.
  destruct position as [x y]. unfold draw_scale_bar, extends.
  destruct (scale_bar_strokes_history im x y length_pixels fill thickness
              style) as [ticks Hs].
  destruct show_text.
  - intros E. apply bind_Ok in E as [text [_ E]].
    destruct (textbbox text (get_font font_family font_size))
      as [[[b0 b1] b2] b3].
    injection E as <-. cbn [draw record_step history]. rewrite Hs.
    rewrite <- app_assoc. eexists. reflexivity.
  - intros E. injection E as <-. rewrite Hs. eexists. reflexivity.
Qed.

(** Where the label of a scale bar comes to lie.  The text is the last
    thing drawn.  Its origin is placed as if the text filled a box of
    the measured size from the origin on; since the font sets the text
    (b0, b1) off its origin, the label stands b0 to the right of the
    centre of the bar and its lower edge is text_gap - b1 above the bar
    or its end ticks. *)
Lemma draw_scale_bar_label
      (im : image) (x y length_pixels : Z) (length_um : Py.num)
      (fill : color) (thickness font_size : Z)
      (style font_family : string) (text_gap : Z) (text : string) :
  scale_bar_text length_um = Ok text ->
  let f := get_font font_family font_size in
  let b0 := box_left (textbbox text f) in
  let b1 := box_top (textbbox text f) in
  exists earlier pos,
    draw_scale_bar im (x, y) length_pixels length_um fill thickness
      font_size true style font_family text_gap =
    Ok {| size := size im; img_mode := img_mode im;
          history := (earlier
                        ++ [ Drawn (Text pos text (Solid fill) f) ])%list |} /\
    gap_above_bar y thickness style (text_box pos text f) = text_gap - b1 /\
    0 <= room_right x length_pixels (text_box pos text f)
         - room_left x (text_box pos text f) + 2 * b0 <= 1.
Proof.
  intros E. cbv zeta.
  rewrite (draw_scale_bar_with_text im x y length_pixels length_um fill
             thickness font_size style font_family text_gap text E).
  cbv zeta. unfold text_box, gap_above_bar, room_left, room_right,
    box_left, box_top, box_right, box_bottom.
  destruct (textbbox text (get_font font_family font_size))
    as [[[b0 b1] b2] b3].
  cbn [fst snd].
  exists (history (scale_bar_strokes im x y length_pixels fill thickness style)).
  eexists. split; [| split].
  - unfold draw, record_step. f_equal. f_equal.
    + unfold scale_bar_strokes.
      destruct (style =? "ends")%string; [| destruct (style =? "ticks")%string];
        reflexivity.
    + unfold scale_bar_strokes.
      destruct (style =? "ends")%string; [| destruct (style =? "ticks")%string];
        reflexivity.
  - cbn [fst snd]. destruct (style =? "line")%string; lia.
  - cbn [fst snd].
    pose proof (Z.mul_div_le (length_pixels - (b2 - b0)) 2 eq_refl).
    pose proof (Z.mul_succ_div_gt (length_pixels - (b2 - b0)) 2 eq_refl).
    lia.
Qed.

Lemma sb_length_pixels_of_raises (sb : scale_bar_config) :
  raises_only numeric_error (sb_length_pixels_of sb).
Proof.
  unfold sb_length_pixels_of. apply raises_only_bind;
    [apply PyFacts.mul_raises | intros; apply PyFacts.int_raises].
Qed.

Lemma draw_single_scale_bar_raises (pano_pos zoom_pos : point)
      (pano_size zoom_size : Z * Z) (im : image) (sb : scale_bar_config) :
  raises_only numeric_error
    (draw_single_scale_bar pano_pos zoom_pos pano_size zoom_size im sb).
Proof.
  unfold draw_single_scale_bar.
  destruct (negb (sb_nonempty sb) || negb (get (sb_enabled sb) false));
    [apply raises_only_Ok |].
  apply raises_only_bind; [apply sb_length_pixels_of_raises | intros n _].
  apply draw_scale_bar_raises.
Qed.

Lemma draw_single_scale_bar_extends (pano_pos zoom_pos : point)
      (pano_size zoom_size : Z * Z) (im im' : image)
      (sb : scale_bar_config) :
  draw_single_scale_bar pano_pos zoom_pos pano_size zoom_size im sb = Ok im' ->
  extends im im'.
Proof.
  unfold draw_single_scale_bar.
  destruct (negb (sb_nonempty sb) || negb (get (sb_enabled sb) false)).
  - intros E. injection E as <-. exists []. rewrite app_nil_r. reflexivity.
  - intros E. apply bind_Ok in E as [n [_ E]].
    apply draw_scale_bar_extends in E. exact E.
Qed.

Lemma enabled_nonempty (sb : scale_bar_config) :
  sb_enabled sb = Some true -> sb_nonempty sb = true.
Proof. destruct sb. cbn. intros ->. reflexivity. Qed.

(** C4, as the code has it.  An enabled scale bar is drawn as the
    horizontal line from its anchor (sb_x, sb_y) to (sb_x + n, sb_y)
    where n = int(length_um * pixels_per_um): the product with its
    fractional part dropped, not rounded.  It is the first stroke of the
    bar.  The product must be a number [int] accepts and the label must
    be printable; length_um = 100 with pixels_per_um = 2.0 yields 200. *)
Theorem C4_scale_bar_pixel_length
        (pano_pos zoom_pos : point) (pano_size zoom_size : Z * Z)
        (im : image) (sb : scale_bar_config) (n : Z) (text : string) :
  sb_enabled sb = Some true ->
  sb_length_pixels_of sb = Ok n ->
  scale_bar_text (get (sb_length_um sb) (Py.Int 100)) = Ok text ->
  let xy := sb_anchor sb n pano_pos zoom_pos pano_size zoom_size in
  (exists im' later,
      draw_single_scale_bar pano_pos zoom_pos pano_size zoom_size im sb
        = Ok im' /\
      history im' =
      (history im
         ++ Drawn (Line (ipoint xy) (ipoint (fst xy + n, snd xy))
                        (get (sb_color sb) (0, 0, 0))
                        (get (sb_thickness sb) 5)) :: later)%list) /\
  (exists p,
      Py.mul (get (sb_length_um sb) (Py.Int 100))
             (get (sb_pixels_per_um sb) (Py.Float (Py.dec 1 1))) = Ok p /\
      Py.int p = Ok n /\ toward_zero p n) /\
  sb_length_pixels_of
    (Lab.bar (Py.Int 100) (Py.Float (Py.dec 2 1))) = Ok 200.
Proof.
  intros Hen Hn Htext. cbv zeta. split; [| split; [| reflexivity] ].
  - unfold draw_single_scale_bar.
    rewrite (enabled_nonempty sb Hen), Hen, Hn. cbn [negb orb get bind].
    destruct (sb_anchor sb n pano_pos zoom_pos pano_size zoom_size)
      as [sb_x sb_y] eqn:Hxy.
    rewrite (draw_scale_bar_with_text im sb_x sb_y n _ _ _ _ _ _ _ text Htext).
    cbv zeta.
    destruct (scale_bar_strokes_history im sb_x sb_y n
                (get (sb_color sb) (0, 0, 0)) (get (sb_thickness sb) 5)
                (get (sb_style sb) "ends")) as [ticks Hticks].
    eexists. eexists. split; [reflexivity |].
    cbn [draw record_step history fst snd]. rewrite Hticks.
    rewrite <- app_assoc. reflexivity.
  - unfold sb_length_pixels_of in Hn.
    apply bind_Ok in Hn as [p [Hp Hn]].
    exists p. split; [exact Hp | split; [exact Hn |] ].
    apply int_toward_zero. exact Hn.
Qed.

End ScaleBar.

(** C8, where the code departs from it.  The label reads as claimed:
    "<length_um / 1000 with one decimal> mm" when length_um >= 1000 and
    "<length_um as a whole number> μm" otherwise, a whole number of
    micrometres below 1000 printed as it is and from 1000 on a nearest
    tenth of a millimetre, 100 giving "100 μm" and 1500 "1.5 mm".  But
    the label is not text_gap above the bar: in every world its lower
    edge is text_gap - b1 above the bar (above its end ticks for a style
    other than "line") and it stands b0 off the centre, where (b0, b1)
    is the corner of the box that the font measures for the text at the
    origin; the code subtracts the height b3 - b1 of that box from the
    origin and draws the text at the origin all the same.  With a font
    that measures "100 μm" as (0, 2, 34, 10), a bar of 200 pixels at
    (100, 90) with thickness 5, style "ends" and text_gap 5 has its end
    ticks up to row 75 and its label drawn at (183, 62), where the
    label covers rows 64 to 72: three pixels above the ticks, not
    five. *)
Theorem C8_label_is_closer_than_text_gap :
  (forall (world : Collaborators) (im : image) (x y length_pixels : Z)
          (length_um : Py.num) (fill : color) (thickness font_size : Z)
          (style font_family : string) (text_gap : Z) (text : string),
      scale_bar_text length_um = Ok text ->
      label_reads length_um text /\
      exists earlier pos,
        @draw_scale_bar world im (x, y) length_pixels length_um fill
          thickness font_size true style font_family text_gap =
        Ok {| size := size im; img_mode := img_mode im;
              history :=
                (earlier
                   ++ [ Drawn (Text pos text (Solid fill)
                                    (@get_font world font_family font_size)) ])%list |} /\
        gap_above_bar y thickness style
          (@text_box world pos text (@get_font world font_family font_size))
        = text_gap
          - box_top (@textbbox world text
                       (@get_font world font_family font_size)) /\
        0 <= room_right x length_pixels
               (@text_box world pos text
                  (@get_font world font_family font_size))
             - room_left x
                 (@text_box world pos text
                    (@get_font world font_family font_size))
             + 2 * box_left (@textbbox world text
                               (@get_font world font_family font_size))
          <= 1) /\
  (forall n, 0 <= n < 1000 -> prints_micrometres n = true) /\
  (forall n, 1000 <= n < 10000 -> prints_millimetres n = true) /\
  scale_bar_text (Py.Int 100) = Ok "100 μm" /\
  scale_bar_text (Py.Int 1500) = Ok "1.5 mm" /\
  let lab := Lab.studio (100, 200) (80, 80) (Py.dec 9 10) (5, 7)
               (Lab.upright (100, 200) (80, 80))
               (fun _ => (0, 2, 34, 10)) (fun _ => None) in
  exists earlier,
    @draw_scale_bar lab (blank RGB (346, 116)) (100, 90) 200 (Py.Int 100)
      (0, 0, 0) 5 24 true "ends" "Arial" 5 =
    Ok {| size := (346, 116); img_mode := RGB;
          history :=
            (earlier
               ++ [ Drawn (Text (183, 62) "100 μm" (Solid (0, 0, 0))
                                DefaultFont) ])%list |} /\
    In (Drawn (vline 100 (90 - 15) (90 + 15) (0, 0, 0) 5)) earlier /\
    @text_box lab (183, 62) "100 μm" DefaultFont = (183, 64, 217, 72) /\
    gap_above_bar 90 5 "ends" (@text_box lab (183, 62) "100 μm" DefaultFont)
      = 3 /\
    gap_above_bar 90 5 "ends" (@text_box lab (183, 62) "100 μm" DefaultFont)
      <> 5.
Proof.
  split; [| split; [exact micrometres_below_1000 |
                    split; [exact millimetres_from_1000 |
                            split; [reflexivity | split; [reflexivity |] ] ] ] ].
  - intros world im x y length_pixels length_um fill thickness font_size
           style font_family text_gap text E.
    split; [apply scale_bar_text_reads; exact E |].
    apply (@draw_scale_bar_label world im x y length_pixels length_um fill
             thickness font_size style font_family text_gap text E).
  - cbv zeta.
    exists [ Drawn (Line (ipoint (100, 90)) (ipoint (300, 90)) (0, 0, 0) 5);
             Drawn (vline 100 (90 - 15) (90 + 15) (0, 0, 0) 5);
             Drawn (vline 300 (90 - 15) (90 + 15) (0, 0, 0) 5) ].
    split; [vm_compute; reflexivity |].
    split; [right; left; reflexivity |].
    split; [reflexivity |]. split; [reflexivity | discriminate].
Qed.

Lemma C4_scale_bar_witness :
  exists im' later,
    @draw_single_scale_bar (Lab.bench (100, 200) (80, 80) (Py.dec 9 10) (5, 7))
      (8, 8) (258, 18) (200, 100) (80, 80) (blank RGB (346, 116))
      (Lab.bar (Py.Float (Py.round_Z 7)) (Py.Float (Py.dec 25 100)))
      = Ok im' /\
    history im' =
    (history (blank RGB (346, 116))
       ++ Drawn (Line (ipoint (307, 68)) (ipoint (307 + 1, 68)) (0, 0, 0) 5)
          :: later)%list.
Proof.
  apply (@C4_scale_bar_pixel_length
           (Lab.bench (100, 200) (80, 80) (Py.dec 9 10) (5, 7))
           (8, 8) (258, 18) (200, 100) (80, 80) (blank RGB (346, 116))
           (Lab.bar (Py.Float (Py.round_Z 7)) (Py.Float (Py.dec 25 100)))
           1 "7 μm");
    reflexivity.
Defined.

(** C4 as the specification words it fails for length_um = 7.0 and
    pixels_per_um = 0.25: the product is 1.75, the bar drawn is one pixel
    long, and round(1.75) is 2. *)
Lemma C4_rounding_counterexample :
  Py.mul (Py.Float (Py.round_Z 7)) (Py.Float (Py.dec 25 100))
    = Ok (Py.Float (Py.dec 175 100)) /\
  sb_length_pixels_of
    (Lab.bar (Py.Float (Py.round_Z 7)) (Py.Float (Py.dec 25 100))) = Ok 1 /\
  rounded_length_pixels (Py.Float (Py.round_Z 7)) (Py.Float (Py.dec 25 100))
    = Ok 2 /\
  exists later,
    @draw_single_scale_bar (Lab.bench (100, 200) (80, 80) (Py.dec 9 10) (5, 7))
      (8, 8) (258, 18) (200, 100) (80, 80) (blank RGB (346, 116))
      (Lab.bar (Py.Float (Py.round_Z 7)) (Py.Float (Py.dec 25 100)))
    = Ok {| size := (346, 116); img_mode := RGB;
            history :=
              Drawn (Line (ipoint (307, 68)) (ipoint (308, 68)) (0, 0, 0) 5)
                :: later |}.
Proof.
  split; [vm_compute; reflexivity |].
  split; [vm_compute; reflexivity |].
  split; [vm_compute; reflexivity |].
  eexists. vm_compute. reflexivity.
Qed.

(** ** Locating the region of interest *)

Section Locate.

Context `{Collaborators}.

Variables panorama zoom_img : Mat.

(** One turn of the scale loop, told by cases. *)
Lemma try_scale_cases (st st' : search) (scale : Py.float) :
  try_scale panorama zoom_img st scale = Ok st' ->
  exists template,
    template_size zoom_img scale = Ok template /\
    ((fits panorama template = false /\ st' = st) \/
     (fits panorama template = true /\
      Py.gt (Py.Float (peak panorama zoom_img template)) (best_confidence st)
        = false /\ st' = st) \/
     (fits panorama template = true /\
      Py.gt (Py.Float (peak panorama zoom_img template)) (best_confidence st)
        = true /\
      best_match st' <> None /\
      best_confidence st' = Py.Float (peak panorama zoom_img template))).
Proof.
  unfold try_scale, template_size, fits, peak.
  destruct (shape zoom_img) as [zoom_h zoom_w].
  destruct (shape panorama) as [pano_h pano_w]. cbn [fst snd].
  intros E. apply bind_Ok in E as [new_w [Ew E]].
  apply bind_Ok in E as [new_h [Eh E]].
  exists (new_w, new_h). rewrite Ew, Eh. cbn [bind fst snd].
  split; [reflexivity |].
  destruct ((new_w >=? pano_w) || (new_h >=? pano_h)).
  { left. split; [reflexivity | congruence]. }
  destruct ((new_w <? 10) || (new_h <? 10)).
  { left. split; [reflexivity | congruence]. }
  destruct (minMaxLoc (matchTemplate panorama (resize zoom_img (new_w, new_h))))
    as [[[min_val max_val] min_loc] max_loc]. cbn [fst snd] in *.
  destruct (Py.gt (Py.Float max_val) (best_confidence st)).
  - right. right. injection E as <-. cbn.
    repeat split; try reflexivity. discriminate.
  - right. left. split; [reflexivity | split; [reflexivity | congruence] ].
Qed.

(** When the template size is computed, the turn returns. *)
Lemma try_scale_returns (st : search) (scale : Py.float) :
  returns (template_size zoom_img scale) ->
  returns (try_scale panorama zoom_img st scale).
Proof.
  unfold try_scale, template_size, returns.
  destruct (shape zoom_img) as [zoom_h zoom_w].
  destruct (shape panorama) as [pano_h pano_w]. cbn [fst snd].
  intros [template E]. apply bind_Ok in E as [new_w [Ew E]].
  apply bind_Ok in E as [new_h [Eh _]]. rewrite Ew, Eh. cbn [bind].
  destruct ((new_w >=? pano_w) || (new_h >=? pano_h)); [eexists; reflexivity |].
  destruct ((new_w <? 10) || (new_h <? 10)); [eexists; reflexivity |].
  destruct (minMaxLoc _) as [[[min_val max_val] min_loc] max_loc].
  destruct (Py.gt _ _); eexists; reflexivity.
Qed.

(** A match once recorded is never dropped, and the state stays as the
    loop keeps it. *)
Lemma try_scale_keeps (st st' : search) (scale : Py.float) :
  try_scale panorama zoom_img st scale = Ok st' ->
  (best_match st <> None -> best_match st' <> None) /\
  (search_ok st -> search_ok st').
Proof.
  intros E. apply try_scale_cases in E
    as [template [_ [[_ ->] | [[_ [_ ->]] | [_ [_ [Hm _]]]]]]];
    try (split; auto; fail).
  split; [intros _; exact Hm | intros _ Hn; contradiction (Hm Hn)].
Qed.

Lemma search_scales_keeps (ss : list Py.float) :
  forall st st',
    search_scales panorama zoom_img ss st = Ok st' ->
    (best_match st <> None -> best_match st' <> None) /\
    (search_ok st -> search_ok st').
Proof.
  induction ss as [| scale rest IH]; intros st st' E; simpl in E.
  - injection E as <-. split; auto.
  - apply bind_Ok in E as [st1 [E1 E]].
    apply try_scale_keeps in E1 as [K1 O1].
    apply IH in E as [K2 O2]. split; auto.
Qed.

Lemma search_scales_returns (ss : list Py.float) :
  (forall scale, In scale ss -> returns (template_size zoom_img scale)) ->
  forall st, returns (search_scales panorama zoom_img ss st).
Proof.
  induction ss as [| scale rest IH]; intros Hsz st; simpl.
  - eexists. reflexivity.
  - destruct (try_scale_returns st scale (Hsz scale (or_introl eq_refl)))
      as [st1 E1].
    rewrite E1. cbn [bind]. apply IH.
    intros s Hs. apply Hsz. right. exact Hs.
Qed.

(** The search ends with a match exactly when some scale of the list
    yields a valid template whose peak is above -1. *)
Lemma search_scales_finds (ss : list Py.float) :
  forall st st',
    search_ok st -> best_match st = None ->
    search_scales panorama zoom_img ss st = Ok st' ->
    (best_match st' <> None <->
     exists scale, In scale ss /\ beats_sentinel panorama zoom_img scale).
Proof.
  induction ss as [| scale rest IH]; intros st st' Hok Hnone E; simpl in E.
  - injection E as <-. split.
    + intros Hm. contradiction (Hm Hnone).
    + intros [s [[] _]].
  - apply bind_Ok in E as [st1 [E1 E]].
    pose proof (try_scale_keeps _ _ _ E1) as [_ Hok1].
    pose proof (search_scales_keeps _ _ _ E) as [Hkeep _].
    apply try_scale_cases in E1 as [template [Hsz Hcase]].
    rewrite (Hok Hnone) in Hcase.
    assert (Hstay :
              st1 = st ->
              ~ beats_sentinel panorama zoom_img scale ->
              best_match st' <> None <->
              exists s, In s (scale :: rest)
                        /\ beats_sentinel panorama zoom_img s).
    { intros -> Hnot. rewrite (IH st st' Hok Hnone E). split.
      - intros [s [Hin Hb]]. exists s. split; [right; exact Hin | exact Hb].
      - intros [s [[<- | Hin] Hb]]; [contradiction (Hnot Hb) |].
        exists s. split; assumption. }
    destruct Hcase as [[Hfit ->] | [[Hfit [Hgt ->]] | [Hfit [Hgt [Hm _]]]]].
    + apply Hstay; [reflexivity |].
      intros [t [Ht [Hf _]]]. rewrite Hsz in Ht. injection Ht as <-.
      rewrite Hfit in Hf. discriminate Hf.
    + apply Hstay; [reflexivity |].
      intros [t [Ht [_ Hg]]]. rewrite Hsz in Ht. injection Ht as <-.
      rewrite Hgt in Hg. discriminate Hg.
    + split; [intros _ | intros _; exact (Hkeep Hm)].
      exists scale. split; [left; reflexivity |].
      exists template. repeat split; assumption.
Qed.

End Locate.

Section FindRoiPosition.

Context `{Collaborators}.

Lemma scaled_dim_raises (n : Z) (scale : Py.num) :
  raises_only numeric_error (scaled_dim n scale).
Proof.
  unfold scaled_dim. apply raises_only_bind;
    [apply PyFacts.mul_raises | intros; apply PyFacts.int_raises].
Qed.

Lemma try_scale_raises (panorama zoom_img : Mat) (st : search)
      (scale : Py.float) :
  raises_only numeric_error (try_scale panorama zoom_img st scale).
Proof.
  unfold try_scale.
  destruct (shape zoom_img) as [zoom_h zoom_w].
  destruct (shape panorama) as [pano_h pano_w].
  apply raises_only_bind; [apply scaled_dim_raises | intros new_w _].
  apply raises_only_bind; [apply scaled_dim_raises | intros new_h _].
  destruct ((new_w >=? pano_w) || (new_h >=? pano_h)); [apply raises_only_Ok |].
  destruct ((new_w <? 10) || (new_h <? 10)); [apply raises_only_Ok |].
  destruct (minMaxLoc _) as [[[min_val max_val] min_loc] max_loc].
  destruct (Py.gt _ _); apply raises_only_Ok.
Qed.

Lemma search_scales_raises (panorama zoom_img : Mat) (ss : list Py.float) :
  forall st,
    raises_only numeric_error (search_scales panorama zoom_img ss st).
Proof.
  induction ss as [| scale rest IH]; intros st; simpl.
  - apply raises_only_Ok.
  - apply raises_only_bind; [apply try_scale_raises | intros st1 _; apply IH].
Qed.

Lemma find_roi_position_raises (panorama_path zoom_path : string) :
  raises_only (locate_error panorama_path zoom_path)
    (find_roi_position panorama_path zoom_path).
Proof.
  unfold find_roi_position, locate_error.
  destruct (imread panorama_path) as [panorama |].
  - destruct (imread zoom_path) as [zoom_img |].
    + apply raises_only_bind.
      * eapply raises_only_weaken; [| apply search_scales_raises].
        intros e He. right. right. right. exact He.
      * intros st _. destruct (best_match st) as [[[[[x y] w] h] scale] |].
        -- apply raises_only_Ok.
        -- intros e E. injection E as <-. right. right. left. reflexivity.
    + intros e E. injection E as <-. right. left. reflexivity.
  - intros e E. injection E as <-. left. reflexivity.
Qed.

(** A located region means both files were decoded. *)
Lemma find_roi_position_files (panorama_path zoom_path : string)
      (r : Z * Z * Z * Z * Py.num) :
  find_roi_position panorama_path zoom_path = Ok r ->
  exists panorama zoom_img,
    imread panorama_path = Some panorama /\ imread zoom_path = Some zoom_img.
Proof.
  unfold find_roi_position.
  destruct (imread panorama_path) as [panorama |];
    [| intros E; discriminate E].
  destruct (imread zoom_path) as [zoom_img |]; [| intros E; discriminate E].
  intros _. exists panorama, zoom_img. split; reflexivity.
Qed.

(** With both files decoded and every template size computed, the call
    returns a match exactly when some scale yields a valid template whose
    correlation peak is above -1; otherwise it raises "no match". *)
Lemma find_roi_position_finds (panorama_path zoom_path : string)
      (panorama zoom_img : Mat) :
  imread panorama_path = Some panorama ->
  imread zoom_path = Some zoom_img ->
  (forall scale, In scale scales -> returns (template_size zoom_img scale)) ->
  (returns (find_roi_position panorama_path zoom_path) <->
   exists scale, In scale scales /\ beats_sentinel panorama zoom_img scale) /\
  (returns (find_roi_position panorama_path zoom_path) \/
   find_roi_position panorama_path zoom_path
     = Raise (ValueError no_match_message)).
Proof.
  intros Hp Hz Hsz. unfold find_roi_position. rewrite Hp, Hz.
  destruct (search_scales_returns panorama zoom_img scales Hsz
              {| best_match := None; best_confidence := Py.Int (-1) |})
    as [st E].
  rewrite E. cbn [bind].
  pose proof (search_scales_finds panorama zoom_img scales
                {| best_match := None; best_confidence := Py.Int (-1) |} st
                (fun _ => eq_refl) eq_refl E) as Hiff.
  destruct (best_match st) as [[[[[x y] w] h] scale] |].
  - split; [| left; eexists; reflexivity].
    split; [intros _; apply Hiff; discriminate | intros _; eexists; reflexivity].
  - split; [| right; reflexivity].
    split.
    + intros [r Hr]. discriminate Hr.
    + intros Hex. apply Hiff in Hex. contradiction Hex. reflexivity.
Qed.

(** No valid template at any scale: "no match" is raised. *)
Lemma find_roi_position_no_template (panorama_path zoom_path : string)
      (panorama zoom_img : Mat) :
  imread panorama_path = Some panorama ->
  imread zoom_path = Some zoom_img ->
  (forall scale, In scale scales -> returns (template_size zoom_img scale)) ->
  (forall scale, In scale scales -> ~ valid_template panorama zoom_img scale) ->
  find_roi_position panorama_path zoom_path
    = Raise (ValueError no_match_message).
Proof.
  intros Hp Hz Hsz Hnone.
  destruct (find_roi_position_finds _ _ _ _ Hp Hz Hsz) as [Hiff [Hr | Hr]];
    [| exact Hr].
  apply Hiff in Hr as [scale [Hin [template [Ht [Hf _]]]]].
  contradiction (Hnone scale Hin). exists template. split; assumption.
Qed.

End FindRoiPosition.

(** C1, where the code departs from it.  The panorama is 11 x 11, the
    zoom image 10 x 10, and the zoom image is the exact negative of every
    window of the panorama, so that the normalised correlation is -1.0
    everywhere.  Scale 1.0 produces a valid template (10 < 11 both ways,
    and not below 10 pixels), yet [find_roi_position] raises "no match":
    a peak of -1.0 is not above the initial [best_confidence = -1].  The
    same holds for a peak that is not a number, whereas on the same two
    images a peak of -0.5 is returned as a match. *)
Theorem C1_no_match_despite_valid_template :
  let lab := Lab.bench (11, 11) (10, 10) (Py.round_Z (-1)) (0, 0) in
  In (Py.dec 10 10) scales /\
  @valid_template lab (11, 11) (10, 10) (Py.dec 10 10) /\
  @peak lab (11, 11) (10, 10) (10, 10) = Py.round_Z (-1) /\
  @find_roi_position lab "pano.png" "zoom.png"
    = Raise (ValueError no_match_message) /\
  @find_roi_position (Lab.bench (11, 11) (10, 10) S754_nan (0, 0))
    "pano.png" "zoom.png" = Raise (ValueError no_match_message) /\
  @find_roi_position (Lab.bench (11, 11) (10, 10) (Py.dec (-5) 10) (0, 0))
    "pano.png" "zoom.png" = Ok (0, 0, 10, 10, Py.Float (Py.dec (-5) 10)).
Proof.
  cbv zeta. split; [left; reflexivity |].
  split; [exists (10, 10); split; vm_compute; reflexivity |].
  repeat split; vm_compute; reflexivity.
Qed.

(** ** Images only grow *)

Lemma extends_refl (im : image) : extends im im.
Proof. exists []. rewrite app_nil_r. reflexivity. Qed.

Lemma extends_trans (im1 im2 im3 : image) :
  extends im1 im2 -> extends im2 im3 -> extends im1 im3.
Proof.
  intros [s1 E1] [s2 E2]. exists (s1 ++ s2)%list.
  rewrite E2, E1, app_assoc. reflexivity.
Qed.

Lemma extends_record_step (s : step) (im : image) :
  extends im (record_step s im).
Proof. exists [s]. reflexivity. Qed.

Lemma extends_draw (d : drawop) (im : image) : extends im (draw d im).
Proof. apply extends_record_step. Qed.

Lemma extends_fold_left {A : Type} (f : image -> A -> image) (l : list A) :
  (forall im x, extends im (f im x)) ->
  forall im, extends im (fold_left f l im).
Proof.
  intros Hf. induction l as [| x l IH]; intros im; simpl.
  - apply extends_refl.
  - eapply extends_trans; [apply Hf | apply IH].
Qed.

Lemma draw_border_extends (x1 y1 x2 y2 t : Z) (outline : color) (im : image) :
  extends im (draw_border x1 y1 x2 y2 t outline im).
Proof.
  unfold draw_border. apply extends_fold_left.
  intros im0 i. apply extends_draw.
Qed.

Section Composing.

Context `{Collaborators}.

Lemma draw_annotation_extends (im : image) (annotation_type : string)
      (position : point) (fill : color) (sz thickness : Z)
      (text : option string) (font_size : Z) (direction : string) :
  extends im (draw_annotation im annotation_type position fill sz thickness
                text font_size direction).
Proof.
  destruct position as [x y]. unfold draw_annotation, arrow.
  repeat match goal with
         | |- context [if (?s =? ?t)%string then _ else _] =>
             destruct (s =? t)%string
         | |- context [match ?o with Some _ => _ | None => _ end] =>
             destruct o
         end;
    repeat first [ apply extends_refl
                 | eapply extends_trans; [| apply extends_draw] ].
Qed.

Lemma draw_one_annotation_extends (pano_pos zoom_pos : point) (im : image)
      (ann : annotation) :
  extends im (draw_one_annotation pano_pos zoom_pos im ann).
Proof. unfold draw_one_annotation. apply draw_annotation_extends. Qed.

Lemma draw_guide_line_extends (fuel : nat) (a : figure_args)
      (im im' : image) (start end_ : point) :
  draw_guide_line fuel a im start end_ = Ok im' -> extends im im'.
Proof.
  unfold draw_guide_line. destruct (line_style a =? "dashed")%string.
  - apply draw_dashed_line_extends.
  - intros E. injection E as <-. apply extends_draw.
Qed.

Lemma draw_guide_line_raises (fuel : nat) (a : figure_args) (im : image)
      (start end_ : point) :
  raises_only numeric_error (draw_guide_line fuel a im start end_).
Proof.
  unfold draw_guide_line. destruct (line_style a =? "dashed")%string.
  - apply draw_dashed_line_raises.
  - apply raises_only_Ok.
Qed.


Lemma draw_scale_bars_raises (pano_pos zoom_pos : point)
      (pano_size zoom_size : Z * Z) (sbs : list scale_bar_config) :
  forall im,
    raises_only numeric_error
      (draw_scale_bars pano_pos zoom_pos pano_size zoom_size sbs im).
Proof.
  induction sbs as [| sb rest IH]; intros im; simpl.
  - apply raises_only_Ok.
  - apply raises_only_bind;
      [apply draw_single_scale_bar_raises | intros im1 _; apply IH].
Qed.

Lemma draw_scale_bars_extends (pano_pos zoom_pos : point)
      (pano_size zoom_size : Z * Z) (sbs : list scale_bar_config) :
  forall im im',
    draw_scale_bars pano_pos zoom_pos pano_size zoom_size sbs im = Ok im' ->
    extends im im'.
Proof.
  induction sbs as [| sb rest IH]; intros im im' E; simpl in E.
  - injection E as <-. apply extends_refl.
  - apply bind_Ok in E as [im1 [E1 E]].
    eapply extends_trans;
      [apply (draw_single_scale_bar_extends _ _ _ _ _ _ _ E1) | apply (IH _ _ E)].
Qed.

End Composing.

(** ** The composite *)

Section Compose.

Context `{Collaborators}.

(** A picture that Pillow opened is the file, at the size Pillow found. *)
Lemma Image_open_opened (path : string) (src : source) (sz : Z * Z) :
  Image_open path = Ok (src, sz) ->
  decode path = inr sz /\ src = FromFile path.
Proof.
  unfold Image_open. destruct (decode path) as [e | sz0]; intros E;
    [discriminate E |].
  injection E as <- <-. split; reflexivity.
Qed.

(** A new image has no negative side, and nothing is on it. *)
Lemma Image_new_made (m : mode) (sz : Z * Z) (im : image) :
  Image_new m sz = Ok im ->
  im = blank m sz /\ 0 <= fst sz /\ 0 <= snd sz /\ storage sz = None.
Proof.
  unfold Image_new.
  destruct ((fst sz <? 0) || (snd sz <? 0)) eqn:Hneg; [discriminate |].
  destruct (storage sz) as [e |]; [discriminate |].
  intros E. injection E as <-.
  apply orb_false_elim in Hneg as [Hw Hh].
  apply Z.ltb_ge in Hw, Hh. repeat split; assumption.
Qed.

(** A resized image has a width and a height of one pixel at least. *)
Lemma Image_resize_resized (img : source) (sz : Z * Z)
      (r : source * (Z * Z)) :
  Image_resize img sz = Ok r ->
  r = (Resized img sz, sz) /\ 1 <= fst sz /\ 1 <= snd sz /\
  storage sz = None.
Proof.
  unfold Image_resize.
  destruct ((fst sz <? 1) || (snd sz <? 1)) eqn:Hsmall; [discriminate |].
  destruct (storage sz) as [e |]; [discriminate |].
  intros E. injection E as <-.
  apply orb_false_elim in Hsmall as [Hw Hh].
  apply Z.ltb_ge in Hw, Hh. repeat split; assumption.
Qed.

(** The panorama is pasted as decoded, at its size. *)
Lemma load_images_panorama (a : figure_args)
      (panorama zoom_img : source) (pano_size zoom_size : Z * Z) :
  load_images a = Ok ((panorama, pano_size), (zoom_img, zoom_size)) ->
  panorama = FromFile (panorama_path a).
Proof.
  unfold load_images. intros E.
  apply bind_Ok in E as [[p psz] [Ep E]].
  apply bind_Ok in E as [[z zsz] [_ E]].
  apply bind_Ok in E as [zoom [_ E]].
  apply Image_open_opened in Ep as [_ ->].
  congruence.
Qed.

Lemma framed_canvas_history (a : figure_args) (lay : layout) (x y w h : Z)
      (panorama : source) (pano_size : Z * Z)
      (zoom_img : source) (zoom_size : Z * Z) (sz : Z * Z) :
  exists borders,
    history (framed_canvas a lay x y w h panorama pano_size zoom_img zoom_size
               (blank RGB sz))
    = Pasted panorama (lay_pano_pos lay)
        :: Pasted zoom_img (lay_zoom_pos lay) :: borders.
Proof.
  unfold framed_canvas.
  destruct pano_size as [pano_w pano_h], zoom_size as [zoom_w zoom_h].
  destruct (roi_box lay x y w h) as [[[box_x1 box_y1] box_x2] box_y2].
  match goal with
  | |- context [history (draw_border ?a1 ?b1 ?c1 ?d1 ?t1 ?o1
                           (draw_border ?a2 ?b2 ?c2 ?d2 ?t2 ?o2
                              (draw_border ?a3 ?b3 ?c3 ?d3 ?t3 ?o3 ?base)))] =>
      destruct (extends_trans _ _ _
                  (extends_trans _ _ _
                     (draw_border_extends a3 b3 c3 d3 t3 o3 base)
                     (draw_border_extends a2 b2 c2 d2 t2 o2 _))
                  (draw_border_extends a1 b1 c1 d1 t1 o1 _)) as [steps E]
  end.
  exists steps. rewrite E. reflexivity.
Qed.

Lemma draw_guide_lines_raises (fuel : nat) (a : figure_args) (lay : layout)
      (x y w h : Z) (zoom_size : Z * Z) (canvas : image) :
  raises_only numeric_error
    (draw_guide_lines fuel a lay x y w h zoom_size canvas).
Proof.
  unfold draw_guide_lines.
  destruct (roi_box lay x y w h) as [[[box_x1 box_y1] box_x2] box_y2].
  destruct (guide_lines _ _ _ _ _ _ _ _ _) as [g1 g2].
  apply raises_only_bind;
    [apply draw_guide_line_raises | intros; apply draw_guide_line_raises].
Qed.

Lemma draw_guide_lines_extends (fuel : nat) (a : figure_args) (lay : layout)
      (x y w h : Z) (zoom_size : Z * Z) (canvas canvas' : image) :
  draw_guide_lines fuel a lay x y w h zoom_size canvas = Ok canvas' ->
  extends canvas canvas'.
Proof.
  unfold draw_guide_lines.
  destruct (roi_box lay x y w h) as [[[box_x1 box_y1] box_x2] box_y2].
  destruct (guide_lines _ _ _ _ _ _ _ _ _) as [g1 g2].
  intros E. apply bind_Ok in E as [c1 [E1 E2]].
  eapply extends_trans; eapply draw_guide_line_extends; eassumption.
Qed.


Lemma draw_all_scale_bars_raises (a : figure_args) (lay : layout)
      (pano_size zoom_size : Z * Z) (canvas : image) :
  raises_only numeric_error
    (draw_all_scale_bars a lay pano_size zoom_size canvas).
Proof.
  unfold draw_all_scale_bars. destruct (scale_bar a) as [| sb | sbs].
  - apply raises_only_Ok.
  - destruct (sb_nonempty sb);
      [apply draw_single_scale_bar_raises | apply raises_only_Ok].
  - apply draw_scale_bars_raises.
Qed.

Lemma draw_all_scale_bars_extends (a : figure_args) (lay : layout)
      (pano_size zoom_size : Z * Z) (canvas canvas' : image) :
  draw_all_scale_bars a lay pano_size zoom_size canvas = Ok canvas' ->
  extends canvas canvas'.
Proof.
  unfold draw_all_scale_bars. destruct (scale_bar a) as [| sb | sbs].
  - intros E. injection E as <-. apply extends_refl.
  - destruct (sb_nonempty sb).
    + apply draw_single_scale_bar_extends.
    + intros E. injection E as <-. apply extends_refl.
  - apply draw_scale_bars_extends.
Qed.

Lemma draw_annotations_extends (a : figure_args) (lay : layout)
      (canvas : image) :
  extends canvas (draw_annotations a lay canvas).
Proof.
  unfold draw_annotations. destruct (annotations a) as [anns |].
  - apply extends_fold_left. intros im ann.
    apply draw_one_annotation_extends.
  - apply extends_refl.
Qed.

Lemma add_watermark_extends (a : figure_args) (canvas : image) :
  extends canvas (add_watermark a canvas).
Proof.
  unfold add_watermark. destruct (watermark a) as [wm |];
    [| apply extends_refl].
  destruct (wm_nonempty wm && get (wm_enabled wm) false);
    [apply draw_watermark_extends | apply extends_refl].
Qed.

End Compose.

Section Orchestrator.

Context `{Collaborators}.

Lemma extends_In (im im' : image) (s : step) :
  extends im im' -> In s (history im) -> In s (history im').
Proof.
  intros [steps E] Hin. rewrite E. apply in_or_app. left. exact Hin.
Qed.

(** The stages a finished composite went through. *)
Lemma compose_stages (fuel : nat) (a : figure_args) (x y w h : Z)
      (canvas : image) (lay : layout) :
  compose fuel a x y w h = Ok (canvas, lay) ->
  exists panorama pano_size zoom_img zoom_size guided barred,
    load_images a = Ok ((panorama, pano_size), (zoom_img, zoom_size)) /\
    lay = compute_layout (zoom_position a) pano_size zoom_size (padding a)
                         (border_margin a) /\
    draw_guide_lines fuel a lay x y w h zoom_size
      (framed_canvas a lay x y w h panorama pano_size zoom_img zoom_size
         (blank RGB (canvas_w lay, canvas_h lay)))
      = Ok guided /\
    draw_all_scale_bars a lay pano_size zoom_size guided = Ok barred /\
    canvas = add_watermark a (draw_annotations a lay barred).
Proof.
  unfold compose. intros E.
  apply bind_Ok in E as [[[panorama pano_size] [zoom_img zoom_size]] [El E]].
  cbv zeta in E.
  apply bind_Ok in E as [new [En E]].
  apply Image_new_made in En as [-> _].
  apply bind_Ok in E as [guided [Eg E]].
  apply bind_Ok in E as [barred [Eb E]].
  injection E as <- <-.
  exists panorama, pano_size, zoom_img, zoom_size, guided, barred.
  repeat split; assumption.
Qed.

(** The canvas of a finished composite could be made: it has no negative
    side. *)
Lemma compose_canvas (fuel : nat) (a : figure_args) (x y w h : Z)
      (canvas : image) (lay : layout) :
  compose fuel a x y w h = Ok (canvas, lay) ->
  0 <= canvas_w lay /\ 0 <= canvas_h lay.
Proof.
  unfold compose. intros E.
  apply bind_Ok in E as [[[panorama pano_size] [zoom_img zoom_size]] [El E]].
  cbv zeta in E.
  apply bind_Ok in E as [new [En E]].
  apply Image_new_made in En as (_ & Hw & Hh & _).
  apply bind_Ok in E as [guided [Eg E]].
  apply bind_Ok in E as [barred [Eb E]].
  injection E as _ <-. split; assumption. 
Qed.


(** The composite starts with the two pastes. *)
Lemma compose_pastes (fuel : nat) (a : figure_args) (x y w h : Z)
      (canvas : image) (lay : layout) :
  compose fuel a x y w h = Ok (canvas, lay) ->
  exists zoom_img later,
    history canvas =
    Pasted (FromFile (panorama_path a)) (lay_pano_pos lay)
      :: Pasted zoom_img (lay_zoom_pos lay) :: later.
Proof.
  intros E. apply compose_stages in E
    as (panorama & pano_size & zoom_img & zoom_size & guided & barred
        & El & _ & Eg & Eb & ->).
  apply load_images_panorama in El as ->.
  destruct (framed_canvas_history a lay x y w h (FromFile (panorama_path a))
              pano_size zoom_img zoom_size (canvas_w lay, canvas_h lay))
    as [borders Hf].
  destruct (extends_trans _ _ _
              (extends_trans _ _ _
                 (extends_trans _ _ _
                    (draw_guide_lines_extends _ _ _ _ _ _ _ _ _ _ Eg)
                    (draw_all_scale_bars_extends _ _ _ _ _ _ Eb))
                 (draw_annotations_extends a lay barred))
              (add_watermark_extends a _)) as [steps Hs].
  exists zoom_img, (borders ++ steps)%list.
  rewrite Hs, Hf. reflexivity.
Qed.

(** Once the region is located, the call warns if the confidence is
    low, and saves, announces and returns whatever the composing stage
    produces. *)
Lemma create_zoom_figure_located (fuel : nat) (a : figure_args)
      (x y w h : Z) (c : Py.num) :
  find_roi_position (panorama_path a) (zoom_path a) = Ok (x, y, w, h, c) ->
  create_zoom_figure fuel a =
  let warned :=
    if Py.lt c (Py.Float (Py.dec 5 10)) then [ LowConfidenceWarning c ]
    else [] in
  match compose fuel a (x + fst (roi_offset a)) (y + snd (roi_offset a)) w h
  with
  | Ok (canvas, lay) =>
      match save (output_path a) canvas with
      | None =>
          ((warned ++ [ Saved (output_path a) canvas;
                        Announced (output_path a) ])%list,
           Ok (canvas, metadata_of a x y w h c lay))
      | Some e => (warned, Raise e)
      end
  | Raise e => (warned, Raise e)
  | OutOfFuel => (warned, OutOfFuel)
  end.
Proof.
  intros E. unfold create_zoom_figure. rewrite E. reflexivity.
Qed.

End Orchestrator.

(** A march whose dash and gap are both 0 never leaves position 0: with
    whatever fuel, the loop has not returned. *)
Lemma dash_loop_stalls (x1 y1 : Z) (ux uy length : Py.float) (fill : color)
      (width : Z) (seg_length : Py.num) (p q : Py.num * Py.num) :
  Py.lt (Py.Int 0) (Py.Float length) = true ->
  seg_length_at length 0 0 = Ok seg_length ->
  dash_ends x1 y1 ux uy 0 seg_length = Ok (p, q) ->
  forall fuel drawing im,
    dash_loop fuel x1 y1 ux uy length fill width 0 0 0 drawing im = OutOfFuel.
Proof.
  intros Hlt Hseg Hends.
  induction fuel as [| fuel IH]; intros drawing im.
  - simpl. rewrite Hlt. reflexivity.
  - destruct drawing.
    + rewrite (dash_loop_dash _ _ _ _ _ _ _ _ _ _ _ _ _ _ _ Hlt Hseg Hends).
      apply IH.
    + rewrite (dash_loop_gap _ _ _ _ _ _ _ _ _ _ _ _ Hlt). apply IH.
Qed.

Lemma draw_dashed_line_stalls (x1 y1 x2 y2 : Z) (len ux uy : Py.float)
      (fill : color) (width : Z) (seg_length : Py.num)
      (p q : Py.num * Py.num) :
  Py.int_pow_half ((x2 - x1) ^ 2 + (y2 - y1) ^ 2) = Ok len ->
  Py.truediv (Py.Int (x2 - x1)) (Py.Float len) = Ok ux ->
  Py.truediv (Py.Int (y2 - y1)) (Py.Float len) = Ok uy ->
  Py.lt (Py.Int 0) (Py.Float len) = true ->
  seg_length_at len 0 0 = Ok seg_length ->
  dash_ends x1 y1 ux uy 0 seg_length = Ok (p, q) ->
  forall fuel im,
    draw_dashed_line fuel im (x1, y1) (x2, y2) fill width 0 0 = OutOfFuel.
Proof.
  intros Hlen Hux Huy Hlt Hseg Hends fuel im. unfold draw_dashed_line.
  rewrite Hlen. cbn [bind]. rewrite PyFacts.eq_zero.
  assert (Hz : Py.is_zero len = false).
  { destruct len; try reflexivity. discriminate Hlt. }
  rewrite Hz, Hux, Huy. cbn [bind].
  apply (dash_loop_stalls _ _ _ _ _ _ _ _ _ _ Hlt Hseg Hends).
Qed.


Section LowConfidence.

Context {here : Collaborators}.


End LowConfidence.


(** ** No validation step *)

Section NoValidation.

Context `{Collaborators}.

(** An enabled bar that was drawn was drawn from its anchor, [n] pixels
    to the right (to the left when [n] is negative). *)
Lemma draw_single_scale_bar_bar (pano_pos zoom_pos : point)
      (pano_size zoom_size : Z * Z) (im im' : image) (sb : scale_bar_config) :
  sb_enabled sb = Some true ->
  draw_single_scale_bar pano_pos zoom_pos pano_size zoom_size im sb = Ok im' ->
  exists n later,
    sb_length_pixels_of sb = Ok n /\
    let xy := sb_anchor sb n pano_pos zoom_pos pano_size zoom_size in
    history im' =
    (history im
       ++ Drawn (Line (ipoint xy) (ipoint (fst xy + n, snd xy))
                      (get (sb_color sb) (0, 0, 0))
                      (get (sb_thickness sb) 5)) :: later)%list.
Proof.
  intros Hen. unfold draw_single_scale_bar.
  rewrite (enabled_nonempty sb Hen), Hen. cbn [negb orb get].
  intros E. apply bind_Ok in E as [n [Hn E]].
  destruct (sb_anchor sb n pano_pos zoom_pos pano_size zoom_size)
    as [sb_x sb_y] eqn:Hxy.
  unfold draw_scale_bar in E.
  apply bind_Ok in E as [text [_ E]].
  destruct (textbbox text _) as [[[b0 b1] b2] b3].
  injection E as <-.
  destruct (scale_bar_strokes_history im sb_x sb_y n
              (get (sb_color sb) (0, 0, 0)) (get (sb_thickness sb) 5)
              (get (sb_style sb) "ends")) as [ticks Hticks].
  exists n. eexists. split; [exact Hn |].
  cbv zeta. rewrite Hxy.
  cbn [draw record_step history fst snd]. rewrite Hticks.
  rewrite <- app_assoc. reflexivity.
Qed.

Lemma enabled_watermark_nonempty (wm : watermark_config) :
  wm_enabled wm = Some true -> wm_nonempty wm = true.
Proof. destruct wm. cbn. intros ->. reflexivity. Qed.

(** An enabled watermark is composited last, whatever its text. *)
Lemma add_watermark_enabled (a : figure_args) (canvas : image)
      (wm : watermark_config) :
  watermark a = Some wm -> wm_enabled wm = Some true ->
  exists earlier xy,
    history (add_watermark a canvas) =
    (earlier
       ++ [ Composited [ Text xy (get (wm_text wm) EmptyString)
                              (Alpha (get (wm_color wm) (128, 128, 128))
                                     (get (wm_opacity wm) 128))
                              (get_default_font (get (wm_font_size wm) 24)) ];
            Converted RGB ])%list.
Proof.
  intros Hwm Hen. unfold add_watermark.
  rewrite Hwm, (enabled_watermark_nonempty wm Hen), Hen. cbn [andb get].
  unfold draw_watermark, watermark_layer. cbn [history].
  destruct (textbbox _ _) as [[[b0 b1] b2] b3].
  eexists. eexists. rewrite app_assoc. reflexivity.
Qed.

(** What a returned call went through. *)
Lemma create_zoom_figure_returned (fuel : nat) (a : figure_args)
      (canvas : image) (meta : metadata) :
  snd (create_zoom_figure fuel a) = Ok (canvas, meta) ->
  exists x y w h c lay,
    find_roi_position (panorama_path a) (zoom_path a) = Ok (x, y, w, h, c) /\
    compose fuel a (x + fst (roi_offset a)) (y + snd (roi_offset a)) w h
      = Ok (canvas, lay) /\
    meta = metadata_of a x y w h c lay.
Proof.
  unfold create_zoom_figure.
  destruct (find_roi_position (panorama_path a) (zoom_path a))
    as [[[[[x y] w] h] c] | e0 |]; cbn [snd]; try discriminate.
  destruct (compose fuel a _ _ w h) as [[cv lay] | e1 |] eqn:Hc;
    cbn [snd]; try discriminate.
  destruct (save (output_path a) cv) as [e2 |]; cbn [snd]; try discriminate.
  intros E. injection E as <- <-.
  exists x, y, w, h, c, lay. repeat split; try reflexivity. exact Hc.
Qed.

(** A returned canvas was written. *)
Lemma create_zoom_figure_saved (fuel : nat) (a : figure_args)
      (canvas : image) (meta : metadata) :
  snd (create_zoom_figure fuel a) = Ok (canvas, meta) ->
  save (output_path a) canvas = None.
Proof.
  unfold create_zoom_figure.
  destruct (find_roi_position (panorama_path a) (zoom_path a))
    as [[[[[x y] w] h] c] | e0 |]; cbn [snd]; try discriminate.
  destruct (compose fuel a _ _ w h) as [[cv lay] | e1 |] eqn:Hc;
    cbn [snd]; try discriminate.
  destruct (save (output_path a) cv) as [e2 |] eqn:Hs; cbn [snd];
    try discriminate.
  intros E. injection E as <- _. exact Hs.
Qed.

(** Every enabled bar of a list that was drawn was drawn from its
    anchor. *)
Lemma draw_scale_bars_bar (pano_pos zoom_pos : point)
      (pano_size zoom_size : Z * Z) (sbs : list scale_bar_config)
      (sb : scale_bar_config) :
  In sb sbs -> sb_enabled sb = Some true ->
  forall im im',
    draw_scale_bars pano_pos zoom_pos pano_size zoom_size sbs im = Ok im' ->
    exists n,
      sb_length_pixels_of sb = Ok n /\
      let xy := sb_anchor sb n pano_pos zoom_pos pano_size zoom_size in
      In (Drawn (Line (ipoint xy) (ipoint (fst xy + n, snd xy))
                      (get (sb_color sb) (0, 0, 0))
                      (get (sb_thickness sb) 5)))
         (history im').
Proof.
  intros Hin Hen.
  induction sbs as [| sb0 rest IH]; intros im im' E; [contradiction Hin |].
  cbn [draw_scale_bars] in E. apply bind_Ok in E as [im1 [E1 E]].
  destruct Hin as [-> | Hin].
  - apply (draw_single_scale_bar_bar _ _ _ _ _ _ _ Hen) in E1
      as (n & later & Hn & Hhist).
    exists n. split; [exact Hn |]. cbv zeta in *.
    apply (extends_In im1);
      [apply (draw_scale_bars_extends _ _ _ _ _ _ _ E) |].
    rewrite Hhist. apply in_or_app. right. left. reflexivity.
  - apply (IH Hin im1 im' E).
Qed.

(** C5, as the code has it.  A render call has no validation step: a
    spec that the specification calls structurally invalid is not
    rejected, it is rendered as given whenever the call returns.  On the
    returned canvas an enabled watermark has been composited last with
    its text, be it empty; and every enabled scale bar that the call
    asks for, as one dictionary or in a list, has been drawn from its
    anchor on the loaded images over int(length_um * pixels_per_um)
    pixels, be that number zero or negative. *)
Theorem C5_no_validation_step (fuel : nat) (a : figure_args)
        (canvas : image) (meta : metadata) :
  snd (create_zoom_figure fuel a) = Ok (canvas, meta) ->
  (forall wm,
      watermark a = Some wm -> wm_enabled wm = Some true ->
      exists earlier xy,
        history canvas =
        (earlier
           ++ [ Composited
                  [ Text xy (get (wm_text wm) EmptyString)
                         (Alpha (get (wm_color wm) (128, 128, 128))
                                (get (wm_opacity wm) 128))
                         (get_default_font (get (wm_font_size wm) 24)) ];
                Converted RGB ])%list) /\
  (forall sb,
      In sb (asked_bars a) -> sb_enabled sb = Some true ->
      exists n panorama pano_size zoom_img zoom_size,
        load_images a = Ok ((panorama, pano_size), (zoom_img, zoom_size)) /\
        sb_length_pixels_of sb = Ok n /\
        let xy := sb_anchor sb n (pano_pos meta) (zoom_pos meta)
                            pano_size zoom_size in
        In (Drawn (Line (ipoint xy) (ipoint (fst xy + n, snd xy))
                        (get (sb_color sb) (0, 0, 0))
                        (get (sb_thickness sb) 5)))
           (history canvas)).
Proof.
  intros Hret. split.
  - intros wm Hwm Hen.
    apply create_zoom_figure_returned in Hret
      as (x & y & w & h & c & lay & _ & Hc & _).
    apply compose_stages in Hc
      as (panorama & pano_size & zoom_img & zoom_size & guided & barred
          & _ & _ & _ & _ & ->).
    apply (add_watermark_enabled a _ wm Hwm Hen).
  - intros sb Hin Hen.
    apply create_zoom_figure_returned in Hret
      as (x & y & w & h & c & lay & _ & Hc & ->).
    apply compose_stages in Hc
      as (panorama & pano_size & zoom_img & zoom_size & guided & barred
          & El & _ & _ & Hbars & ->).
    assert (Hlist : draw_scale_bars (lay_pano_pos lay) (lay_zoom_pos lay)
                      pano_size zoom_size (asked_bars a) guided = Ok barred).
    { unfold draw_all_scale_bars in Hbars. unfold asked_bars in *.
      destruct (scale_bar a) as [| sb0 | sbs]; [contradiction Hin | | exact Hbars].
      destruct Hin as [-> | []].
      rewrite (enabled_nonempty sb Hen) in Hbars.
      cbn [draw_scale_bars]. rewrite Hbars. reflexivity. }
    destruct (draw_scale_bars_bar _ _ _ _ _ _ Hin Hen _ _ Hlist)
      as (n & Hn & Hline).
    exists n, panorama, pano_size, zoom_img, zoom_size.
    split; [exact El | split; [exact Hn |] ].
    cbv zeta in *. cbn [pano_pos zoom_pos metadata_of].
    apply (extends_In (draw_annotations a lay barred)).
    { apply add_watermark_extends. }
    apply (extends_In barred).
    { apply draw_annotations_extends. }
    exact Hline.
Qed.

End NoValidation.

Lemma C5_no_validation_witness :
  let lab := Lab.bench (100, 200) (80, 80) (Py.dec 9 10) (5, 7) in
  let a :=
    Lab.with_watermark (Some (Lab.mark EmptyString))
      (Lab.with_scale_bar
         (ScaleBars [ Lab.bar (Py.Int 100) (Py.Float (Py.dec 1 1));
                      Lab.bar (Py.Int (-5)) (Py.Float (Py.dec 2 1)) ])
         Lab.defaults) in
  structurally_invalid a /\
  exists canvas meta,
    snd (create_zoom_figure 0 a) = Ok (canvas, meta) /\
    (forall wm,
        watermark a = Some wm -> wm_enabled wm = Some true ->
        exists earlier xy,
          history canvas =
          (earlier
             ++ [ Composited
                    [ Text xy (get (wm_text wm) EmptyString)
                           (Alpha (get (wm_color wm) (128, 128, 128))
                                  (get (wm_opacity wm) 128))
                           (get_default_font (get (wm_font_size wm) 24)) ];
                  Converted RGB ])%list) /\
    (forall sb,
        In sb (asked_bars a) -> sb_enabled sb = Some true ->
        exists n panorama pano_size zoom_img zoom_size,
          load_images a = Ok ((panorama, pano_size), (zoom_img, zoom_size)) /\
          sb_length_pixels_of sb = Ok n /\
          let xy := sb_anchor sb n (pano_pos meta) (zoom_pos meta)
                              pano_size zoom_size in
          In (Drawn (Line (ipoint xy) (ipoint (fst xy + n, snd xy))
                          (get (sb_color sb) (0, 0, 0))
                          (get (sb_thickness sb) 5)))
             (history canvas)).
Proof.
  intros lab a. split.
  - left. apply Exists_cons_tl, Exists_cons_hd.
    split; vm_compute; reflexivity.
  - eexists. eexists. split; [vm_compute; reflexivity |].
    apply (@C5_no_validation_step lab 0 a). vm_compute. reflexivity.
Defined.

(** C5 as the specification words it fails on a call whose scale bar has
    length_um = -5 and whose watermark is enabled with an empty text: the
    call is not rejected, it saves and returns the canvas, on which the
    bar runs ten pixels to the left of its anchor and the empty text has
    been composited. *)
Lemma C5_invalid_spec_counterexample :
  let lab := Lab.bench (100, 200) (80, 80) (Py.dec 9 10) (5, 7) in
  let a :=
    Lab.with_watermark (Some (Lab.mark EmptyString))
      (Lab.with_scale_bar
         (OneScaleBar (Lab.bar (Py.Int (-5)) (Py.Float (Py.dec 2 1))))
         Lab.defaults) in
  structurally_invalid a /\
  exists canvas meta,
    @create_zoom_figure lab 0 a
      = ([ Saved "out.png" canvas; Announced "out.png" ],
         Ok (canvas, meta)) /\
    In (Drawn (Line (ipoint (318, 68)) (ipoint (308, 68)) (0, 0, 0) 5))
       (history canvas) /\
    In (Composited [ Text (326, 84) EmptyString (Alpha (128, 128, 128) 128)
                          DefaultFont ])
       (history canvas).
Proof.
  cbv zeta. split.
  - left. split; vm_compute; reflexivity.
  - eexists. eexists. split; [vm_compute; reflexivity |].
    split; cbn; tauto.
Qed.

(** * Further properties

    Function by function: the scale search, the dash march, fonts,
    annotations, the watermark, the layout and its borders, the guide
    lines, the scale bars, what a call writes, and the window's undo
    history, clicks and calls. *)

(** ** The order of floats *)

(** A float above one that [p] is not above is above [p]. *)
Lemma SFcompare_gt_trans (p b c : Py.float) :
  p <> S754_nan ->
  SFcompare p b <> Some Gt ->
  SFcompare c b = Some Gt ->
  SFcompare c p = Some Gt.
Proof.
  intros Hp Hpb Hcb.
  destruct p as [sp | sp | | sp mp ep]; [| | contradiction Hp; reflexivity |];
  destruct b as [sb | sb | | sb mb eb]; cbn in Hpb, Hcb;
  destruct c as [sc | sc | | sc mc ec]; cbn in Hcb |- *;
    try discriminate Hcb;
    repeat match goal with
           | s : bool |- _ => destruct s
           end;
    try discriminate Hcb; try reflexivity;
    try (exfalso; apply Hpb; reflexivity).
  all: f_equal.
  all: change (PosDef.Pos.compare_cont Eq ?a ?b) with (Pos.compare a b) in *.
  all: repeat match goal with
         | H : context [?a ?= ?b] |- _ =>
             destruct (Z.compare_spec a b); try discriminate H
         | |- context [?a ?= ?b] =>
             destruct (Z.compare_spec a b)
         end; try lia; try reflexivity;
       try (exfalso; apply Hpb; reflexivity).
  all: repeat match goal with
         | H : context [Pos.compare ?a ?b] |- _ =>
             destruct (Pos.compare_spec a b); try discriminate H
         | |- context [Pos.compare ?a ?b] =>
             destruct (Pos.compare_spec a b)
         end; subst; try lia; try reflexivity; cbn in *;
       try (exfalso; apply Hpb; reflexivity); try discriminate.
Qed.

Lemma SFcompare_gt_asym (a b : Py.float) :
  SFcompare a b = Some Gt -> SFcompare b a <> Some Gt.
Proof.
  intros Hab Hba.
  destruct a as [sa | sa | | sa ma ea]; destruct b as [sb | sb | | sb mb eb];
    cbn in Hab, Hba; try discriminate;
    repeat match goal with
           | s : bool |- _ => destruct s
           end; try discriminate.
  all: change (PosDef.Pos.compare_cont Eq ?a ?b) with (Pos.compare a b) in *.
  all: destruct (Z.compare_spec ea eb); destruct (Z.compare_spec eb ea);
    try discriminate; try lia.
  all: destruct (Pos.compare_spec ma mb); destruct (Pos.compare_spec mb ma);
    try discriminate; try lia.
Qed.

Lemma gt_sentinel_not_nan (p : Py.float) :
  Py.gt (Py.Float p) (Py.Int (-1)) = true -> p <> S754_nan.
Proof. intros Hg ->. discriminate Hg. Qed.

(** Above a float that [p] is not above means above [p]. *)
Lemma gt_float_trans (p b c : Py.float) :
  p <> S754_nan ->
  Py.gt (Py.Float p) (Py.Float b) = false ->
  Py.gt (Py.Float c) (Py.Float b) = true ->
  Py.gt (Py.Float c) (Py.Float p) = true.
Proof.
  unfold Py.gt, Py.cmp. intros Hp Hpb Hcb.
  rewrite (SFcompare_gt_trans p b c Hp).
  - reflexivity.
  - intros E. rewrite E in Hpb. discriminate Hpb.
  - destruct (SFcompare c b) as [[] |]; try discriminate Hcb. reflexivity.
Qed.

Lemma gt_float_asym (a b : Py.float) :
  Py.gt (Py.Float a) (Py.Float b) = true ->
  Py.gt (Py.Float b) (Py.Float a) = false.
Proof.
  unfold Py.gt, Py.cmp. intros Hab.
  destruct (SFcompare a b) as [[] |] eqn:E; try discriminate Hab.
  pose proof (SFcompare_gt_asym a b E) as Hn.
  destruct (SFcompare b a) as [[] |]; try reflexivity.
  contradiction Hn. reflexivity.
Qed.

(** ** The scale search keeps the first best scale *)

Section LocateBest.

Context `{Collaborators}.

Variables panorama zoom_img : Mat.

(** One turn of the scale loop, with what it records. *)
Lemma try_scale_step (st st' : search) (scale : Py.float) :
  try_scale panorama zoom_img st scale = Ok st' ->
  (scale_peak panorama zoom_img scale = None /\ st' = st) \/
  exists template,
    template_size zoom_img scale = Ok template /\
    fits panorama template = true /\
    scale_peak panorama zoom_img scale
      = Some (peak panorama zoom_img template) /\
    ((Py.gt (Py.Float (peak panorama zoom_img template)) (best_confidence st)
        = false /\ st' = st) \/
     (Py.gt (Py.Float (peak panorama zoom_img template)) (best_confidence st)
        = true /\
      st' = {| best_match :=
                 Some (fst (peak_loc panorama zoom_img template),
                       snd (peak_loc panorama zoom_img template),
                       fst template, snd template, scale);
               best_confidence :=
                 Py.Float (peak panorama zoom_img template) |})).
Proof.
  unfold try_scale, scale_peak, template_size, fits, peak, peak_loc.
  destruct (shape zoom_img) as [zoom_h zoom_w].
  destruct (shape panorama) as [pano_h pano_w]. cbn [fst snd].
  intros E. apply bind_Ok in E as [new_w [Ew E]].
  apply bind_Ok in E as [new_h [Eh E]].
  rewrite Ew, Eh. cbn [bind fst snd].
  destruct ((new_w >=? pano_w) || (new_h >=? pano_h)) eqn:Hbig.
  { left. split; [reflexivity | congruence]. }
  destruct ((new_w <? 10) || (new_h <? 10)) eqn:Hsmall.
  { left. split; [reflexivity | congruence]. }
  right. exists (new_w, new_h). cbn [fst snd]. rewrite Hbig, Hsmall.
  cbn [negb andb].
  split; [reflexivity | split; [reflexivity | split; [reflexivity |] ] ].
  destruct (minMaxLoc (matchTemplate panorama (resize zoom_img (new_w, new_h))))
    as [[[min_val max_val] min_loc] max_loc]. cbn [fst snd] in *.
  destruct (Py.gt (Py.Float max_val) (best_confidence st)).
  - right. split; [reflexivity | congruence].
  - left. split; [reflexivity | congruence].
Qed.

Lemma first_best_peak (tried : list Py.float) (x y w h : Z)
      (scale : Py.float) (c : Py.num) :
  first_best panorama zoom_img tried (x, y, w, h, scale) c ->
  scale_peak panorama zoom_img scale = Some (peak panorama zoom_img (w, h)) /\
  c = Py.Float (peak panorama zoom_img (w, h)).
Proof.
  intros (before & after & _ & Hsz & Hfit & _ & Hc & _).
  unfold scale_peak. rewrite Hsz, Hfit. split; [reflexivity | exact Hc].
Qed.

(** A later scale that does not improve on the record leaves it the first
    best. *)
Lemma first_best_later (tried : list Py.float) (m : best_match_t)
      (c : Py.num) (s : Py.float) :
  first_best panorama zoom_img tried m c ->
  (forall p, scale_peak panorama zoom_img s = Some p ->
             Py.gt (Py.Float p) c = false) ->
  first_best panorama zoom_img (tried ++ [s]) m c.
Proof.
  destruct m as [[[[x y] w] h] scale].
  intros (before & after & -> & Hsz & Hfit & Hloc & Hc & Hb & Ha) Hs.
  exists before, (after ++ [s])%list.
  rewrite <- app_assoc. repeat split; try assumption.
  intros s' p Hin Hp. apply in_app_or in Hin as [Hin | [<- | []]].
  - apply (Ha s' p Hin Hp).
  - apply Hs. exact Hp.
Qed.

(** A scale whose peak is above the record becomes the first best. *)
Lemma first_best_improved (tried : list Py.float) (st : search)
      (scale : Py.float) (template : Z * Z) :
  scanned panorama zoom_img tried st ->
  template_size zoom_img scale = Ok template ->
  fits panorama template = true ->
  Py.gt (Py.Float (peak panorama zoom_img template)) (best_confidence st)
    = true ->
  first_best panorama zoom_img (tried ++ [scale])
    (fst (peak_loc panorama zoom_img template),
     snd (peak_loc panorama zoom_img template),
     fst template, snd template, scale)
    (Py.Float (peak panorama zoom_img template)).
Proof.
  intros Hsc Hsz Hfit Hgt. destruct template as [w h]. cbn [fst snd].
  exists tried, []. repeat split; try assumption.
  - destruct (peak_loc panorama zoom_img (w, h)); reflexivity.
  - intros s p Hin Hp Hsent. unfold scanned in Hsc.
    destruct (best_match st) as [[[[[x0 y0] w0] h0] s0] |].
    + destruct (first_best_peak _ _ _ _ _ _ _ Hsc) as [Hp0 Hc0].
      destruct Hsc as (before & after & -> & _ & _ & _ & _ & Hb & Ha).
      rewrite Hc0 in Hgt, Hb, Ha.
      apply (gt_float_trans p (peak panorama zoom_img (w0, h0)));
        [apply gt_sentinel_not_nan; exact Hsent | | exact Hgt].
      apply in_app_or in Hin as [Hin | [<- | Hin] ].
      * apply gt_float_asym. apply (Hb s p Hin Hp Hsent).
      * rewrite Hp0 in Hp. injection Hp as <-.
        unfold Py.gt, Py.cmp.
        destruct (SFcompare (peak panorama zoom_img (w0, h0))
                            (peak panorama zoom_img (w0, h0)))
          as [[] |] eqn:E; try reflexivity.
        contradiction (SFcompare_gt_asym _ _ E E).
      * apply (Ha s p Hin Hp).
    + destruct Hsc as [_ Hnone]. rewrite (Hnone s p Hin Hp) in Hsent.
      discriminate Hsent.
  - intros s p [].
Qed.

Lemma try_scale_scanned (tried : list Py.float) (st st' : search)
      (scale : Py.float) :
  scanned panorama zoom_img tried st ->
  try_scale panorama zoom_img st scale = Ok st' ->
  scanned panorama zoom_img (tried ++ [scale]) st'.
Proof.
  intros Hsc E.
  assert (Hstay :
            (forall p, scale_peak panorama zoom_img scale = Some p ->
                       Py.gt (Py.Float p) (best_confidence st) = false) ->
            scanned panorama zoom_img (tried ++ [scale]) st).
  { intros Hs. unfold scanned in *.
    destruct (best_match st) as [m |].
    - apply first_best_later; assumption.
    - destruct Hsc as [Hc Hnone]. split; [exact Hc |].
      intros s p Hin Hp. apply in_app_or in Hin as [Hin | [<- | []]].
      + apply (Hnone s p Hin Hp).
      + rewrite <- Hc. apply Hs. exact Hp. }
  apply try_scale_step in E
    as [[Hnone ->] | (template & Hsz & Hfit & Hp & [[Hg ->] | [Hg ->]])].
  - apply Hstay. intros p Hp. rewrite Hnone in Hp. discriminate Hp.
  - apply Hstay. intros p Hp'. rewrite Hp in Hp'. injection Hp' as <-.
    exact Hg.
  - unfold scanned. cbn [best_match best_confidence].
    apply (first_best_improved tried st scale template Hsc Hsz Hfit Hg).
Qed.

Lemma search_scales_scanned (ss : list Py.float) :
  forall tried st st',
    scanned panorama zoom_img tried st ->
    search_scales panorama zoom_img ss st = Ok st' ->
    scanned panorama zoom_img (tried ++ ss) st'.
Proof.
  induction ss as [| scale rest IH]; intros tried st st' Hsc E; simpl in E.
  - injection E as <-. rewrite app_nil_r. exact Hsc.
  - apply bind_Ok in E as [st1 [E1 E]].
    replace (tried ++ scale :: rest)%list
      with ((tried ++ [scale]) ++ rest)%list
      by (rewrite <- app_assoc; reflexivity).
    apply (IH _ st1 st'); [| exact E].
    apply (try_scale_scanned tried st st1 scale Hsc E1).
Qed.

End LocateBest.

Section LocateResult.

Context `{Collaborators}.

(** What a returned region is: the record of the first best scale. *)
Lemma find_roi_position_first_best (panorama_path zoom_path : string)
      (x y w h : Z) (c : Py.num) :
  find_roi_position panorama_path zoom_path = Ok (x, y, w, h, c) ->
  exists panorama zoom_img scale,
    imread panorama_path = Some panorama /\
    imread zoom_path = Some zoom_img /\
    first_best panorama zoom_img scales (x, y, w, h, scale) c.
Proof.
  unfold find_roi_position.
  destruct (imread panorama_path) as [panorama |];
    [| intros E; discriminate E].
  destruct (imread zoom_path) as [zoom_img |]; [| intros E; discriminate E].
  intros E. apply bind_Ok in E as [st [Es E]].
  assert (Hinit : scanned panorama zoom_img []
                    {| best_match := None; best_confidence := Py.Int (-1) |}).
  { split; [reflexivity | intros s p []]. }
  pose proof (search_scales_scanned panorama zoom_img scales [] _ st Hinit Es)
    as Hsc.
  unfold scanned in Hsc. cbn [app] in Hsc.
  destruct (best_match st) as [[[[[x0 y0] w0] h0] scale] |];
    [| discriminate E].
  injection E as <- <- <- <- <-.
  exists panorama, zoom_img, scale. repeat split; try reflexivity. exact Hsc.
Qed.

(** X1. Whenever [find_roi_position] returns (x, y, w, h, c), both files
    were decoded and (w, h) is the size int(zoom_w * scale) by
    int(zoom_h * scale) of the template at one of the twelve scales; the
    template is at least 10 pixels and strictly smaller than the
    panorama both ways; (x, y) is where the correlation of that template
    peaks and c is that peak. *)
Theorem find_roi_position_returns_a_valid_template
        (panorama_path zoom_path : string) (x y w h : Z) (c : Py.num) :
  find_roi_position panorama_path zoom_path = Ok (x, y, w, h, c) ->
  exists panorama zoom_img scale,
    imread panorama_path = Some panorama /\
    imread zoom_path = Some zoom_img /\
    In scale scales /\
    template_size zoom_img scale = Ok (w, h) /\
    10 <= w < snd (shape panorama) /\
    10 <= h < fst (shape panorama) /\
    (x, y) = peak_loc panorama zoom_img (w, h) /\
    c = Py.Float (peak panorama zoom_img (w, h)).
Proof.
  intros E. apply find_roi_position_first_best in E
    as (panorama & zoom_img & scale & Hp & Hz & Hfb).
  destruct Hfb as (before & after & Hsplit & Hsz & Hfit & Hloc & Hc & _).
  exists panorama, zoom_img, scale.
  split; [exact Hp | split; [exact Hz |] ].
  split; [rewrite Hsplit; apply in_or_app; right; left; reflexivity |].
  split; [exact Hsz |].
  unfold fits in Hfit. cbn [fst snd] in Hfit.
  apply andb_prop in Hfit as [Hbig Hsmall].
  apply negb_true_iff in Hbig, Hsmall.
  apply orb_false_elim in Hbig as [Hbw Hbh].
  apply orb_false_elim in Hsmall as [Hsw Hsh].
  repeat split; try assumption; lia.
Qed.

(** X2. The region that [find_roi_position] returns is that of the first
    scale with the highest peak: the list of scales splits around the
    returned scale so that the returned confidence is above the peak of
    every earlier scale that was tried and was above -1, and no later
    scale that was tried has a peak above it. *)
Theorem find_roi_position_returns_the_first_best
        (panorama_path zoom_path : string) (x y w h : Z) (c : Py.num) :
  find_roi_position panorama_path zoom_path = Ok (x, y, w, h, c) ->
  exists panorama zoom_img before scale after,
    imread panorama_path = Some panorama /\
    imread zoom_path = Some zoom_img /\
    scales = (before ++ scale :: after)%list /\
    template_size zoom_img scale = Ok (w, h) /\
    scale_peak panorama zoom_img scale = Some (peak panorama zoom_img (w, h)) /\
    c = Py.Float (peak panorama zoom_img (w, h)) /\
    (forall s p, In s before -> scale_peak panorama zoom_img s = Some p ->
                 Py.gt (Py.Float p) (Py.Int (-1)) = true ->
                 Py.gt c (Py.Float p) = true) /\
    (forall s p, In s after -> scale_peak panorama zoom_img s = Some p ->
                 Py.gt (Py.Float p) c = false).
Proof.
  intros E. apply find_roi_position_first_best in E
    as (panorama & zoom_img & scale & Hp & Hz & Hfb).
  destruct (first_best_peak _ _ _ _ _ _ _ _ _ Hfb) as [Hpeak _].
  destruct Hfb as (before & after & Hsplit & Hsz & Hfit & Hloc & Hc & Hb & Ha).
  exists panorama, zoom_img, before, scale, after.
  repeat split; assumption.
Qed.

(** X25. With both files decoded and every template size computed,
    [find_roi_position] returns exactly when at some scale the template
    is valid (at least 10 pixels, strictly smaller than the panorama) and
    its correlation peak is above the initial best_confidence of -1; when
    it does not return it raises "no match". *)
Theorem find_roi_position_matches_exactly_above_the_sentinel
        (panorama_path zoom_path : string) (panorama zoom_img : Mat) :
  imread panorama_path = Some panorama ->
  imread zoom_path = Some zoom_img ->
  (forall scale, In scale scales -> returns (template_size zoom_img scale)) ->
  (returns (find_roi_position panorama_path zoom_path) <->
   exists scale template,
     In scale scales /\
     template_size zoom_img scale = Ok template /\
     fits panorama template = true /\
     Py.gt (Py.Float (peak panorama zoom_img template)) (Py.Int (-1)) = true) /\
  (~ returns (find_roi_position panorama_path zoom_path) ->
   find_roi_position panorama_path zoom_path
     = Raise (ValueError no_match_message)).
Proof.
  intros Hp Hz Hsz.
  destruct (find_roi_position_finds _ _ _ _ Hp Hz Hsz) as [Hiff Hor].
  split.
  - rewrite Hiff. unfold beats_sentinel. split.
    + intros (scale & Hin & template & Ht & Hf & Hg).
      exists scale, template. repeat split; assumption.
    + intros (scale & template & Hin & Ht & Hf & Hg).
      exists scale. split; [exact Hin |].
      exists template. repeat split; assumption.
  - intros Hnot. destruct Hor as [Hr | Hr]; [contradiction (Hnot Hr) | exact Hr].
Qed.

End LocateResult.

Lemma find_roi_position_valid_template_witness :
  let lab := Lab.bench (100, 200) (80, 80) (Py.dec 9 10) (5, 7) in
  exists panorama zoom_img scale,
    imread "pano.png" = Some panorama /\
    imread "zoom.png" = Some zoom_img /\
    In scale scales /\
    template_size zoom_img scale = Ok (80, 80) /\
    10 <= 80 < snd (shape panorama) /\
    10 <= 80 < fst (shape panorama) /\
    (5, 7) = peak_loc panorama zoom_img (80, 80) /\
    Py.Float (Py.dec 9 10) = Py.Float (peak panorama zoom_img (80, 80)).
Proof.
  intros lab.
  apply (@find_roi_position_returns_a_valid_template lab "pano.png" "zoom.png"
           5 7 80 80 (Py.Float (Py.dec 9 10))).
  vm_compute. reflexivity.
Defined.

Lemma find_roi_position_first_best_witness :
  let lab := Lab.bench (100, 200) (80, 80) (Py.dec 9 10) (5, 7) in
  exists panorama zoom_img before scale after,
    imread "pano.png" = Some panorama /\
    imread "zoom.png" = Some zoom_img /\
    scales = (before ++ scale :: after)%list /\
    template_size zoom_img scale = Ok (80, 80) /\
    scale_peak panorama zoom_img scale
      = Some (peak panorama zoom_img (80, 80)) /\
    Py.Float (Py.dec 9 10) = Py.Float (peak panorama zoom_img (80, 80)) /\
    (forall s p, In s before -> scale_peak panorama zoom_img s = Some p ->
                 Py.gt (Py.Float p) (Py.Int (-1)) = true ->
                 Py.gt (Py.Float (Py.dec 9 10)) (Py.Float p) = true) /\
    (forall s p, In s after -> scale_peak panorama zoom_img s = Some p ->
                 Py.gt (Py.Float p) (Py.Float (Py.dec 9 10)) = false).
Proof.
  intros lab.
  apply (@find_roi_position_returns_the_first_best lab "pano.png" "zoom.png"
           5 7 80 80 (Py.Float (Py.dec 9 10))).
  vm_compute. reflexivity.
Defined.

Lemma find_roi_position_matches_witness :
  let lab := Lab.bench (100, 200) (80, 80) (Py.dec 9 10) (5, 7) in
  (returns (find_roi_position "pano.png" "zoom.png") <->
   exists scale template,
     In scale scales /\
     template_size (80, 80) scale = Ok template /\
     fits (100, 200) template = true /\
     Py.gt (Py.Float (peak (100, 200) (80, 80) template)) (Py.Int (-1))
       = true) /\
  (~ returns (find_roi_position "pano.png" "zoom.png") ->
   find_roi_position "pano.png" "zoom.png"
     = Raise (ValueError no_match_message)).
Proof.
  intros lab.
  apply (@find_roi_position_matches_exactly_above_the_sentinel lab
           "pano.png" "zoom.png" (100, 200) (80, 80));
    [ reflexivity | reflexivity | ].
  intros scale Hin.
  repeat (destruct Hin as [<- | Hin];
          [eexists; vm_compute; reflexivity |]).
  contradiction Hin.
Defined.

(** ** The dash march *)

(** A call that has settled has returned or raised. *)
Lemma bind_settled {A B : Type} (m : outcome A) (k : A -> outcome B) :
  m <> OutOfFuel -> (forall a, m = Ok a -> k a <> OutOfFuel) ->
  bind m k <> OutOfFuel.
Proof.
  destruct m as [a | e |]; simpl; intros Hm Hk.
  - apply Hk. reflexivity.
  - discriminate.
  - contradiction Hm. reflexivity.
Qed.

Lemma arith_settled fz ff (x y : Py.num) : Py.arith fz ff x y <> OutOfFuel.
Proof.
  unfold Py.arith, Py.to_float, Py.float_of_int.
  destruct x as [a | f], y as [b | g]; simpl;
    repeat match goal with
           | |- context [Py.round_Z ?z] => destruct (Py.round_Z z)
           end; simpl; discriminate.
Qed.

Lemma to_float_settled (x : Py.num) : Py.to_float x <> OutOfFuel.
Proof.
  destruct x as [a | f]; [| discriminate].
  unfold Py.to_float, Py.float_of_int. destruct (Py.round_Z a); discriminate.
Qed.

Lemma int_pow_half_settled (n : Z) : Py.int_pow_half n <> OutOfFuel.
Proof.
  unfold Py.int_pow_half. apply bind_settled; [| intros; discriminate].
  apply (to_float_settled (Py.Int n)).
Qed.

Lemma truediv_settled (x y : Py.num) : Py.truediv x y <> OutOfFuel.
Proof.
  assert (Hf : forall x y,
             (let* f := Py.to_float x in
              let* g := Py.to_float y in
              if Py.is_zero g then Raise ZeroDivisionError
              else Ok (Py.fdiv f g)) <> OutOfFuel).
  { intros x0 y0. apply bind_settled; [apply to_float_settled | intros f _].
    apply bind_settled; [apply to_float_settled | intros g _].
    destruct (Py.is_zero g); discriminate. }
  destruct x as [a | f], y as [b | g]; try apply Hf.
  unfold Py.truediv, Py.int_truediv.
  destruct b; [discriminate | |]; (destruct a; [discriminate | |]);
    match goal with
    | |- context [Py.fdiv ?p ?q] => destruct (Py.fdiv p q)
    end; discriminate.
Qed.

Lemma seg_length_at_settled (length : Py.float) (dash_length pos : Z) :
  seg_length_at length dash_length pos <> OutOfFuel.
Proof.
  unfold seg_length_at. apply bind_settled;
    [apply arith_settled | intros; discriminate].
Qed.

Lemma along_settled (x : Z) (u : Py.float) (t : Py.num) :
  along x u t <> OutOfFuel.
Proof.
  unfold along. apply bind_settled;
    [apply arith_settled | intros; apply arith_settled].
Qed.

Lemma dash_ends_settled (x1 y1 : Z) (ux uy : Py.float) (pos : Z)
      (seg_length : Py.num) :
  dash_ends x1 y1 ux uy pos seg_length <> OutOfFuel.
Proof.
  unfold dash_ends.
  repeat (apply bind_settled;
          [ first [ apply along_settled | apply arith_settled ]
          | intros ? _ ]).
  discriminate.
Qed.

(** An integer that is not below a float: no larger integer is. *)
Lemma lt_int_float_mono (a b : Z) (f : Py.float) :
  a <= b ->
  Py.lt (Py.Int a) (Py.Float f) = false ->
  Py.lt (Py.Int b) (Py.Float f) = false.
Proof.
  unfold Py.lt, Py.cmp, Py.cmp_int_float. intros Hab.
  destruct f as [s | s | | s m e]; try (intros E; exact E).
  - destruct (Z.compare_spec a 0), (Z.compare_spec b 0);
      try reflexivity; try discriminate; lia.
  - assert (0 < 2 ^ (- e) \/ e >= 0) as Hpow.
    { destruct (Z_lt_le_dec e 0); [left; apply Z.pow_pos_nonneg; lia | right; lia]. }
    destruct (0 <=? e) eqn:He.
    + destruct (Z.compare_spec a (cond_Zopp s (Z.pos m) * 2 ^ e)),
               (Z.compare_spec b (cond_Zopp s (Z.pos m) * 2 ^ e));
        try reflexivity; try discriminate; lia.
    + apply Z.leb_gt in He. destruct Hpow as [Hpow |]; [| lia].
      destruct (Z.compare_spec (a * 2 ^ (- e)) (cond_Zopp s (Z.pos m))),
               (Z.compare_spec (b * 2 ^ (- e)) (cond_Zopp s (Z.pos m)));
        try reflexivity; try discriminate; nia.
Qed.

Section DashMarch.

Variables (x1 y1 : Z) (ux uy length : Py.float).
Variables (fill : color) (width dash_length gap_length : Z).

(** With dashes of at least one pixel and gaps that do not go backwards,
    the march is over once the position has passed the length. *)
Lemma dash_loop_settles (bound : Z) :
  1 <= dash_length -> 0 <= gap_length ->
  Py.lt (Py.Int bound) (Py.Float length) = false ->
  forall fuel pos (drawing : bool) im,
    2 * (bound - pos) + (if drawing then 0 else 1) < Z.of_nat fuel ->
    dash_loop fuel x1 y1 ux uy length fill width dash_length gap_length
      pos drawing im <> OutOfFuel.
Proof.
  intros Hd Hg Hb.
  induction fuel as [| fuel IH]; intros pos drawing im Hfuel;
    cbn [dash_loop];
    destruct (Py.lt (Py.Int pos) (Py.Float length)) eqn:Hlt;
    try discriminate.
  - assert (pos < bound).
    { destruct (Z_lt_le_dec pos bound) as [Hlt' | Hge]; [exact Hlt' |].
      rewrite (lt_int_float_mono bound pos length Hge Hb) in Hlt.
      discriminate Hlt. }
    destruct drawing; lia.
  - assert (pos < bound).
    { destruct (Z_lt_le_dec pos bound) as [Hlt' | Hge]; [exact Hlt' |].
      rewrite (lt_int_float_mono bound pos length Hge Hb) in Hlt.
      discriminate Hlt. }
    destruct drawing.
    + apply bind_settled; [apply seg_length_at_settled | intros sl _].
      apply bind_settled; [apply dash_ends_settled | intros [p q] _].
      apply IH. cbn [negb]. lia.
    + apply IH. cbn [negb]. lia.
Qed.

(** What the march draws, with gaps that do not go backwards: the dashes
    at 0, period, 2 * period, ... with period = dash + gap, as long as
    they start before the end of the line. *)
Lemma dash_loop_dashes :
  0 <= gap_length ->
  forall fuel pos im im',
    (dash_loop fuel x1 y1 ux uy length fill width dash_length gap_length
       pos true im = Ok im' ->
     exists n ds,
       dashes n x1 y1 ux uy length fill width dash_length
         (dash_length + gap_length) pos = Ok ds /\
       history im' = (history im ++ map Drawn ds)%list /\
       (forall k, (k < n)%nat ->
          Py.lt (Py.Int (pos + Z.of_nat k * (dash_length + gap_length)))
                (Py.Float length) = true) /\
       Py.lt (Py.Int (pos + Z.of_nat n * (dash_length + gap_length)))
             (Py.Float length) = false) /\
    (dash_loop fuel x1 y1 ux uy length fill width dash_length gap_length
       pos false im = Ok im' ->
     exists n ds,
       dashes n x1 y1 ux uy length fill width dash_length
         (dash_length + gap_length) (pos + gap_length) = Ok ds /\
       history im' = (history im ++ map Drawn ds)%list /\
       (forall k, (k < n)%nat ->
          Py.lt (Py.Int (pos + gap_length
                         + Z.of_nat k * (dash_length + gap_length)))
                (Py.Float length) = true) /\
       Py.lt (Py.Int (pos + gap_length
                      + Z.of_nat n * (dash_length + gap_length)))
             (Py.Float length) = false).
Proof.
  intros Hg.
  assert (Hnone : forall pos (im : image),
             Py.lt (Py.Int pos) (Py.Float length) = false ->
             exists (n : nat) (ds : list drawop),
               dashes n x1 y1 ux uy length fill width dash_length
                 (dash_length + gap_length) pos = Ok ds /\
               history im = (history im ++ map Drawn ds)%list /\
               (forall k, (k < n)%nat ->
                  Py.lt (Py.Int (pos + Z.of_nat k
                                       * (dash_length + gap_length)))
                        (Py.Float length) = true) /\
               Py.lt (Py.Int (pos + Z.of_nat n
                                    * (dash_length + gap_length)))
                     (Py.Float length) = false).
  { intros pos im Hlt. exists O, []. cbn [dashes map].
    rewrite app_nil_r, Z.add_0_r.
    repeat split; try assumption. intros k Hk. lia. }
  induction fuel as [| fuel IH]; intros pos im im'; cbn [dash_loop];
    destruct (Py.lt (Py.Int pos) (Py.Float length)) eqn:Hlt.
  - split; intros E; discriminate E.
  - split; intros E; injection E as <-.
    + apply Hnone. exact Hlt.
    + apply Hnone. apply (lt_int_float_mono pos); [lia | exact Hlt].
  - split; intros E.
    + apply bind_Ok in E as [sl [Hsl E]].
      apply bind_Ok in E as [[p q] [Hends E]]. cbn [negb] in E.
      apply (IH (pos + dash_length)) in E
        as (n & ds & Hds & Hhist & Hbefore & Hafter).
      exists (S n), (Line p q fill width :: ds).
      cbn [dashes]. unfold dash_at at 1. rewrite Hsl. cbn [bind].
      rewrite Hends. cbn [bind].
      replace (pos + (dash_length + gap_length))
        with (pos + dash_length + gap_length) by lia.
      rewrite Hds. cbn [bind]. split; [reflexivity |].
      split; [| split].
      * rewrite Hhist. cbn [draw record_step history map].
        rewrite <- app_assoc. reflexivity.
      * intros [| k] Hk.
        -- rewrite Z.add_0_r. exact Hlt.
        -- replace (pos + Z.of_nat (S k) * (dash_length + gap_length))
             with (pos + dash_length + gap_length
                   + Z.of_nat k * (dash_length + gap_length)) by lia.
           apply Hbefore. lia.
      * replace (pos + Z.of_nat (S n) * (dash_length + gap_length))
          with (pos + dash_length + gap_length
                + Z.of_nat n * (dash_length + gap_length)) by lia.
        exact Hafter.
    + cbn [negb] in E. apply (IH (pos + gap_length)) in E. exact E.
  - split; intros E; injection E as <-.
    + apply Hnone. exact Hlt.
    + apply Hnone. apply (lt_int_float_mono pos); [lia | exact Hlt].
Qed.

End DashMarch.

(** X3. With dash_length >= 1 and gap_length >= 0 the loop of
    [draw_dashed_line] ends: on a line no longer than [bound], more than
    2 * bound turns are enough for the call to have returned or to have
    raised one of the errors of converting a number. *)
Theorem dashed_line_is_drawn_in_finite_time
        (fuel : nat) (im : image) (start end_ : point) (fill : color)
        (width dash_length gap_length bound : Z) :
  1 <= dash_length -> 0 <= gap_length ->
  no_longer_than bound start end_ = true ->
  2 * bound < Z.of_nat fuel ->
  returns (draw_dashed_line fuel im start end_ fill width dash_length
             gap_length) \/
  exists e,
    draw_dashed_line fuel im start end_ fill width dash_length gap_length
      = Raise e /\
    numeric_error e.
Proof.
  intros Hd Hg Hb Hfuel.
  assert (Hs : draw_dashed_line fuel im start end_ fill width dash_length
                 gap_length <> OutOfFuel).
  { destruct start as [x1 y1], end_ as [x2 y2].
    unfold no_longer_than in Hb. cbn [fst snd] in Hb.
    unfold draw_dashed_line.
    destruct (Py.int_pow_half ((x2 - x1) ^ 2 + (y2 - y1) ^ 2))
      as [length | e |] eqn:El; cbn [bind];
      [| discriminate | contradiction (int_pow_half_settled _ El) ].
    destruct (Py.eq (Py.Float length) (Py.Int 0)); [discriminate |].
    apply negb_true_iff in Hb.
    apply bind_settled; [apply truediv_settled | intros ux _].
    apply bind_settled; [apply truediv_settled | intros uy _].
    apply (dash_loop_settles _ _ _ _ _ _ _ _ _ bound Hd Hg Hb). lia. }
  pose proof (draw_dashed_line_raises fuel im start end_ fill width
                dash_length gap_length) as Hr.
  destruct (draw_dashed_line fuel im start end_ fill width dash_length
              gap_length) as [im' | e |].
  - left. exists im'. reflexivity.
  - right. exists e. split; [reflexivity | apply Hr; reflexivity].
  - contradiction Hs. reflexivity.
Qed.

Lemma dashed_line_finite_time_witness :
  returns (draw_dashed_line 201 (blank RGB (200, 50)) (0, 0) (100, 0)
             Lab.red 2 15 10) \/
  exists e,
    draw_dashed_line 201 (blank RGB (200, 50)) (0, 0) (100, 0)
      Lab.red 2 15 10 = Raise e /\
    numeric_error e.
Proof.
  apply (dashed_line_is_drawn_in_finite_time 201 (blank RGB (200, 50))
           (0, 0) (100, 0) Lab.red 2 15 10 100);
    [ lia | lia | vm_compute; reflexivity | vm_compute; reflexivity ].
Defined.

(** X4. With gap_length >= 0, what [draw_dashed_line] adds to the image
    is exactly the dashes that start 0, period, 2 * period, ... along the
    line, period = dash_length + gap_length, each
    min(dash_length, length - start) long: every start that is drawn is
    below the length of the line and the next one is not.  A line of
    length 0 leaves the image as it was. *)
Theorem dashed_line_is_its_dashes
        (fuel : nat) (im im' : image) (x1 y1 x2 y2 : Z) (fill : color)
        (width dash_length gap_length : Z) :
  0 <= gap_length ->
  draw_dashed_line fuel im (x1, y1) (x2, y2) fill width dash_length
    gap_length = Ok im' ->
  exists length,
    Py.int_pow_half ((x2 - x1) ^ 2 + (y2 - y1) ^ 2) = Ok length /\
    if Py.eq (Py.Float length) (Py.Int 0) then im' = im
    else
      exists ux uy n ds,
        Py.truediv (Py.Int (x2 - x1)) (Py.Float length) = Ok ux /\
        Py.truediv (Py.Int (y2 - y1)) (Py.Float length) = Ok uy /\
        dashes n x1 y1 ux uy length fill width dash_length
          (dash_length + gap_length) 0 = Ok ds /\
        history im' = (history im ++ map Drawn ds)%list /\
        (forall k, (k < n)%nat ->
           Py.lt (Py.Int (Z.of_nat k * (dash_length + gap_length)))
                 (Py.Float length) = true) /\
        Py.lt (Py.Int (Z.of_nat n * (dash_length + gap_length)))
              (Py.Float length) = false.
Proof.
  intros Hg. unfold draw_dashed_line. intros E.
  apply bind_Ok in E as [length [El E]].
  exists length. split; [exact El |].
  destruct (Py.eq (Py.Float length) (Py.Int 0)); [congruence |].
  apply bind_Ok in E as [ux [Eux E]]. apply bind_Ok in E as [uy [Euy E]].
  destruct (dash_loop_dashes x1 y1 ux uy length fill width dash_length
              gap_length Hg fuel 0 im im') as [Hdraw _].
  destruct (Hdraw E) as (n & ds & Hds & Hhist & Hbefore & Hafter).
  exists ux, uy, n, ds. repeat split; assumption.
Qed.

Lemma dashed_line_dashes_witness :
  let im := blank RGB (200, 50) in
  let im' :=
    fold_left (fun im d => draw d im)
      (map (fun ab => stroke (Py.round_Z 0) (Py.round_Z 0)
                             (Py.round_Z (100 / 100)) (Py.round_Z 0)
                             (Py.round_Z (fst ab)) (Py.round_Z (snd ab))
                             Lab.red 2)
           [ (0, 15); (25, 40); (50, 65); (75, 90) ])
      im in
  exists length,
    Py.int_pow_half ((100 - 0) ^ 2 + (0 - 0) ^ 2) = Ok length /\
    if Py.eq (Py.Float length) (Py.Int 0) then im' = im
    else
      exists ux uy n ds,
        Py.truediv (Py.Int (100 - 0)) (Py.Float length) = Ok ux /\
        Py.truediv (Py.Int (0 - 0)) (Py.Float length) = Ok uy /\
        dashes n 0 0 ux uy length Lab.red 2 15 (15 + 10) 0 = Ok ds /\
        history im' = (history im ++ map Drawn ds)%list /\
        (forall k, (k < n)%nat ->
           Py.lt (Py.Int (Z.of_nat k * (15 + 10))) (Py.Float length) = true) /\
        Py.lt (Py.Int (Z.of_nat n * (15 + 10))) (Py.Float length) = false.
Proof.
  intros im im'.
  apply (dashed_line_is_its_dashes 8 im im' 0 0 100 0 Lab.red 2 15 10);
    [ lia | vm_compute; reflexivity ].
Defined.

(** ** Fonts *)

Section Fonts.

Context `{Collaborators}.

Lemma first_font_loaded (font_paths : list string) (sz : Z) (f : font) :
  first_font font_paths sz = Some f ->
  exists path, In path font_paths /\ f = TrueType path sz /\
               font_file path sz = true.
Proof.
  induction font_paths as [| path rest IH]; simpl; [discriminate |].
  unfold truetype. destruct (font_file path sz) eqn:Hf.
  - intros E. injection E as <-. exists path.
    repeat split; [left; reflexivity | exact Hf].
  - intros E. destruct (IH E) as (p & Hin & Hp & Hl).
    exists p. repeat split; [right; exact Hin | exact Hp | exact Hl].
Qed.

Lemma get_default_font_loaded (sz : Z) (path : string) (s : Z) :
  get_default_font sz = TrueType path s ->
  s = sz /\ font_file path sz = true.
Proof.
  unfold get_default_font.
  match goal with
  | |- get (first_font ?l sz) DefaultFont = _ -> _ =>
      destruct (first_font l sz) as [f |] eqn:E
  end; cbn [get]; [| discriminate].
  apply first_font_loaded in E as (p & _ & -> & Hl).
  intros E. injection E as <- <-. split; [reflexivity | exact Hl].
Qed.

(** X5. [get_font] never fails and never hands out a font it did not
    load: a family name that loads by itself is returned as it is, a
    TrueType font that is returned has the requested size and its file
    loaded at that size, and the built-in default font is returned only
    when the family name did not load. *)
Theorem get_font_loads_what_it_returns (font_family : string) (font_size : Z) :
  (font_file font_family font_size = true ->
   get_font font_family font_size = TrueType font_family font_size) /\
  match get_font font_family font_size with
  | TrueType path s => s = font_size /\ font_file path font_size = true
  | DefaultFont => font_file font_family font_size = false
  end.
Proof.
  unfold get_font, truetype.
  destruct (font_file font_family font_size) eqn:Hf.
  - split; [reflexivity | split; [reflexivity | exact Hf] ].
  - split; [discriminate |].
    match goal with
    | |- match (match first_font ?l font_size with _ => _ end) with _ => _ end =>
        destruct (first_font l font_size) as [f |] eqn:E
    end.
    + apply first_font_loaded in E as (p & _ & -> & Hl).
      split; [reflexivity | exact Hl].
    + destruct (get_default_font font_size) as [p s |] eqn:Ed;
        [| reflexivity].
      apply (get_default_font_loaded _ _ _ Ed).
Qed.

End Fonts.

(** ** Annotations *)

Section Annotations.

Context `{Collaborators}.

(** X6. [draw_annotation] draws something exactly for an arrow in one of
    the four directions, a star, a circle, a triangle, and a text that
    is neither missing nor empty; for any other type, an arrow in any
    other direction, or a text annotation without text it returns the
    image untouched and raises nothing. *)
Theorem draw_annotation_shows
        (im : image) (annotation_type : string) (position : point)
        (fill : color) (sz thickness : Z) (text : option string)
        (font_size : Z) (direction : string) :
  let im' := draw_annotation im annotation_type position fill sz thickness
               text font_size direction in
  if annotation_shows annotation_type direction text
  then exists d more, history im' = (history im ++ Drawn d :: more)%list
  else im' = im.
Proof.
  cbv zeta. destruct position as [x y].
  unfold annotation_shows, draw_annotation, arrow. cbn [existsb].
  destruct text as [t |];
    repeat match goal with
           | |- context [(?s =? ?t)%string] =>
               destruct (s =? t)%string; cbn [orb negb]; cbv iota
           end;
    try reflexivity;
    cbn [draw record_step history]; rewrite <- ?app_assoc;
    eexists; eexists; reflexivity.
Qed.

(** X7. The four arrows are one shape turned: for the unit step (ux, uy)
    of the direction, the shaft runs from the anchor to the tip
    size steps away, and the head is the triangle whose apex is the tip
    and whose base lies size // 3 behind it, size // 4 to either side of
    the shaft. *)
Theorem arrow_is_one_shape
        (im : image) (x y : Z) (fill : color) (sz thickness : Z)
        (text : option string) (font_size : Z) (direction : string)
        (ux uy : Z) :
  arrow_unit direction = Some (ux, uy) ->
  draw_annotation im "arrow" (x, y) fill sz thickness text font_size
    direction =
  fold_left (fun im d => draw d im) (arrow_shape x y ux uy sz fill thickness)
    im.
Proof.
  assert (Hm : forall a, -1 * a = - a) by (intros a; lia).
  unfold arrow_unit, draw_annotation, arrow, arrow_shape.
  cbn [String.eqb Ascii.eqb Bool.eqb andb fold_left fst snd].
  repeat match goal with
         | |- context [(?s =? ?t)%string] => destruct (s =? t)%string
         end;
    intros E; try discriminate E; injection E as <- <-;
    cbn [Z.abs];
    rewrite ?Z.mul_0_l, ?Z.mul_1_l, ?Hm, ?Z.add_0_r, ?Z.sub_0_r,
      ?Z.add_opp_r, ?Z.sub_opp_r;
    reflexivity.
Qed.

End Annotations.

Lemma arrow_shape_witness :
  let lab := Lab.bench (100, 200) (80, 80) (Py.dec 9 10) (5, 7) in
  draw_annotation (blank RGB (346, 116)) "arrow" (50, 60) Lab.red 20 3
    None 16 "left" =
  fold_left (fun im d => draw d im) (arrow_shape 50 60 (-1) 0 20 Lab.red 3)
    (blank RGB (346, 116)).
Proof.
  intros lab.
  apply (@arrow_is_one_shape lab (blank RGB (346, 116)) 50 60 Lab.red 20 3
           None 16 "left" (-1) 0).
  reflexivity.
Defined.

(** ** Where the watermark comes to lie *)

Section WatermarkPlacement.

Context `{Collaborators}.

(** X8. [draw_watermark] places the origin of the text as if the text
    filled a box of the measured size from the origin on, 20 pixels off
    the edges that the position word names; the font sets the text
    (b0, b1) off its origin, b0 and b1 being the left and the top of the
    box measured at the origin, so the text itself keeps the 20 pixels
    only up to that offset.  On a canvas at least 40 pixels wider and
    higher than the measured text, whatever the position word, the text
    covers a box within [20 + b0, width - 20 + b0] by
    [20 + b1, height - 20 + b1]; at "bottom-right" its right edge is at
    width - 20 + b0 and its lower edge at height - 20 + b1, at
    "top-left" its corner is (20 + b0, 20 + b1).  The result has the
    size of the canvas and mode RGB, and its history is that of the
    canvas, a conversion to RGBA if it was not RGBA, the text layer
    composited and the conversion to RGB. *)
Theorem watermark_keeps_its_margin_up_to_the_offset
        (im : image) (text position : string) (opacity font_size : Z)
        (c : color) :
  let f := get_default_font font_size in
  let b0 := box_left (textbbox text f) in
  let b1 := box_top (textbbox text f) in
  let text_w := box_right (textbbox text f) - b0 in
  let text_h := box_bottom (textbbox text f) - b1 in
  let width := fst (size im) in
  let height := snd (size im) in
  let im' := draw_watermark im text position opacity font_size c in
  text_w + 40 <= width -> text_h + 40 <= height ->
  exists pos,
    history im' =
    (history im
       ++ match img_mode im with
          | RGB => [ Converted RGBA ]
          | RGBA => []
          end
       ++ [ Composited [ Text pos text (Alpha c opacity) f ];
            Converted RGB ])%list /\
    20 + b0 <= box_left (text_box pos text f) /\
    box_right (text_box pos text f) <= width - 20 + b0 /\
    20 + b1 <= box_top (text_box pos text f) /\
    box_bottom (text_box pos text f) <= height - 20 + b1 /\
    (position = "bottom-right" ->
     box_right (text_box pos text f) = width - 20 + b0 /\
     box_bottom (text_box pos text f) = height - 20 + b1) /\
    (position = "top-left" ->
     box_left (text_box pos text f) = 20 + b0 /\
     box_top (text_box pos text f) = 20 + b1) /\
    size im' = size im /\ img_mode im' = RGB.
Proof.
  cbv zeta. intros Hw Hh.
  unfold draw_watermark, watermark_layer, watermark_origin, watermark_margin,
    text_box.
  cbn [history size img_mode].
  destruct (textbbox text (get_default_font font_size)) as [[[b0 b1] b2] b3].
  destruct (size im) as [img_w img_h].
  unfold box_left, box_top, box_right, box_bottom in *. cbn [fst snd] in *.
  pose proof (Z.mul_div_le (img_w - (b2 - b0)) 2 eq_refl).
  pose proof (Z.mul_succ_div_gt (img_w - (b2 - b0)) 2 eq_refl).
  pose proof (Z.mul_div_le (img_h - (b3 - b1)) 2 eq_refl).
  pose proof (Z.mul_succ_div_gt (img_h - (b3 - b1)) 2 eq_refl).
  destruct (position =? "bottom-right")%string eqn:Ebr;
    [| destruct (position =? "bottom-left")%string eqn:Ebl;
       [| destruct (position =? "top-right")%string eqn:Etr;
          [| destruct (position =? "top-left")%string eqn:Etl ] ] ];
    eexists; (split; [reflexivity |]); cbn [fst snd];
    repeat match goal with
           | |- _ /\ _ => split
           | |- _ = _ :> string -> _ =>
               let E := fresh in
               intros E; subst position;
               try discriminate Ebr; try discriminate Ebl;
               try discriminate Etr; try discriminate Etl
           end;
    try reflexivity; lia.
Qed.

End WatermarkPlacement.

Lemma watermark_margin_witness :
  let lab := Lab.studio (100, 200) (80, 80) (Py.dec 9 10) (5, 7)
               (Lab.upright (100, 200) (80, 80))
               (fun _ => (0, 2, 17, 10)) (fun _ => None) in
  let im := blank RGB (400, 300) in
  let im' := draw_watermark im "Leo" "bottom-right" 128 24 (128, 128, 128) in
  history im' =
    [ Converted RGBA;
      Composited [ Text (363, 272) "Leo" (Alpha (128, 128, 128) 128)
                        DefaultFont ];
      Converted RGB ] /\
  text_box (363, 272) "Leo" DefaultFont = (363, 274, 380, 282) /\
  exists pos,
    history im' =
    (history im
       ++ match img_mode im with
          | RGB => [ Converted RGBA ]
          | RGBA => []
          end
       ++ [ Composited [ Text pos "Leo" (Alpha (128, 128, 128) 128)
                              (get_default_font 24) ];
            Converted RGB ])%list /\
    20 + 0 <= box_left (text_box pos "Leo" (get_default_font 24)) /\
    box_right (text_box pos "Leo" (get_default_font 24)) <= 400 - 20 + 0 /\
    20 + 2 <= box_top (text_box pos "Leo" (get_default_font 24)) /\
    box_bottom (text_box pos "Leo" (get_default_font 24)) <= 300 - 20 + 2 /\
    ("bottom-right" = "bottom-right" ->
     box_right (text_box pos "Leo" (get_default_font 24)) = 400 - 20 + 0 /\
     box_bottom (text_box pos "Leo" (get_default_font 24)) = 300 - 20 + 2) /\
    ("bottom-right" = "top-left" ->
     box_left (text_box pos "Leo" (get_default_font 24)) = 20 + 0 /\
     box_top (text_box pos "Leo" (get_default_font 24)) = 20 + 2) /\
    size im' = size im /\ img_mode im' = RGB.
Proof.
  intros lab im im'.
  split; [reflexivity | split; [reflexivity |] ].
  apply (@watermark_keeps_its_margin_up_to_the_offset lab im "Leo"
           "bottom-right" 128 24 (128, 128, 128)); cbn; lia.
Defined.

(** ** The layout and its borders *)

(** X9. The layout for "left" is the layout for "right" with the roles of
    the two images exchanged, and the layout for "top" is that for
    "bottom" exchanged: same canvas, the panorama where the zoom image
    would be and the zoom image where the panorama would be.  Any other
    direction word is laid out as one of the four (as "top"). *)
Theorem left_mirrors_right_and_top_mirrors_bottom
        (d : string) (pano_size zoom_size : Z * Z) (padding margin : Z) :
  compute_layout "left" pano_size zoom_size padding margin =
    exchanged (compute_layout "right" zoom_size pano_size padding margin) /\
  compute_layout "top" pano_size zoom_size padding margin =
    exchanged (compute_layout "bottom" zoom_size pano_size padding margin) /\
  exists d', In d' directions /\
             compute_layout d pano_size zoom_size padding margin =
             compute_layout d' pano_size zoom_size padding margin.
Proof.
  destruct pano_size as [pano_w pano_h], zoom_size as [zoom_w zoom_h].
  split; [| split].
  - unfold compute_layout, exchanged.
    cbn [String.eqb Ascii.eqb Bool.eqb canvas_w canvas_h lay_pano_pos
         lay_zoom_pos].
    rewrite (Z.max_comm zoom_h pano_h). reflexivity.
  - unfold compute_layout, exchanged.
    cbn [String.eqb Ascii.eqb Bool.eqb canvas_w canvas_h lay_pano_pos
         lay_zoom_pos].
    rewrite (Z.max_comm zoom_w pano_w). reflexivity.
  - unfold compute_layout, directions.
    destruct (d =? "right")%string eqn:Er;
      [| destruct (d =? "left")%string eqn:El;
         [| destruct (d =? "bottom")%string eqn:Eb ] ].
    + exists "right". split; [left; reflexivity | reflexivity].
    + exists "left". split; [right; left; reflexivity | reflexivity].
    + exists "bottom". split; [right; right; left; reflexivity | reflexivity].
    + exists "top". split; [right; right; right; left; reflexivity
                           | reflexivity].
Qed.

Lemma same_frame_refl (im : image) : same_frame im im.
Proof. split; reflexivity. Qed.

Lemma same_frame_trans (im1 im2 im3 : image) :
  same_frame im1 im2 -> same_frame im2 im3 -> same_frame im1 im3.
Proof. intros [S1 M1] [S2 M2]. split; congruence. Qed.

Lemma same_frame_draw (d : drawop) (im : image) : same_frame im (draw d im).
Proof. split; reflexivity. Qed.

Lemma same_frame_fold_left {A : Type} (f : image -> A -> image) (l : list A) :
  (forall im x, same_frame im (f im x)) ->
  forall im, same_frame im (fold_left f l im).
Proof.
  intros Hf. induction l as [| x l IH]; intros im; simpl.
  - apply same_frame_refl.
  - eapply same_frame_trans; [apply Hf | apply IH].
Qed.

Lemma draw_border_frame (x1 y1 x2 y2 t : Z) (outline : color) (im : image) :
  same_frame im (draw_border x1 y1 x2 y2 t outline im).
Proof.
  unfold draw_border. apply same_frame_fold_left.
  intros im0 i. apply same_frame_draw.
Qed.

Lemma dash_loop_frame (x1 y1 : Z) (ux uy length : Py.float) (fill : color)
      (width dash_length gap_length : Z) (fuel : nat) :
  forall pos drawing im im',
    dash_loop fuel x1 y1 ux uy length fill width dash_length gap_length
      pos drawing im = Ok im' ->
    same_frame im im'.
Proof.
  induction fuel as [| fuel IH]; intros pos drawing im im' E; simpl in E;
    destruct (Py.lt (Py.Int pos) (Py.Float length));
    try discriminate E;
    try (injection E as <-; apply same_frame_refl).
  destruct drawing; [| apply (IH _ _ _ _ E)].
  apply bind_Ok in E as [sl [_ E]].
  apply bind_Ok in E as [[p q] [_ E]].
  apply IH in E.
  eapply same_frame_trans; [apply same_frame_draw | exact E].
Qed.

Lemma draw_dashed_line_frame (fuel : nat) (im im' : image)
      (start end_ : point) (fill : color) (width dash_length gap_length : Z) :
  draw_dashed_line fuel im start end_ fill width dash_length gap_length
    = Ok im' ->
  same_frame im im'.
Proof.
  destruct start as [x1 y1], end_ as [x2 y2]. unfold draw_dashed_line.
  intros E. apply bind_Ok in E as [len [_ E]].
  destruct (Py.eq (Py.Float len) (Py.Int 0)).
  - injection E as <-. apply same_frame_refl.
  - apply bind_Ok in E as [ux [_ E]]. apply bind_Ok in E as [uy [_ E]].
    apply dash_loop_frame in E. exact E.
Qed.

Section Frames.

Context `{Collaborators}.

Lemma draw_scale_bar_frame (im im' : image) (position : point)
      (length_pixels : Z) (length_um : Py.num) (fill : color)
      (thickness font_size : Z) (show_text : bool)
      (style font_family : string) (text_gap : Z) :
  draw_scale_bar im position length_pixels length_um fill thickness
    font_size show_text style font_family text_gap = Ok im' ->
  same_frame im im'.
Proof.
  destruct position as [x y]. unfold draw_scale_bar.
  assert (Hs : same_frame im
                 (scale_bar_strokes im x y length_pixels fill thickness style)).
  { unfold scale_bar_strokes.
    destruct (style =? "ends")%string; [| destruct (style =? "ticks")%string];
      split; reflexivity. }
  destruct show_text.
  - intros E. apply bind_Ok in E as [text [_ E]].
    destruct (textbbox text _) as [[[b0 b1] b2] b3].
    injection E as <-.
    eapply same_frame_trans; [exact Hs | apply same_frame_draw].
  - intros E. injection E as <-. exact Hs.
Qed.

Lemma draw_single_scale_bar_frame (pano_pos zoom_pos : point)
      (pano_size zoom_size : Z * Z) (im im' : image) (sb : scale_bar_config) :
  draw_single_scale_bar pano_pos zoom_pos pano_size zoom_size im sb = Ok im' ->
  same_frame im im'.
Proof.
  unfold draw_single_scale_bar.
  destruct (negb (sb_nonempty sb) || negb (get (sb_enabled sb) false)).
  - intros E. injection E as <-. apply same_frame_refl.
  - intros E. apply bind_Ok in E as [n [_ E]].
    apply draw_scale_bar_frame in E. exact E.
Qed.

Lemma draw_scale_bars_frame (pano_pos zoom_pos : point)
      (pano_size zoom_size : Z * Z) (sbs : list scale_bar_config) :
  forall im im',
    draw_scale_bars pano_pos zoom_pos pano_size zoom_size sbs im = Ok im' ->
    same_frame im im'.
Proof.
  induction sbs as [| sb rest IH]; intros im im' E; simpl in E.
  - injection E as <-. apply same_frame_refl.
  - apply bind_Ok in E as [im1 [E1 E]].
    eapply same_frame_trans;
      [apply (draw_single_scale_bar_frame _ _ _ _ _ _ _ E1) | apply (IH _ _ E)].
Qed.

Lemma draw_all_scale_bars_frame (a : figure_args) (lay : layout)
      (pano_size zoom_size : Z * Z) (canvas canvas' : image) :
  draw_all_scale_bars a lay pano_size zoom_size canvas = Ok canvas' ->
  same_frame canvas canvas'.
Proof.
  unfold draw_all_scale_bars. destruct (scale_bar a) as [| sb | sbs].
  - intros E. injection E as <-. apply same_frame_refl.
  - destruct (sb_nonempty sb).
    + apply draw_single_scale_bar_frame.
    + intros E. injection E as <-. apply same_frame_refl.
  - apply draw_scale_bars_frame.
Qed.

Lemma draw_annotation_frame (im : image) (annotation_type : string)
      (position : point) (fill : color) (sz thickness : Z)
      (text : option string) (font_size : Z) (direction : string) :
  same_frame im (draw_annotation im annotation_type position fill sz thickness
                   text font_size direction).
Proof.
  destruct position as [x y]. unfold draw_annotation, arrow.
  repeat match goal with
         | |- context [if (?s =? ?t)%string then _ else _] =>
             destruct (s =? t)%string
         | |- context [match ?o with Some _ => _ | None => _ end] =>
             destruct o
         end;
    split; reflexivity.
Qed.

Lemma draw_annotations_frame (a : figure_args) (lay : layout)
      (canvas : image) :
  same_frame canvas (draw_annotations a lay canvas).
Proof.
  unfold draw_annotations. destruct (annotations a) as [anns |].
  - apply same_frame_fold_left. intros im ann.
    unfold draw_one_annotation. apply draw_annotation_frame.
  - apply same_frame_refl.
Qed.

Lemma draw_guide_line_frame (fuel : nat) (a : figure_args)
      (im im' : image) (start end_ : point) :
  draw_guide_line fuel a im start end_ = Ok im' -> same_frame im im'.
Proof.
  unfold draw_guide_line. destruct (line_style a =? "dashed")%string.
  - apply draw_dashed_line_frame.
  - intros E. injection E as <-. apply same_frame_draw.
Qed.

Lemma draw_guide_lines_frame (fuel : nat) (a : figure_args) (lay : layout)
      (x y w h : Z) (zoom_size : Z * Z) (canvas canvas' : image) :
  draw_guide_lines fuel a lay x y w h zoom_size canvas = Ok canvas' ->
  same_frame canvas canvas'.
Proof.
  unfold draw_guide_lines.
  destruct (roi_box lay x y w h) as [[[box_x1 box_y1] box_x2] box_y2].
  destruct (guide_lines _ _ _ _ _ _ _ _ _) as [g1 g2].
  intros E. apply bind_Ok in E as [c1 [E1 E2]].
  eapply same_frame_trans; eapply draw_guide_line_frame; eassumption.
Qed.

Lemma framed_canvas_frame (a : figure_args) (lay : layout) (x y w h : Z)
      (panorama : source) (pano_size : Z * Z)
      (zoom_img : source) (zoom_size : Z * Z) (canvas : image) :
  same_frame canvas
    (framed_canvas a lay x y w h panorama pano_size zoom_img zoom_size
       canvas).
Proof.
  unfold framed_canvas.
  destruct pano_size as [pano_w pano_h], zoom_size as [zoom_w zoom_h].
  destruct (roi_box lay x y w h) as [[[box_x1 box_y1] box_x2] box_y2].
  repeat (eapply same_frame_trans; [| apply draw_border_frame]).
  split; reflexivity.
Qed.

(** The watermark keeps the size, and an RGB canvas stays RGB. *)
Lemma add_watermark_frame (a : figure_args) (canvas : image) :
  img_mode canvas = RGB -> same_frame canvas (add_watermark a canvas).
Proof.
  intros Hm. unfold add_watermark. destruct (watermark a) as [wm |];
    [| apply same_frame_refl].
  destruct (wm_nonempty wm && get (wm_enabled wm) false);
    [| apply same_frame_refl].
  split; [reflexivity | cbn; symmetry; exact Hm].
Qed.

(** The composite has the size of the layout and mode RGB. *)
Lemma compose_frame (fuel : nat) (a : figure_args) (x y w h : Z)
      (canvas : image) (lay : layout) :
  compose fuel a x y w h = Ok (canvas, lay) ->
  size canvas = (canvas_w lay, canvas_h lay) /\ img_mode canvas = RGB.
Proof.
  intros E. apply compose_stages in E
    as (panorama & pano_size & zoom_img & zoom_size & guided & barred
        & _ & Hlay & Eg & Eb & ->).
  pose proof (framed_canvas_frame a lay x y w h panorama pano_size zoom_img
                zoom_size (blank RGB (canvas_w lay, canvas_h lay))) as F0.
  pose proof (draw_guide_lines_frame _ _ _ _ _ _ _ _ _ _ Eg) as F1.
  pose proof (draw_all_scale_bars_frame _ _ _ _ _ _ Eb) as F2.
  pose proof (draw_annotations_frame a lay barred) as F3.
  pose proof (same_frame_trans _ _ _ (same_frame_trans _ _ _
                (same_frame_trans _ _ _ F0 F1) F2) F3) as [S M].
  cbn [size img_mode blank] in S, M.
  destruct (add_watermark_frame a (draw_annotations a lay barred) M)
    as [S' M'].
  split; congruence.
Qed.

End Frames.

Lemma In_range (i t : Z) : In i (range t) <-> 0 <= i < t.
Proof.
  unfold range. rewrite in_map_iff. split.
  - intros [k [<- Hk]]. apply in_seq in Hk. lia.
  - intros Hi. exists (Z.to_nat i). split; [lia |].
    apply in_seq. lia.
Qed.

Lemma fold_left_draw_history {A : Type} (d : A -> drawop) (l : list A) :
  forall im,
    history (fold_left (fun im x => draw (d x) im) l im) =
    (history im ++ map (fun x => Drawn (d x)) l)%list.
Proof.
  induction l as [| x l IH]; intros im; simpl.
  - rewrite app_nil_r. reflexivity.
  - rewrite IH. cbn [draw record_step history].
    rewrite <- app_assoc. reflexivity.
Qed.

(** A border of thickness [t] is its rings 0, 1, ..., t - 1. *)
Lemma draw_border_rings (x1 y1 x2 y2 t : Z) (outline : color) (im : image) :
  history (draw_border x1 y1 x2 y2 t outline im) =
  (history im
     ++ map (fun i => Drawn (ring (x1, y1) (x2 - x1, y2 - y1) i outline))
            (range t))%list.
Proof.
  unfold draw_border.
  rewrite (fold_left_draw_history
             (fun i => Rectangle (x1 - i) (y1 - i) (x2 + i) (y2 + i) outline)).
  f_equal. apply map_ext. intros i. unfold ring. cbn [fst snd].
  repeat f_equal; lia.
Qed.

Lemma draw_border_ring (x1 y1 x2 y2 t : Z) (outline : color) (im : image)
      (i : Z) :
  0 <= i < t ->
  In (Drawn (ring (x1, y1) (x2 - x1, y2 - y1) i outline))
     (history (draw_border x1 y1 x2 y2 t outline im)).
Proof.
  intros Hi. rewrite draw_border_rings. apply in_or_app. right.
  apply in_map_iff. exists i. split; [reflexivity |].
  apply In_range. exact Hi.
Qed.

Section Borders.

Context `{Collaborators}.

(** The rings of the three borders are on the framed canvas. *)
Lemma framed_canvas_rings (a : figure_args) (lay : layout) (x y w h : Z)
      (panorama : source) (pano_size : Z * Z)
      (zoom_img : source) (zoom_size : Z * Z) (new : image) :
  let canvas :=
    framed_canvas a lay x y w h panorama pano_size zoom_img zoom_size new in
  (forall i, 0 <= i < zoom_box_thickness a ->
     In (Drawn (ring (lay_pano_pos lay) pano_size i (zoom_box_color a)))
        (history canvas) /\
     In (Drawn (ring (lay_zoom_pos lay) zoom_size i (zoom_box_color a)))
        (history canvas)) /\
  (forall i, 0 <= i < box_thickness a ->
     In (Drawn (ring (fst (lay_pano_pos lay) + x, snd (lay_pano_pos lay) + y)
                     (w, h) i (box_color a)))
        (history canvas)).
Proof.
  cbv zeta. unfold framed_canvas, roi_box.
  destruct pano_size as [pano_w pano_h], zoom_size as [zoom_w zoom_h].
  destruct (lay_pano_pos lay) as [px py], (lay_zoom_pos lay) as [zx zy].
  cbn [fst snd].
  split.
  - intros i Hi. split.
    + eapply extends_In;
        [eapply extends_trans; apply draw_border_extends |].
      pose proof (draw_border_ring px py (px + pano_w) (py + pano_h)
                    (zoom_box_thickness a) (zoom_box_color a)) as R.
      replace (px + pano_w - px) with pano_w in R by lia.
      replace (py + pano_h - py) with pano_h in R by lia.
      apply R. exact Hi.
    + pose proof (draw_border_ring zx zy (zx + zoom_w) (zy + zoom_h)
                    (zoom_box_thickness a) (zoom_box_color a)) as R.
      replace (zx + zoom_w - zx) with zoom_w in R by lia.
      replace (zy + zoom_h - zy) with zoom_h in R by lia.
      apply R. exact Hi.
  - intros i Hi.
    eapply extends_In; [apply draw_border_extends |].
    pose proof (draw_border_ring (px + x) (py + y) (px + x + w) (py + y + h)
                  (box_thickness a) (box_color a)) as R.
    replace (px + x + w - (px + x)) with w in R by lia.
    replace (py + y + h - (py + y)) with h in R by lia.
    apply R. exact Hi.
Qed.

(** A finished composite grew out of its framed canvas. *)
Lemma compose_frames (fuel : nat) (a : figure_args) (x y w h : Z)
      (canvas : image) (lay : layout) :
  compose fuel a x y w h = Ok (canvas, lay) ->
  exists panorama pano_size zoom_img zoom_size,
    load_images a = Ok ((panorama, pano_size), (zoom_img, zoom_size)) /\
    lay = compute_layout (zoom_position a) pano_size zoom_size (padding a)
                         (border_margin a) /\
    extends (framed_canvas a lay x y w h panorama pano_size zoom_img zoom_size
               (blank RGB (canvas_w lay, canvas_h lay)))
            canvas.
Proof.
  intros E. apply compose_stages in E
    as (panorama & pano_size & zoom_img & zoom_size & guided & barred
        & El & Hlay & Eg & Eb & ->).
  exists panorama, pano_size, zoom_img, zoom_size.
  split; [exact El | split; [exact Hlay |] ].
  exact (extends_trans _ _ _
           (extends_trans _ _ _
              (extends_trans _ _ _
                 (draw_guide_lines_extends _ _ _ _ _ _ _ _ _ _ Eg)
                 (draw_all_scale_bars_extends _ _ _ _ _ _ Eb))
              (draw_annotations_extends a lay barred))
           (add_watermark_extends a _)).
Qed.

(** The rings of the image borders keep six pixels of margin. *)
Lemma layout_rings_inset (d : string) (pano_size zoom_size : Z * Z)
      (padding box_t zoom_box_t i : Z) (c : color) :
  0 <= fst pano_size -> 0 <= snd pano_size ->
  0 <= fst zoom_size -> 0 <= snd zoom_size -> 0 <= padding ->
  0 <= i < zoom_box_t ->
  let lay := compute_layout d pano_size zoom_size padding
               (Z.max box_t zoom_box_t + 5) in
  inset 6 (canvas_w lay, canvas_h lay) (ring (lay_pano_pos lay) pano_size i c) /\
  inset 6 (canvas_w lay, canvas_h lay) (ring (lay_zoom_pos lay) zoom_size i c).
Proof.
  intros Hpw Hph Hzw Hzh Hpad Hi. cbv zeta.
  destruct pano_size as [pano_w pano_h], zoom_size as [zoom_w zoom_h].
  cbn [fst snd] in *.
  pose proof (layout_invariant pano_w pano_h zoom_w zoom_h padding
                (Z.max box_t zoom_box_t + 5) d Hpw Hph Hzw Hzh Hpad)
    as (Wp & Wz & _).
  cbv zeta in Wp, Wz. unfold within in Wp, Wz. unfold inset, ring.
  cbn [fst snd] in *. lia.
Qed.

(** X10. On a returned figure both images carry a border of
    zoom_box_thickness rings in zoom_box_color, ring i lying i pixels
    outside the image (the panorama's border does not use
    box_thickness); and since margin = max(box_thickness,
    zoom_box_thickness) + 5, every ring keeps at least 6 pixels from
    every edge of the canvas, sizes and padding being non-negative. *)
Theorem borders_keep_a_margin (fuel : nat) (a : figure_args)
        (canvas : image) (meta : metadata) :
  snd (create_zoom_figure fuel a) = Ok (canvas, meta) ->
  exists pano_size zoom_size,
    size canvas =
      (canvas_w (compute_layout (zoom_position a) pano_size zoom_size
                   (padding a) (border_margin a)),
       canvas_h (compute_layout (zoom_position a) pano_size zoom_size
                   (padding a) (border_margin a))) /\
    forall i, 0 <= i < zoom_box_thickness a ->
      In (Drawn (ring (pano_pos meta) pano_size i (zoom_box_color a)))
         (history canvas) /\
      In (Drawn (ring (zoom_pos meta) zoom_size i (zoom_box_color a)))
         (history canvas) /\
      (0 <= fst pano_size -> 0 <= snd pano_size ->
       0 <= fst zoom_size -> 0 <= snd zoom_size -> 0 <= padding a ->
       inset 6 (size canvas)
             (ring (pano_pos meta) pano_size i (zoom_box_color a)) /\
       inset 6 (size canvas)
             (ring (zoom_pos meta) zoom_size i (zoom_box_color a))).
Proof.
  intros Hret. apply create_zoom_figure_returned in Hret
    as (x & y & w & h & c & lay & _ & Hc & ->).
  cbn [pano_pos zoom_pos metadata_of].
  destruct (compose_frame _ _ _ _ _ _ _ _ Hc) as [Hsize _].
  apply compose_frames in Hc
    as (panorama & pano_size & zoom_img & zoom_size & _ & Hlay & Hext).
  exists pano_size, zoom_size. rewrite Hsize.
  split; [rewrite Hlay; reflexivity |].
  intros i Hi.
  destruct (framed_canvas_rings a lay (x + fst (roi_offset a))
              (y + snd (roi_offset a)) w h panorama pano_size zoom_img
              zoom_size (blank RGB (canvas_w lay, canvas_h lay)))
    as [Hrings _].
  destruct (Hrings i Hi) as [Rp Rz].
  split; [apply (extends_In _ _ _ Hext Rp) |].
  split; [apply (extends_In _ _ _ Hext Rz) |].
  intros Hpw Hph Hzw Hzh Hpad. rewrite Hlay.
  apply layout_rings_inset; assumption.
Qed.

(** X11. On a returned figure the ROI box is drawn where the metadata
    says: roi_w, roi_h and the confidence are those that
    [find_roi_position] returned, (roi_x, roi_y) is the located corner
    moved by roi_offset, and for every i below box_thickness the
    rectangle i pixels outside the box at pano_pos + (roi_x, roi_y) of
    size (roi_w, roi_h) is on the canvas in box_color. *)
Theorem roi_box_is_where_the_metadata_says (fuel : nat) (a : figure_args)
        (canvas : image) (meta : metadata) :
  snd (create_zoom_figure fuel a) = Ok (canvas, meta) ->
  (exists x y,
      find_roi_position (panorama_path a) (zoom_path a)
        = Ok (x, y, roi_w meta, roi_h meta, confidence meta) /\
      roi_x meta = x + fst (roi_offset a) /\
      roi_y meta = y + snd (roi_offset a)) /\
  forall i, 0 <= i < box_thickness a ->
    In (Drawn (ring (fst (pano_pos meta) + roi_x meta,
                     snd (pano_pos meta) + roi_y meta)
                    (roi_w meta, roi_h meta) i (box_color a)))
       (history canvas).
Proof.
  intros Hret. apply create_zoom_figure_returned in Hret
    as (x & y & w & h & c & lay & Hloc & Hc & ->).
  cbn [pano_pos zoom_pos roi_x roi_y roi_w roi_h confidence metadata_of].
  split; [exists x, y; repeat split; exact Hloc |].
  apply compose_frames in Hc
    as (panorama & pano_size & zoom_img & zoom_size & _ & Hlay & Hext).
  intros i Hi.
  destruct (framed_canvas_rings a lay (x + fst (roi_offset a))
              (y + snd (roi_offset a)) w h panorama pano_size zoom_img
              zoom_size (blank RGB (canvas_w lay, canvas_h lay)))
    as [_ Hbox].
  apply (extends_In _ _ _ Hext (Hbox i Hi)).
Qed.

End Borders.

Lemma borders_margin_witness :
  let lab := Lab.bench (100, 200) (80, 80) (Py.dec 9 10) (5, 7) in
  let a := Lab.defaults in
  exists canvas meta,
    snd (create_zoom_figure 0 a) = Ok (canvas, meta) /\
    exists pano_size zoom_size,
      size canvas =
        (canvas_w (compute_layout (zoom_position a) pano_size zoom_size
                     (padding a) (border_margin a)),
         canvas_h (compute_layout (zoom_position a) pano_size zoom_size
                     (padding a) (border_margin a))) /\
      forall i, 0 <= i < zoom_box_thickness a ->
        In (Drawn (ring (pano_pos meta) pano_size i (zoom_box_color a)))
           (history canvas) /\
        In (Drawn (ring (zoom_pos meta) zoom_size i (zoom_box_color a)))
           (history canvas) /\
        (0 <= fst pano_size -> 0 <= snd pano_size ->
         0 <= fst zoom_size -> 0 <= snd zoom_size -> 0 <= padding a ->
         inset 6 (size canvas)
               (ring (pano_pos meta) pano_size i (zoom_box_color a)) /\
         inset 6 (size canvas)
               (ring (zoom_pos meta) zoom_size i (zoom_box_color a))).
Proof.
  intros lab a. eexists. eexists.
  split; [vm_compute; reflexivity |].
  apply (@borders_keep_a_margin lab 0 a). vm_compute. reflexivity.
Defined.

Lemma roi_box_metadata_witness :
  let lab := Lab.bench (100, 200) (80, 80) (Py.dec 9 10) (5, 7) in
  let a := Lab.defaults in
  exists canvas meta,
    snd (create_zoom_figure 0 a) = Ok (canvas, meta) /\
    (exists x y,
        find_roi_position (panorama_path a) (zoom_path a)
          = Ok (x, y, roi_w meta, roi_h meta, confidence meta) /\
        roi_x meta = x + fst (roi_offset a) /\
        roi_y meta = y + snd (roi_offset a)) /\
    forall i, 0 <= i < box_thickness a ->
      In (Drawn (ring (fst (pano_pos meta) + roi_x meta,
                       snd (pano_pos meta) + roi_y meta)
                      (roi_w meta, roi_h meta) i (box_color a)))
         (history canvas).
Proof.
  intros lab a. eexists. eexists.
  split; [vm_compute; reflexivity |].
  apply (@roi_box_is_where_the_metadata_says lab 0 a). vm_compute. reflexivity.
Defined.

(** ** Guide lines *)

(** Two segments that run between the same two parallels and whose ends
    are in the same order on both have no point in common. *)
Lemma segments_apart (sx ex a1 a2 b1 b2 t1 n1 t2 n2 : Z) :
  sx <> ex -> a1 < a2 -> b1 < b2 ->
  0 <= t1 <= n1 -> 0 < n1 -> 0 <= t2 <= n2 -> 0 < n2 ->
  n2 * ((n1 - t1) * sx + t1 * ex) = n1 * ((n2 - t2) * sx + t2 * ex) ->
  n2 * ((n1 - t1) * a1 + t1 * b1) <> n1 * ((n2 - t2) * a2 + t2 * b2).
Proof.
  intros Hse Ha Hb Ht1 Hn1 Ht2 Hn2 Hx Hy.
  assert (HT : n2 * t1 = n1 * t2).
  { assert ((n2 * t1 - n1 * t2) * (ex - sx) = 0) as Hz by lia.
    apply Z.mul_eq_0 in Hz. lia. }
  assert (Hsum : (n1 * n2 - n2 * t1) * (a2 - a1) + (n2 * t1) * (b2 - b1) = 0).
  { replace ((n2 * t1) * (b2 - b1)) with (n2 * t1 * b2 - n2 * t1 * b1) by lia.
    replace ((n1 * n2 - n2 * t1) * (a2 - a1))
      with (n1 * n2 * a2 - n2 * t1 * a2 - n1 * n2 * a1 + n2 * t1 * a1) by lia.
    rewrite HT at 1 3. lia. }
  assert (0 <= n2 * t1) by nia.
  assert (0 <= n1 * n2 - n2 * t1) by nia.
  assert (0 < n1 * n2) by nia.
  assert (0 <= (n1 * n2 - n2 * t1) * (a2 - a1)) by (apply Z.mul_nonneg_nonneg; lia).
  assert (0 <= (n2 * t1) * (b2 - b1)) by (apply Z.mul_nonneg_nonneg; lia).
  destruct (Z.eq_dec (n2 * t1) 0) as [E0 | N0].
  - rewrite E0 in *. rewrite Z.sub_0_r in *.
    assert (0 < n1 * n2 * (a2 - a1)) by (apply Z.mul_pos_pos; lia). lia.
  - assert (0 < (n2 * t1) * (b2 - b1)) by (apply Z.mul_pos_pos; lia). lia.
Qed.

(** X12. The two guide lines never cross.  For a ROI box and a zoom image
    that are not empty, the zoom image lying beyond the side of the box
    that the direction names, no point of the first guide line (a
    fraction t1 / n1 of its way) is a point of the second (a fraction
    t2 / n2 of its way): each joins a corner of the box to the matching
    corner of the zoom image. *)
Theorem guide_lines_never_cross
        (zoom_position : string) (box_x1 box_y1 box_x2 box_y2 : Z)
        (zoom_box_x1 zoom_box_y1 zoom_box_x2 zoom_box_y2 : Z)
        (t1 n1 t2 n2 : Z) :
  box_x1 < box_x2 -> box_y1 < box_y2 ->
  zoom_box_x1 < zoom_box_x2 -> zoom_box_y1 < zoom_box_y2 ->
  faces zoom_position box_x1 box_y1 box_x2 box_y2
        zoom_box_x1 zoom_box_y1 zoom_box_x2 zoom_box_y2 ->
  0 <= t1 <= n1 -> 0 < n1 -> 0 <= t2 <= n2 -> 0 < n2 ->
  let g := guide_lines zoom_position box_x1 box_y1 box_x2 box_y2
             zoom_box_x1 zoom_box_y1 zoom_box_x2 zoom_box_y2 in
  let p1 := part_way t1 n1 (fst g) in
  let p2 := part_way t2 n2 (snd g) in
  (n2 * fst p1, n2 * snd p1) <> (n1 * fst p2, n1 * snd p2).
Proof.
  intros Hbx Hby Hzx Hzy Hf Ht1 Hn1 Ht2 Hn2. cbv zeta.
  unfold faces in Hf. unfold guide_lines, part_way.
  destruct (zoom_position =? "right")%string;
    [| destruct (zoom_position =? "left")%string;
       [| destruct (zoom_position =? "bottom")%string ] ];
    cbn [fst snd]; intros E; injection E as Ex Ey.
  - apply (segments_apart box_x2 zoom_box_x1 box_y1 box_y2
             zoom_box_y1 zoom_box_y2 t1 n1 t2 n2); try assumption; lia.
  - apply (segments_apart box_x1 zoom_box_x2 box_y1 box_y2
             zoom_box_y1 zoom_box_y2 t1 n1 t2 n2); try assumption; lia.
  - apply (segments_apart box_y2 zoom_box_y1 box_x1 box_x2
             zoom_box_x1 zoom_box_x2 t1 n1 t2 n2); try assumption; lia.
  - apply (segments_apart box_y1 zoom_box_y2 box_x1 box_x2
             zoom_box_x1 zoom_box_x2 t1 n1 t2 n2); try assumption; lia.
Qed.

Lemma guide_lines_witness :
  let g := guide_lines "right" 10 10 20 20 50 0 150 100 in
  let p1 := part_way 1 2 (fst g) in
  let p2 := part_way 1 3 (snd g) in
  (3 * fst p1, 3 * snd p1) <> (2 * fst p2, 2 * snd p2).
Proof.
  apply (guide_lines_never_cross "right" 10 10 20 20 50 0 150 100 1 2 1 3);
    try lia.
  vm_compute. reflexivity.
Defined.

(** ** Scale bars *)

Section ScaleBars.

Context `{Collaborators}.

(** X13. An enabled scale bar that is drawn belongs to the panorama when
    its position is "panorama" and to the zoom image otherwise.  Its
    line runs from (x, y) to (x + n, y) with n the pixel length and
    y = bottom of that image - offset_y; for corner "left" it starts
    offset_x right of the image's left edge, for any other corner it
    ends offset_x left of the image's right edge; and when
    0 <= n, 0 <= offset_x and n + offset_x is within the image's width
    the bar lies between the left and the right edge of its image. *)
Theorem scale_bar_lies_in_its_image
        (pano_pos zoom_pos : point) (pano_size zoom_size : Z * Z)
        (im im' : image) (sb : scale_bar_config) :
  sb_enabled sb = Some true ->
  draw_single_scale_bar pano_pos zoom_pos pano_size zoom_size im sb = Ok im' ->
  let target := sb_target sb pano_pos zoom_pos pano_size zoom_size in
  let left := fst (fst target) in
  let width := fst (snd target) in
  let bottom := snd (fst target) + snd (snd target) in
  let offset_x := get (sb_offset_x sb) 30 in
  exists n x y later,
    sb_length_pixels_of sb = Ok n /\
    history im' =
    (history im
       ++ Drawn (Line (ipoint (x, y)) (ipoint (x + n, y))
                      (get (sb_color sb) (0, 0, 0))
                      (get (sb_thickness sb) 5)) :: later)%list /\
    y = bottom - get (sb_offset_y sb) 30 /\
    (if (get (sb_corner sb) "right" =? "left")%string
     then x = left + offset_x
     else x + n = left + width - offset_x) /\
    (0 <= n -> 0 <= offset_x -> n + offset_x <= width ->
     left <= x /\ x + n <= left + width).
Proof.
  intros Hen E. cbv zeta.
  apply (draw_single_scale_bar_bar _ _ _ _ _ _ _ Hen) in E
    as (n & later & Hn & Hhist).
  cbv zeta in Hhist.
  exists n, (fst (sb_anchor sb n pano_pos zoom_pos pano_size zoom_size)),
    (snd (sb_anchor sb n pano_pos zoom_pos pano_size zoom_size)), later.
  split; [exact Hn |]. split; [exact Hhist |].
  unfold sb_anchor, sb_target.
  destruct (get (sb_position sb) "zoom" =? "panorama")%string;
    destruct (get (sb_corner sb) "right" =? "left")%string;
    cbn [fst snd]; repeat split; lia.
Qed.

(** A switched-off bar is skipped before any of its numbers is read. *)
Lemma draw_single_scale_bar_off (pano_pos zoom_pos : point)
      (pano_size zoom_size : Z * Z) (im : image) (sb : scale_bar_config) :
  switched_off sb = true ->
  draw_single_scale_bar pano_pos zoom_pos pano_size zoom_size im sb = Ok im.
Proof.
  unfold switched_off, draw_single_scale_bar. intros ->.
  rewrite orb_true_r. reflexivity.
Qed.

(** X14. A list of scale bars none of which is enabled draws nothing and
    raises nothing, whatever else the dictionaries hold: a bar whose
    'enabled' is missing or false is skipped before its length or
    its ratio is read. *)
Theorem switched_off_scale_bars_draw_nothing
        (a : figure_args) (lay : layout) (pano_size zoom_size : Z * Z)
        (canvas : image) (sbs : list scale_bar_config) :
  scale_bar a = ScaleBars sbs ->
  forallb switched_off sbs = true ->
  draw_all_scale_bars a lay pano_size zoom_size canvas = Ok canvas.
Proof.
  unfold draw_all_scale_bars. intros -> Hoff.
  induction sbs as [| sb rest IH]; [reflexivity |].
  cbn [forallb] in Hoff. apply andb_prop in Hoff as [Hsb Hrest].
  cbn [draw_scale_bars].
  rewrite (draw_single_scale_bar_off _ _ _ _ _ _ Hsb). cbn [bind].
  apply IH. exact Hrest.
Qed.

Lemma draw_scale_bars_app (pano_pos zoom_pos : point)
      (pano_size zoom_size : Z * Z) (l1 l2 : list scale_bar_config) :
  forall im,
    draw_scale_bars pano_pos zoom_pos pano_size zoom_size (l1 ++ l2) im =
    let* im1 := draw_scale_bars pano_pos zoom_pos pano_size zoom_size l1 im in
    draw_scale_bars pano_pos zoom_pos pano_size zoom_size l2 im1.
Proof.
  induction l1 as [| sb rest IH]; intros im; [reflexivity |].
  cbn [app draw_scale_bars].
  destruct (draw_single_scale_bar pano_pos zoom_pos pano_size zoom_size im sb)
    as [im1 | e |]; cbn [bind]; [apply IH | reflexivity | reflexivity].
Qed.

(** X15. Passing one scale-bar dictionary is the same as passing the list
    that holds just it, passing the empty list is the same as passing
    none, and a list is drawn bar by bar in order: the bars of
    l1 ++ l2 are those of l1 followed, if they were drawn, by those of
    l2. *)
Theorem one_scale_bar_or_a_list_of_one
        (a : figure_args) (lay : layout) (pano_size zoom_size : Z * Z)
        (canvas : image) (sb : scale_bar_config)
        (l1 l2 : list scale_bar_config) :
  draw_all_scale_bars (Lab.with_scale_bar (OneScaleBar sb) a) lay pano_size
    zoom_size canvas =
  draw_all_scale_bars (Lab.with_scale_bar (ScaleBars [sb]) a) lay pano_size
    zoom_size canvas /\
  draw_all_scale_bars (Lab.with_scale_bar (ScaleBars []) a) lay pano_size
    zoom_size canvas =
  draw_all_scale_bars (Lab.with_scale_bar NoScaleBar a) lay pano_size
    zoom_size canvas /\
  draw_all_scale_bars (Lab.with_scale_bar (ScaleBars (l1 ++ l2)) a) lay
    pano_size zoom_size canvas =
  (let* drawn := draw_all_scale_bars (Lab.with_scale_bar (ScaleBars l1) a)
                   lay pano_size zoom_size canvas in
   draw_all_scale_bars (Lab.with_scale_bar (ScaleBars l2) a) lay pano_size
     zoom_size drawn).
Proof.
  unfold draw_all_scale_bars. cbn [scale_bar Lab.with_scale_bar].
  split; [| split; [reflexivity | apply draw_scale_bars_app] ].
  cbn [draw_scale_bars].
  destruct (sb_nonempty sb) eqn:Hne.
  - destruct (draw_single_scale_bar _ _ _ _ canvas sb); reflexivity.
  - unfold draw_single_scale_bar. rewrite Hne. reflexivity.
Qed.

End ScaleBars.

Lemma scale_bar_place_witness :
  let lab := Lab.bench (100, 200) (80, 80) (Py.dec 9 10) (5, 7) in
  let sb := Lab.bar (Py.Int 100) (Py.Float (Py.dec 1 1)) in
  let im := blank RGB (400, 200) in
  exists im',
    draw_single_scale_bar (8, 8) (228, 18) (200, 100) (150, 80) im sb
      = Ok im' /\
    let target := sb_target sb (8, 8) (228, 18) (200, 100) (150, 80) in
    let left := fst (fst target) in
    let width := fst (snd target) in
    let bottom := snd (fst target) + snd (snd target) in
    let offset_x := get (sb_offset_x sb) 30 in
    exists n x y later,
      sb_length_pixels_of sb = Ok n /\
      history im' =
      (history im
         ++ Drawn (Line (ipoint (x, y)) (ipoint (x + n, y))
                        (get (sb_color sb) (0, 0, 0))
                        (get (sb_thickness sb) 5)) :: later)%list /\
      y = bottom - get (sb_offset_y sb) 30 /\
      (if (get (sb_corner sb) "right" =? "left")%string
       then x = left + offset_x
       else x + n = left + width - offset_x) /\
      (0 <= n -> 0 <= offset_x -> n + offset_x <= width ->
       left <= x /\ x + n <= left + width).
Proof.
  intros lab sb im. eexists.
  split; [vm_compute; reflexivity |].
  apply (@scale_bar_lies_in_its_image lab (8, 8) (228, 18) (200, 100)
           (150, 80) im);
    [ reflexivity | vm_compute; reflexivity ].
Defined.

Lemma switched_off_witness :
  let lab := Lab.bench (100, 200) (80, 80) (Py.dec 9 10) (5, 7) in
  let off :=
    {| sb_enabled := Some false; sb_position := None; sb_corner := None;
       sb_offset_x := None; sb_offset_y := None;
       sb_length_um := Some (Py.Float S754_nan);
       sb_pixels_per_um := Some (Py.Float (S754_infinity false));
       sb_color := None; sb_thickness := None; sb_font_size := None;
       sb_style := None; sb_font_family := None; sb_text_gap := None |} in
  let unset :=
    {| sb_enabled := None; sb_position := Some "panorama"; sb_corner := None;
       sb_offset_x := None; sb_offset_y := None;
       sb_length_um := None;
       sb_pixels_per_um := Some (Py.Float (S754_infinity false));
       sb_color := None; sb_thickness := None; sb_font_size := None;
       sb_style := None; sb_font_family := None; sb_text_gap := None |} in
  let a := Lab.with_scale_bar (ScaleBars [ off; unset ]) Lab.defaults in
  draw_all_scale_bars a (compute_layout "right" (200, 100) (80, 80) 50 8)
    (200, 100) (80, 80) (blank RGB (346, 116))
  = Ok (blank RGB (346, 116)).
Proof.
  intros lab off unset a.
  apply (@switched_off_scale_bars_draw_nothing lab a
           (compute_layout "right" (200, 100) (80, 80) 50 8)
           (200, 100) (80, 80) (blank RGB (346, 116)) [ off; unset ]);
    reflexivity.
Defined.

(** ** The zoom scale *)

Section ZoomScale.

Context `{Collaborators}.

(** What the two loaded images are. *)
Lemma load_images_loaded (a : figure_args)
      (panorama zoom_src : source) (pano_size zoom_size : Z * Z) :
  load_images a = Ok ((panorama, pano_size), (zoom_src, zoom_size)) ->
  exists zoom_decoded,
    decode (panorama_path a) = inr pano_size /\
    decode (zoom_path a) = inr zoom_decoded /\
    panorama = FromFile (panorama_path a) /\
    if Py.ne (zoom_scale a) (Py.Float (Py.dec 1 1)) then
      scaled_dim (fst zoom_decoded) (zoom_scale a) = Ok (fst zoom_size) /\
      scaled_dim (snd zoom_decoded) (zoom_scale a) = Ok (snd zoom_size) /\
      1 <= fst zoom_size /\ 1 <= snd zoom_size /\
      zoom_src = Resized (FromFile (zoom_path a)) zoom_size
    else
      zoom_src = FromFile (zoom_path a) /\ zoom_size = zoom_decoded.
Proof.
  unfold load_images. intros E.
  apply bind_Ok in E as [[p psz] [Ep E]].
  apply bind_Ok in E as [[z zsz] [Ez E]].
  apply bind_Ok in E as [[zs zssz] [Es E]].
  injection E as <- <- <- <-.
  apply Image_open_opened in Ep as [Hp ->].
  apply Image_open_opened in Ez as [Hz ->].
  exists zsz. split; [exact Hp | split; [exact Hz | split; [reflexivity |] ] ].
  destruct (Py.ne (zoom_scale a) (Py.Float (Py.dec 1 1))).
  - apply bind_Ok in Es as [nw [Ew Es]]. apply bind_Ok in Es as [nh [Eh Es]].
    apply Image_resize_resized in Es as (Er & Hw & Hh & _).
    injection Er as -> ->. cbn [fst snd] in *.
    repeat split; assumption.
  - injection Es as <- <-. split; reflexivity.
Qed.

(** A zoom image scaled to less than a pixel stops the call at the
    resize. *)
Lemma load_images_too_small (a : figure_args) (pano_size zoom_decoded : Z * Z)
      (nw nh : Z) :
  decode (panorama_path a) = inr pano_size ->
  decode (zoom_path a) = inr zoom_decoded ->
  Py.ne (zoom_scale a) (Py.Float (Py.dec 1 1)) = true ->
  scaled_dim (fst zoom_decoded) (zoom_scale a) = Ok nw ->
  scaled_dim (snd zoom_decoded) (zoom_scale a) = Ok nh ->
  nw < 1 \/ nh < 1 ->
  load_images a = Raise (ValueError "height and width must be > 0").
Proof.
  intros Hp Hz Hne Hw Hh Hsmall. unfold load_images, Image_open.
  rewrite Hp, Hz. cbn [bind]. rewrite Hne, Hw. cbn [bind]. rewrite Hh.
  cbn [bind]. unfold Image_resize. cbn [fst snd].
  assert (Hb : (nw <? 1) || (nh <? 1) = true).
  { apply orb_true_iff. destruct Hsmall as [Hs | Hs];
      [left | right]; apply Z.ltb_lt; exact Hs. }
  rewrite Hb. reflexivity.
Qed.

(** X16. A returned figure is the canvas of the layout, in mode RGB and
    with no negative side, with the panorama pasted first at pano_pos
    and the zoom image second at zoom_pos, both as the metadata gives
    them.  The sizes that the layout is computed from are those that
    Pillow finds when it decodes the two files itself, not the shapes
    that OpenCV found.  With zoom_scale equal to 1.0 the zoom image is
    pasted as decoded; with any other zoom_scale it is resized to
    int(width * zoom_scale) by int(height * zoom_scale) first, a size of
    one pixel at least either way, and that size is the one the layout
    is computed from.  When the scaled width or height is below one
    pixel the call raises the ValueError of the resize, after the
    warning if there is one, and writes no file. *)
Theorem zoom_scale_resizes_the_pasted_zoom_image
        (fuel : nat) (a : figure_args) :
  (forall canvas meta,
      snd (create_zoom_figure fuel a) = Ok (canvas, meta) ->
      exists pano_size zoom_decoded zoom_src zoom_size later,
        decode (panorama_path a) = inr pano_size /\
        decode (zoom_path a) = inr zoom_decoded /\
        (if Py.ne (zoom_scale a) (Py.Float (Py.dec 1 1)) then
           scaled_dim (fst zoom_decoded) (zoom_scale a) = Ok (fst zoom_size) /\
           scaled_dim (snd zoom_decoded) (zoom_scale a) = Ok (snd zoom_size) /\
           1 <= fst zoom_size /\ 1 <= snd zoom_size /\
           zoom_src = Resized (FromFile (zoom_path a)) zoom_size
         else
           zoom_src = FromFile (zoom_path a) /\ zoom_size = zoom_decoded) /\
        history canvas =
          Pasted (FromFile (panorama_path a)) (pano_pos meta)
            :: Pasted zoom_src (zoom_pos meta) :: later /\
        let lay := compute_layout (zoom_position a) pano_size zoom_size
                     (padding a) (border_margin a) in
        size canvas = (canvas_w lay, canvas_h lay) /\
        0 <= canvas_w lay /\ 0 <= canvas_h lay /\
        img_mode canvas = RGB /\
        pano_pos meta = lay_pano_pos lay /\
        zoom_pos meta = lay_zoom_pos lay) /\
  (forall x y w h c pano_size zoom_decoded nw nh,
      find_roi_position (panorama_path a) (zoom_path a)
        = Ok (x, y, w, h, c) ->
      decode (panorama_path a) = inr pano_size ->
      decode (zoom_path a) = inr zoom_decoded ->
      Py.ne (zoom_scale a) (Py.Float (Py.dec 1 1)) = true ->
      scaled_dim (fst zoom_decoded) (zoom_scale a) = Ok nw ->
      scaled_dim (snd zoom_decoded) (zoom_scale a) = Ok nh ->
      nw < 1 \/ nh < 1 ->
      create_zoom_figure fuel a =
      ((if Py.lt c (Py.Float (Py.dec 5 10))
        then [ LowConfidenceWarning c ] else []),
       Raise (ValueError "height and width must be > 0"))).
Proof.
  split.
  - intros canvas meta Hret. apply create_zoom_figure_returned in Hret
      as (x & y & w & h & c & lay & _ & Hc & ->).
    cbn [pano_pos zoom_pos metadata_of].
    destruct (compose_frame _ _ _ _ _ _ _ _ Hc) as [Hsize Hmode].
    destruct (compose_canvas _ _ _ _ _ _ _ _ Hc) as [Hcw Hch].
    apply compose_frames in Hc
      as (panorama & pano_size & zoom_src & zoom_size & El & Hlay & Hext).
    destruct (load_images_loaded _ _ _ _ _ El)
      as (zoom_decoded & Hp & Hz & -> & Hzoom).
    destruct (framed_canvas_history a lay (x + fst (roi_offset a))
                (y + snd (roi_offset a)) w h (FromFile (panorama_path a))
                pano_size zoom_src zoom_size (canvas_w lay, canvas_h lay))
      as [borders Hf].
    destruct Hext as [steps Hs].
    exists pano_size, zoom_decoded, zoom_src, zoom_size, (borders ++ steps)%list.
    split; [exact Hp | split; [exact Hz | split; [exact Hzoom |] ] ].
    split; [rewrite Hs, Hf; reflexivity |].
    cbv zeta. rewrite <- Hlay.
    repeat split; assumption.
  - intros x y w h c pano_size zoom_decoded nw nh Hloc Hp Hz Hne Hw Hh Hsmall.
    rewrite (create_zoom_figure_located fuel a x y w h c Hloc). cbv zeta.
    unfold compose.
    rewrite (load_images_too_small a pano_size zoom_decoded nw nh Hp Hz Hne
               Hw Hh Hsmall).
    reflexivity.
Qed.

End ZoomScale.

Lemma zoom_scale_witness :
  let lab := Lab.studio (100, 200) (80, 60) (Py.dec 9 10) (5, 7)
               (Lab.as_stored (200, 100) (80, 60)) Lab.monospace
               (fun _ => None) in
  let a := Lab.with_zoom_scale (Py.Float (Py.dec 5 10)) Lab.defaults in
  let tiny := Lab.with_zoom_scale (Py.Float (Py.dec 1 100)) Lab.defaults in
  (find_roi_position "pano.png" "zoom.png"
     = Ok (5, 7, 60, 80, Py.Float (Py.dec 9 10)) /\
   exists canvas meta,
     snd (create_zoom_figure 0 a) = Ok (canvas, meta) /\
     size canvas = (306, 116) /\
     exists pano_size zoom_decoded zoom_src zoom_size later,
       decode (panorama_path a) = inr pano_size /\
       decode (zoom_path a) = inr zoom_decoded /\
       (if Py.ne (zoom_scale a) (Py.Float (Py.dec 1 1)) then
          scaled_dim (fst zoom_decoded) (zoom_scale a) = Ok (fst zoom_size) /\
          scaled_dim (snd zoom_decoded) (zoom_scale a) = Ok (snd zoom_size) /\
          1 <= fst zoom_size /\ 1 <= snd zoom_size /\
          zoom_src = Resized (FromFile (zoom_path a)) zoom_size
        else
          zoom_src = FromFile (zoom_path a) /\ zoom_size = zoom_decoded) /\
       history canvas =
         Pasted (FromFile (panorama_path a)) (pano_pos meta)
           :: Pasted zoom_src (zoom_pos meta) :: later /\
       let lay := compute_layout (zoom_position a) pano_size zoom_size
                    (padding a) (border_margin a) in
       size canvas = (canvas_w lay, canvas_h lay) /\
       0 <= canvas_w lay /\ 0 <= canvas_h lay /\
       img_mode canvas = RGB /\
       pano_pos meta = lay_pano_pos lay /\
       zoom_pos meta = lay_zoom_pos lay) /\
  create_zoom_figure 0 tiny =
    ([], Raise (ValueError "height and width must be > 0")).
Proof.
  intros lab a tiny. split; [split |].
  - vm_compute. reflexivity.
  - eexists. eexists.
    split; [vm_compute; reflexivity |].
    split; [reflexivity |].
    apply (proj1 (@zoom_scale_resizes_the_pasted_zoom_image lab 0 a)).
    vm_compute. reflexivity.
  - apply (proj2 (@zoom_scale_resizes_the_pasted_zoom_image lab 0 tiny)
             5 7 60 80 (Py.Float (Py.dec 9 10)) (200, 100) (80, 60) 0 0);
      try (vm_compute; reflexivity).
    left. lia.
Defined.

(** ** What a call writes *)


Section Events.

Context `{Collaborators}.

(** X17. When one of the two files cannot be read, [create_zoom_figure]
    raises the ValueError of [find_roi_position] that names the file,
    the panorama's before the zoom image's when neither can be read, and
    nothing is printed or saved, whatever the other arguments. *)
Theorem create_zoom_figure_unreadable (fuel : nat) (a : figure_args) :
  imread (panorama_path a) = None \/ imread (zoom_path a) = None ->
  create_zoom_figure fuel a =
  ([], Raise (ValueError
                match imread (panorama_path a) with
                | None => "无法读取全景图: " ++ panorama_path a
                | Some _ => "无法读取放大图: " ++ zoom_path a
                end%string)).
Proof.
  unfold create_zoom_figure, find_roi_position.
  destruct (imread (panorama_path a)) as [panorama |].
  - intros [E | E]; [discriminate E |]. rewrite E. reflexivity.
  - intros _. reflexivity.
Qed.


End Events.

Lemma unreadable_witness :
  let lab := Lab.bench (100, 200) (80, 80) (Py.dec 9 10) (5, 7) in
  let a := Lab.with_panorama "nowhere.png" Lab.defaults in
  create_zoom_figure 0 a =
  ([], Raise (ValueError
                match imread (panorama_path a) with
                | None => "无法读取全景图: " ++ panorama_path a
                | Some _ => "无法读取放大图: " ++ zoom_path a
                end%string)).
Proof.
  intros lab a.
  apply (@create_zoom_figure_unreadable lab 0 a). left. reflexivity.
Defined.


(** ** Undo and redo *)

Section HistoryFacts.

Context {State : Type}.

Implicit Types (m : @Gui.HistoryManager State) (l : list State).

Lemma len_nonneg l : 0 <= Gui.len l.
Proof. unfold Gui.len. lia. Qed.

Lemma len_app l l' : Gui.len (l ++ l') = Gui.len l + Gui.len l'.
Proof. unfold Gui.len. rewrite length_app. lia. Qed.

Lemma item_nat l (i : Z) :
  0 <= i -> Gui.item l i = nth_error l (Z.to_nat i).
Proof.
  intros Hi. unfold Gui.item.
  destruct (i <? 0) eqn:E; [apply Z.ltb_lt in E; lia |]. rewrite E.
  reflexivity.
Qed.

Lemma item_some l (i : Z) :
  0 <= i < Gui.len l -> exists s, Gui.item l i = Some s.
Proof.
  intros Hi. rewrite item_nat by lia.
  destruct (nth_error l (Z.to_nat i)) as [s |] eqn:E; [exists s; reflexivity |].
  apply nth_error_None in E. unfold Gui.len in Hi. lia.
Qed.

Lemma item_app_l l l' (i : Z) :
  0 <= i < Gui.len l -> Gui.item (l ++ l') i = Gui.item l i.
Proof.
  intros Hi. rewrite !item_nat by lia.
  apply nth_error_app1. unfold Gui.len in Hi. lia.
Qed.

Lemma item_last l (s : State) : Gui.item (l ++ [s]) (Gui.len l) = Some s.
Proof.
  rewrite item_nat by apply len_nonneg. unfold Gui.len.
  rewrite Nat2Z.id, nth_error_app2 by lia.
  rewrite Nat.sub_diag. reflexivity.
Qed.

Lemma item_tl l (i : Z) :
  0 <= i -> Gui.item (tl l) i = Gui.item l (i + 1).
Proof.
  intros Hi. rewrite !item_nat by lia.
  replace (Z.to_nat (i + 1)) with (S (Z.to_nat i)) by lia.
  destruct l as [| x l]; [destruct (Z.to_nat i); reflexivity | reflexivity].
Qed.

Lemma len_tl l : l <> [] -> Gui.len (tl l) = Gui.len l - 1.
Proof.
  destruct l; [congruence |]. unfold Gui.len. cbn [tl List.length]. lia.
Qed.

Lemma slice_to_prefix l (i : Z) :
  0 <= i <= Gui.len l ->
  Gui.len (Gui.slice_to l i) = i /\
  forall j, 0 <= j < i -> Gui.item (Gui.slice_to l i) j = Gui.item l j.
Proof.
  intros Hi. unfold Gui.slice_to.
  destruct (i <? 0) eqn:E; [apply Z.ltb_lt in E; lia |].
  split.
  - unfold Gui.len in *. rewrite length_firstn. lia.
  - intros j Hj. rewrite !item_nat by lia.
    rewrite nth_error_firstn.
    destruct (Z.to_nat j <? Z.to_nat i)%nat eqn:Hlt; [reflexivity |].
    apply Nat.ltb_ge in Hlt. lia.
Qed.

(** What [push] leaves behind. *)
Lemma push_in_order m (state : State) :
  Gui.in_order m ->
  Gui.in_order (Gui.push m state) /\
  Gui.max_history (Gui.push m state) = Gui.max_history m /\
  Gui.can_redo (Gui.push m state) = false /\
  (1 <= Gui.max_history m ->
   Gui.current (Gui.push m state) = Gui.Returned (Some state)) /\
  (2 <= Gui.max_history m ->
   snd (Gui.undo (Gui.push m state)) =
   Gui.Returned (Gui.item (Gui.history m) (Gui.current_index m))).
Proof.
  destruct m as [mx h idx]. unfold Gui.in_order. cbn [Gui.max_history
    Gui.history Gui.current_index]. intros [Hidx Hlen].
  unfold Gui.push. cbn [Gui.max_history Gui.history Gui.current_index].
  set (h1 := if idx <? Gui.len h - 1 then Gui.slice_to h (idx + 1) else h).
  assert (H1 : Gui.len h1 = idx + 1 /\
               forall j, 0 <= j < idx + 1 -> Gui.item h1 j = Gui.item h j).
  { unfold h1. destruct (idx <? Gui.len h - 1) eqn:E.
    - apply Z.ltb_lt in E. apply slice_to_prefix.
      destruct Hidx as [[-> ->] | Hidx]; [cbn; lia | lia].
    - apply Z.ltb_ge in E. destruct Hidx as [[-> ->] | Hidx].
      + split; [reflexivity | intros j Hj; lia].
      + split; [lia | intros; reflexivity]. }
  destruct H1 as [Hl1 Hi1]. clearbody h1.
  pose proof (len_app h1 [state]) as Hl2.
  change (Gui.len [state]) with 1 in Hl2.
  assert (Hne : (h1 ++ [state])%list <> []).
  { intros E. apply (f_equal (@List.length State)) in E.
    rewrite length_app in E. cbn in E. lia. }
  destruct (Gui.len (h1 ++ [state]) >? mx) eqn:Hfull.
  - apply Z.gtb_lt in Hfull.
    pose proof (len_tl _ Hne) as Hlt.
    unfold Gui.can_redo, Gui.current, Gui.undo, Gui.can_undo, Gui.move.
    cbn [Gui.max_history Gui.history Gui.current_index snd].
    split; [| split; [reflexivity | split; [| split] ] ].
    + split; [| lia].
      destruct (Z.eq_dec idx (-1)) as [-> | Hn].
      * left. split; [reflexivity |].
        destruct h1 as [| x h1']; [reflexivity |].
        unfold Gui.len in Hl1. cbn in Hl1. lia.
      * right. lia.
    + apply Z.ltb_ge. lia.
    + intros Hmx.
      assert (0 <= idx) by lia.
      rewrite item_tl by lia.
      replace (idx + 1) with (Gui.len h1) by lia.
      rewrite item_last. reflexivity.
    + intros Hmx.
      assert (0 < idx) by lia.
      destruct (idx >? 0) eqn:Hu; [| rewrite Z.gtb_ltb in Hu; apply Z.ltb_ge in Hu; lia].
      unfold Gui.current.
      cbn [snd Gui.history Gui.current_index Gui.max_history].
      rewrite item_tl by lia.
      replace (idx + -1 + 1) with idx by lia.
      rewrite item_app_l by lia. rewrite Hi1 by lia.
      destruct (item_some h idx) as [s Hs]; [lia |].
      rewrite Hs. reflexivity.
  - rewrite Z.gtb_ltb in Hfull. apply Z.ltb_ge in Hfull.
    unfold Gui.can_redo, Gui.current, Gui.undo, Gui.can_undo, Gui.move.
    cbn [Gui.max_history Gui.history Gui.current_index snd].
    split; [| split; [reflexivity | split; [| split] ] ].
    + split; [right; lia | lia].
    + apply Z.ltb_ge. lia.
    + intros _. replace (idx + 1) with (Gui.len h1) by lia.
      rewrite item_last. reflexivity.
    + intros _.
      destruct (idx + 1 >? 0) eqn:Hu.
      * apply Z.gtb_lt in Hu. unfold Gui.current.
        cbn [snd Gui.history Gui.current_index Gui.max_history].
        replace (idx + 1 + -1) with idx by lia.
        rewrite item_app_l by lia. rewrite Hi1 by lia.
        destruct (item_some h idx) as [s Hs].
        { destruct Hidx as [[-> _] | Hidx]; lia. }
        rewrite Hs. reflexivity.
      * rewrite Z.gtb_ltb in Hu. apply Z.ltb_ge in Hu.
        assert (idx = -1) as -> by (destruct Hidx as [[-> _] | Hidx]; lia).
        destruct Hidx as [[_ ->] | Hidx]; [reflexivity | lia].
Qed.

End HistoryFacts.

Section HistorySessions.

Context {State : Type}.

Implicit Types (m : @Gui.HistoryManager State).

Lemma move_back m (k : Z) : Gui.move (Gui.move m k) (- k) = m.
Proof.
  destruct m as [mx h idx]. unfold Gui.move.
  cbn [Gui.max_history Gui.history Gui.current_index].
  f_equal. lia.
Qed.

Lemma move_there_and_back m :
  Gui.move (Gui.move m (-1)) 1 = m /\ Gui.move (Gui.move m 1) (-1) = m.
Proof.
  split; [apply (move_back m (-1)) | apply (move_back m 1)].
Qed.

Lemma current_in_range m :
  0 <= Gui.current_index m < Gui.len (Gui.history m) ->
  exists s, Gui.item (Gui.history m) (Gui.current_index m) = Some s /\
            Gui.current m = Gui.Returned (Some s).
Proof.
  intros Hi. destruct (item_some _ _ Hi) as [s Hs].
  exists s. split; [exact Hs |]. unfold Gui.current. rewrite Hs. reflexivity.
Qed.

Lemma undo_in_order m :
  Gui.in_order m ->
  Gui.in_order (fst (Gui.undo m)) /\
  Gui.max_history (fst (Gui.undo m)) = Gui.max_history m /\
  snd (Gui.undo m) <> Gui.IndexError.
Proof.
  intros [Hidx Hlen]. unfold Gui.undo, Gui.can_undo.
  destruct (Gui.current_index m >? 0) eqn:Hu; cbn [fst snd].
  - apply Z.gtb_lt in Hu.
    destruct Hidx as [[Hi _] | Hidx]; [lia |].
    split; [| split; [reflexivity |] ].
    + split; [right; cbn; lia | exact Hlen].
    + destruct (current_in_range (Gui.move m (-1))) as [s [_ ->]];
        [cbn; lia | discriminate].
  - split; [split; assumption | split; [reflexivity | discriminate] ].
Qed.

Lemma redo_in_order m :
  Gui.in_order m ->
  Gui.in_order (fst (Gui.redo m)) /\
  Gui.max_history (fst (Gui.redo m)) = Gui.max_history m /\
  snd (Gui.redo m) <> Gui.IndexError.
Proof.
  intros [Hidx Hlen]. unfold Gui.redo, Gui.can_redo.
  destruct (Gui.current_index m <? Gui.len (Gui.history m) - 1) eqn:Hr;
    cbn [fst snd].
  - apply Z.ltb_lt in Hr.
    assert (0 <= Gui.current_index m).
    { destruct Hidx as [[Hi Hh] | Hidx]; [| lia].
      rewrite Hh in Hr. cbn in Hr. lia. }
    split; [| split; [reflexivity |] ].
    + split; [right; cbn; lia | exact Hlen].
    + destruct (current_in_range (Gui.move m 1)) as [s [_ ->]];
        [cbn; lia | discriminate].
  - split; [split; assumption | split; [reflexivity | discriminate] ].
Qed.

Lemma perform_in_order m (c : Gui.call) :
  Gui.in_order m ->
  Gui.in_order (fst (Gui.perform m c)) /\
  Gui.max_history (fst (Gui.perform m c)) = Gui.max_history m /\
  snd (Gui.perform m c) <> Gui.IndexError.
Proof.
  intros Hm. destruct c as [state | | |]; cbn [Gui.perform fst snd].
  - destruct (push_in_order m state Hm) as (Ho & Hmx & _).
    split; [exact Ho | split; [exact Hmx | discriminate] ].
  - apply undo_in_order. exact Hm.
  - apply redo_in_order. exact Hm.
  - split; [| split; [reflexivity | discriminate] ].
    split; [left; split; reflexivity |]. cbn. lia.
Qed.

(** X19. Whatever calls of push, undo, redo and clear are made on a fresh
    [HistoryManager], in whatever order, the index stays -1 on an empty
    history and inside the history otherwise, the history never holds
    more than max_history states, and no call fails with an
    IndexError. *)
Theorem history_manager_stays_in_order (max : Z) (calls : list Gui.call) :
  let m := fst (Gui.session calls (@Gui.init State max)) in
  let replies := snd (Gui.session calls (@Gui.init State max)) in
  (Gui.current_index m = -1 /\ Gui.history m = [] \/
   0 <= Gui.current_index m < Gui.len (Gui.history m)) /\
  Gui.len (Gui.history m) <= Z.max 0 max /\
  ~ In Gui.IndexError replies.
Proof.
  cbv zeta.
  assert (Hgen : forall calls m0,
             Gui.in_order m0 ->
             Gui.in_order (fst (Gui.session calls m0)) /\
             Gui.max_history (fst (Gui.session calls m0))
               = Gui.max_history m0 /\
             ~ In Gui.IndexError (snd (Gui.session calls m0))).
  { clear calls. induction calls as [| c rest IH]; intros m0 Hm0.
    - cbn. split; [exact Hm0 | split; [reflexivity | intros []] ].
    - cbn [Gui.session].
      destruct (perform_in_order m0 c Hm0) as (Ho & Hmx & Hr).
      destruct (Gui.perform m0 c) as [m1 r]. cbn [fst snd] in *.
      destruct (IH m1 Ho) as (Ho' & Hmx' & Hr').
      destruct (Gui.session rest m1) as [m2 rs]. cbn [fst snd] in *.
      split; [exact Ho' | split; [congruence |] ].
      intros [E | E]; [apply Hr; exact E | apply Hr'; exact E]. }
  destruct (Hgen calls (Gui.init max)) as ([Hidx Hlen] & Hmx & Hr).
  { split; [left; split; reflexivity | cbn; lia]. }
  rewrite Hmx in Hlen. cbn [Gui.init Gui.max_history] in Hlen.
  split; [exact Hidx | split; [exact Hlen | exact Hr] ].
Qed.

(** X20. On a manager in order, undo and redo are inverse to each other:
    when undo is possible it returns the state before the current one,
    and a redo right after it brings the manager back as it was and
    returns the state that was current; when redo is possible it returns
    the state after the current one and an undo right after it brings
    the manager back. *)
Theorem undo_and_redo_are_inverse m :
  Gui.in_order m ->
  (Gui.can_undo m = true ->
   exists previous,
     snd (Gui.undo m) = Gui.Returned (Some previous) /\
     Gui.item (Gui.history m) (Gui.current_index m - 1) = Some previous /\
     Gui.redo (fst (Gui.undo m)) = (m, Gui.current m)) /\
  (Gui.can_redo m = true ->
   exists next,
     snd (Gui.redo m) = Gui.Returned (Some next) /\
     Gui.item (Gui.history m) (Gui.current_index m + 1) = Some next /\
     Gui.undo (fst (Gui.redo m)) = (m, Gui.current m)).
Proof.
  intros [Hidx Hlen]. split; intros Hcan.
  - unfold Gui.undo. rewrite Hcan. cbn [fst snd].
    unfold Gui.can_undo in Hcan. apply Z.gtb_lt in Hcan.
    destruct Hidx as [[Hi _] | Hidx]; [lia |].
    destruct (current_in_range (Gui.move m (-1))) as [s [Hs Hc]];
      [cbn; lia |].
    exists s. split; [exact Hc |]. split; [exact Hs |].
    unfold Gui.redo, Gui.can_redo.
    cbn [Gui.move Gui.history Gui.current_index].
    destruct (Gui.current_index m + -1 <? Gui.len (Gui.history m) - 1) eqn:Hr;
      [| apply Z.ltb_ge in Hr; lia].
    rewrite (proj1 (move_there_and_back m)). reflexivity.
  - unfold Gui.redo. rewrite Hcan. cbn [fst snd].
    unfold Gui.can_redo in Hcan. apply Z.ltb_lt in Hcan.
    assert (0 <= Gui.current_index m).
    { destruct Hidx as [[Hi Hh] | Hidx]; [| lia].
      rewrite Hh in Hcan. cbn in Hcan. lia. }
    destruct (current_in_range (Gui.move m 1)) as [s [Hs Hc]];
      [cbn; lia |].
    exists s. split; [exact Hc |]. split; [exact Hs |].
    unfold Gui.undo, Gui.can_undo.
    cbn [Gui.move Gui.history Gui.current_index].
    destruct (Gui.current_index m + 1 >? 0) eqn:Hu;
      [| rewrite Z.gtb_ltb in Hu; apply Z.ltb_ge in Hu; lia].
    rewrite (proj2 (move_there_and_back m)). reflexivity.
Qed.

(** X21. On a manager in order, push leaves it in order with nothing to
    redo; with max_history >= 1 the pushed state is the current one; and
    with max_history >= 2 an undo right after the push returns the state
    that was current before the push, not the pushed one, and returns
    None when the history was empty. *)
Theorem push_starts_a_new_future m (state : State) :
  Gui.in_order m ->
  Gui.in_order (Gui.push m state) /\
  Gui.can_redo (Gui.push m state) = false /\
  (1 <= Gui.max_history m ->
   Gui.current (Gui.push m state) = Gui.Returned (Some state)) /\
  (2 <= Gui.max_history m ->
   snd (Gui.undo (Gui.push m state)) =
   Gui.Returned (Gui.item (Gui.history m) (Gui.current_index m))).
Proof.
  intros Hm. destruct (push_in_order m state Hm) as (Ho & _ & Hr & Hc & Hu).
  repeat split; assumption || apply Ho.
Qed.

End HistorySessions.

Lemma undo_redo_witness :
  let m :=
    fst (Gui.session [ Gui.Push 1; Gui.Push 2; Gui.Push 3; Gui.Undo ]
           (Gui.init 20)) in
  (Gui.can_undo m = true ->
   exists previous,
     snd (Gui.undo m) = Gui.Returned (Some previous) /\
     Gui.item (Gui.history m) (Gui.current_index m - 1) = Some previous /\
     Gui.redo (fst (Gui.undo m)) = (m, Gui.current m)) /\
  (Gui.can_redo m = true ->
   exists next,
     snd (Gui.redo m) = Gui.Returned (Some next) /\
     Gui.item (Gui.history m) (Gui.current_index m + 1) = Some next /\
     Gui.undo (fst (Gui.redo m)) = (m, Gui.current m)).
Proof.
  intros m. apply (undo_and_redo_are_inverse m).
  split; [right; vm_compute; split; [discriminate | reflexivity]
         | vm_compute; discriminate].
Defined.

Lemma push_witness :
  let m := fst (Gui.session [ Gui.Push 1; Gui.Push 2 ] (Gui.init 20)) in
  Gui.in_order (Gui.push m 3) /\
  Gui.can_redo (Gui.push m 3) = false /\
  (1 <= Gui.max_history m ->
   Gui.current (Gui.push m 3) = Gui.Returned (Some 3)) /\
  (2 <= Gui.max_history m ->
   snd (Gui.undo (Gui.push m 3)) =
   Gui.Returned (Gui.item (Gui.history m) (Gui.current_index m))).
Proof.
  intros m. apply (push_starts_a_new_future m 3).
  split; [right; vm_compute; split; [discriminate | reflexivity]
         | vm_compute; discriminate].
Defined.

(** X26. The window's undo goes back past the last saved state.
    [save_state] records the variables as they are before a change, and
    [undo] restores the state before the one just pushed: on a history in
    order with max_history >= 2, an undo after a change restores what
    was current before the last [save_state], if anything.  So on a
    fresh window the first change cannot be undone, after two changes
    one undo brings back the variables as they were before the first,
    and a redo then brings back those before the second, never those
    after it.  Restoring a saved state and saving again gives the same
    state. *)
Theorem undo_goes_back_past_the_last_saved_state
        (m : @Gui.HistoryManager Gui.state) (g g' : Gui.settings) :
  Gui.in_order m -> 2 <= Gui.max_history m ->
  Gui.gui_undo (Gui.save_state m g) g' =
    (fst (Gui.undo (Gui.save_state m g)),
     match Gui.item (Gui.history m) (Gui.current_index m) with
     | Some s => if Gui.state_nonempty s then Gui.restore_state g' s else g'
     | None => g'
     end) /\
  (forall g0 g1,
      Gui.gui_undo (Gui.save_state (Gui.init 20) g0) g1
        = (Gui.save_state (Gui.init 20) g0, g1)) /\
  (forall g0 g1 g2,
      let m2 := Gui.save_state (Gui.save_state (Gui.init 20) g0) g1 in
      snd (Gui.gui_undo m2 g2) = Gui.restore_state g2 (Gui.saved_state g0) /\
      snd (Gui.gui_redo (fst (Gui.gui_undo m2 g2)) (snd (Gui.gui_undo m2 g2)))
        = Gui.restore_state (Gui.restore_state g2 (Gui.saved_state g0)) (Gui.saved_state g1)) /\
  Gui.saved_state (Gui.restore_state g' (Gui.saved_state g)) = Gui.saved_state g.
Proof.
  intros Hm Hmax. split; [| split; [| split] ].
  - unfold Gui.gui_undo, Gui.save_state. f_equal.
    destruct (push_in_order m (Gui.saved_state g) Hm) as (_ & _ & _ & _ & Hu).
    rewrite (Hu Hmax).
    destruct (Gui.item (Gui.history m) (Gui.current_index m)); reflexivity.
  - intros g0 g1. reflexivity.
  - intros g0 g1 g2. cbv zeta. split; reflexivity.
  - reflexivity.
Qed.

Lemma gui_undo_witness :
  let m := Gui.save_state (Gui.init 20) Gui.initial in
  let g := Gui.initial in
  let g' := Gui.initial in
  Gui.gui_undo (Gui.save_state m g) g' =
    (fst (Gui.undo (Gui.save_state m g)),
     match Gui.item (Gui.history m) (Gui.current_index m) with
     | Some s => if Gui.state_nonempty s then Gui.restore_state g' s else g'
     | None => g'
     end) /\
  (forall g0 g1,
      Gui.gui_undo (Gui.save_state (Gui.init 20) g0) g1
        = (Gui.save_state (Gui.init 20) g0, g1)) /\
  (forall g0 g1 g2,
      let m2 := Gui.save_state (Gui.save_state (Gui.init 20) g0) g1 in
      snd (Gui.gui_undo m2 g2) = Gui.restore_state g2 (Gui.saved_state g0) /\
      snd (Gui.gui_redo (fst (Gui.gui_undo m2 g2)) (snd (Gui.gui_undo m2 g2)))
        = Gui.restore_state (Gui.restore_state g2 (Gui.saved_state g0))
            (Gui.saved_state g1)) /\
  Gui.saved_state (Gui.restore_state g' (Gui.saved_state g))
    = Gui.saved_state g.
Proof.
  intros m g g'.
  apply (undo_goes_back_past_the_last_saved_state m g g').
  - split; [right; vm_compute; split; [discriminate | reflexivity]
           | vm_compute; discriminate].
  - vm_compute. discriminate.
Defined.

(** ** Clicks *)

Section Clicks.

Context `{Collaborators}.

Lemma image_coordinate_raises (preview_scale : option Py.float)
      (canvas_c : Py.num) :
  raises_only numeric_error (Gui.image_coordinate preview_scale canvas_c).
Proof.
  unfold Gui.image_coordinate.
  destruct preview_scale as [scale |]; [| apply PyFacts.int_raises].
  unfold Py.ne. rewrite PyFacts.eq_zero.
  destruct (Py.is_zero scale) eqn:Hz; cbn [negb];
    [apply PyFacts.int_raises |].
  apply raises_only_bind;
    [apply PyFacts.truediv_float_raises; exact Hz
    | intros q _; apply PyFacts.int_raises].
Qed.

(** X22. An annotation placed by a click is drawn where the click was.
    When the click's canvas coordinates convert to the image pixel
    (img_x, img_y), [on_canvas_click] appends an annotation which
    [create_zoom_figure], laying the images out at the positions of the
    metadata the window holds, draws anchored at (img_x, img_y) exactly,
    for either target, with thickness 3 and font size 16, and with the
    text only for the text tool.  The conversion never divides by zero:
    a preview scale of 0 is not divided by. *)
Theorem clicked_annotation_is_drawn_where_clicked
        (preview_scale : option Py.float) (meta : metadata)
        (target tool : string) (colour : color) (sz : Z)
        (direction text : string) (canvas_x canvas_y : Py.num)
        (img_x img_y : Z) :
  Gui.image_coordinate preview_scale canvas_x = Ok img_x ->
  Gui.image_coordinate preview_scale canvas_y = Ok img_y ->
  (exists ann,
      Gui.on_canvas_click false true preview_scale (Some meta) target tool
        colour sz direction text canvas_x canvas_y = Ok (Some ann) /\
      forall im,
        draw_one_annotation (pano_pos meta) (zoom_pos meta) im ann =
        draw_annotation im tool (img_x, img_y) colour sz 3
          (if (tool =? "text")%string then Some text else None) 16
          direction) /\
  (forall c,
      Gui.image_coordinate preview_scale c <> Raise ZeroDivisionError).
Proof.
  intros Hx Hy. split.
  - unfold Gui.on_canvas_click. cbn [negb]. rewrite Hx, Hy. cbn [bind].
    eexists. split; [reflexivity |].
    intros im. unfold draw_one_annotation, Gui.clicked_annotation.
    cbn [ann_type ann_position ann_target ann_color ann_size ann_thickness
         ann_text ann_font_size ann_direction get].
    destruct (target =? "panorama")%string; cbn [fst snd];
      f_equal; f_equal; lia.
  - intros c E. apply image_coordinate_raises in E.
    apply numeric_error_not_zero_division in E. apply E. reflexivity.
Qed.

End Clicks.

Lemma click_witness :
  let lab := Lab.bench (100, 200) (80, 80) (Py.dec 9 10) (5, 7) in
  let preview_scale := Some (Py.dec 5 10) in
  let meta :=
    {| roi_x := 5; roi_y := 7; roi_w := 80; roi_h := 80;
       confidence := Py.Float (Py.dec 9 10);
       pano_pos := (8, 8); zoom_pos := (258, 18) |} in
  let canvas_x := Py.Float (Py.round_Z 100) in
  let canvas_y := Py.Float (Py.round_Z 40) in
  (exists ann,
      Gui.on_canvas_click false true preview_scale (Some meta) "panorama"
        "circle" Lab.red 20 "up" "note" canvas_x canvas_y = Ok (Some ann) /\
      forall im,
        draw_one_annotation (pano_pos meta) (zoom_pos meta) im ann =
        draw_annotation im "circle" (200, 80) Lab.red 20 3
          (if ("circle" =? "text")%string then Some "note" else None) 16
          "up") /\
  (forall c,
      Gui.image_coordinate preview_scale c <> Raise ZeroDivisionError).
Proof.
  intros lab preview_scale meta canvas_x canvas_y.
  apply (@clicked_annotation_is_drawn_where_clicked lab preview_scale meta
           "panorama" "circle" Lab.red 20 "up" "note" canvas_x canvas_y
           200 80); vm_compute; reflexivity.
Defined.

(** ** What the window asks for *)

Lemma grows_by_refl (P : step -> Prop) (im : image) : grows_by P im im.
Proof. exists []. rewrite app_nil_r. split; [reflexivity | constructor]. Qed.

Lemma grows_by_trans (P : step -> Prop) (im1 im2 im3 : image) :
  grows_by P im1 im2 -> grows_by P im2 im3 -> grows_by P im1 im3.
Proof.
  intros (s1 & E1 & F1) (s2 & E2 & F2). exists (s1 ++ s2)%list.
  rewrite E2, E1, app_assoc. split; [reflexivity |].
  apply Forall_app. split; assumption.
Qed.

Lemma grows_by_draw (P : step -> Prop) (d : drawop) (im : image) :
  P (Drawn d) -> grows_by P im (draw d im).
Proof.
  intros Hd. exists [ Drawn d ]. split; [reflexivity |].
  constructor; [exact Hd | constructor].
Qed.

Lemma draw_border_bare (x1 y1 x2 y2 t : Z) (outline : color) (im : image) :
  grows_by bare im (draw_border x1 y1 x2 y2 t outline im).
Proof.
  exists (map (fun i => Drawn (ring (x1, y1) (x2 - x1, y2 - y1) i outline))
              (range t)).
  split; [apply draw_border_rings |].
  apply Forall_forall. intros s Hs. apply in_map_iff in Hs as [i [<- _]].
  exact I.
Qed.

Lemma dash_loop_bare (x1 y1 : Z) (ux uy length : Py.float) (fill : color)
      (width dash_length gap_length : Z) (fuel : nat) :
  forall pos drawing im im',
    dash_loop fuel x1 y1 ux uy length fill width dash_length gap_length
      pos drawing im = Ok im' ->
    grows_by bare im im'.
Proof.
  induction fuel as [| fuel IH]; intros pos drawing im im' E; simpl in E;
    destruct (Py.lt (Py.Int pos) (Py.Float length));
    try discriminate E;
    try (injection E as <-; apply grows_by_refl).
  destruct drawing; [| apply (IH _ _ _ _ E)].
  apply bind_Ok in E as [sl [_ E]].
  apply bind_Ok in E as [[p q] [_ E]].
  apply IH in E.
  eapply grows_by_trans;
    [apply (grows_by_draw bare (Line p q fill width)); exact I | exact E].
Qed.

Section Requests.

Context `{Collaborators}.

Lemma draw_guide_line_bare (fuel : nat) (a : figure_args)
      (im im' : image) (start end_ : point) :
  draw_guide_line fuel a im start end_ = Ok im' -> grows_by bare im im'.
Proof.
  unfold draw_guide_line. destruct (line_style a =? "dashed")%string.
  - destruct start as [x1 y1], end_ as [x2 y2]. unfold draw_dashed_line.
    intros E. apply bind_Ok in E as [len [_ E]].
    destruct (Py.eq (Py.Float len) (Py.Int 0)).
    + injection E as <-. apply grows_by_refl.
    + apply bind_Ok in E as [ux [_ E]]. apply bind_Ok in E as [uy [_ E]].
      apply dash_loop_bare in E. exact E.
  - intros E. injection E as <-. apply grows_by_draw. exact I.
Qed.

(** X23. What [generate_preview] asks [create_zoom_figure] for: the scale
    bars drawn are those of the list of the enabled bars, the panorama's
    before the zoom image's, each passed with 'enabled' true, be the
    list passed as one dictionary, as a list or as None; and the
    watermark is passed only when it is enabled and its text is not
    empty, so that no enabled watermark with an empty text reaches the
    processing module. *)
Theorem preview_asks_for_the_enabled_bars
        (g : Gui.settings) (temp_output_path : string) (lay : layout)
        (pano_size zoom_size : Z * Z) (canvas : image) :
  let a := Gui.generate_preview_args g temp_output_path in
  draw_all_scale_bars a lay pano_size zoom_size canvas =
    draw_scale_bars (lay_pano_pos lay) (lay_zoom_pos lay) pano_size zoom_size
      (Gui.scale_bars g) canvas /\
  Forall (fun sb => sb_enabled sb = Some true) (Gui.scale_bars g) /\
  List.length (Gui.scale_bars g) =
    ((if Gui.pano_scale_bar_enabled g then 1 else 0)
     + (if Gui.zoom_scale_bar_enabled g then 1 else 0))%nat /\
  match watermark a with
  | Some wm => wm_enabled wm = Some true /\ ~ invalid_watermark wm
  | None => Gui.watermark_enabled g = false \/
            Gui.watermark_text g = EmptyString
  end.
Proof.
  cbv zeta. unfold draw_all_scale_bars, Gui.generate_preview_args, Gui.scale_bars.
  cbn [scale_bar watermark].
  split; [| split; [| split] ].
  - destruct (Gui.pano_scale_bar_enabled g), (Gui.zoom_scale_bar_enabled g);
      cbn [app]; try reflexivity.
    + cbn [draw_scale_bars sb_nonempty Gui.pano_scale_bar_config].
      destruct (draw_single_scale_bar _ _ _ _ canvas _); reflexivity.
    + cbn [draw_scale_bars sb_nonempty Gui.zoom_scale_bar_config].
      destruct (draw_single_scale_bar _ _ _ _ canvas _); reflexivity.
  - destruct (Gui.pano_scale_bar_enabled g), (Gui.zoom_scale_bar_enabled g);
      repeat constructor.
  - destruct (Gui.pano_scale_bar_enabled g), (Gui.zoom_scale_bar_enabled g);
      reflexivity.
  - unfold Gui.preview_watermark.
    destruct (Gui.watermark_enabled g); cbn [andb]; [| left; reflexivity].
    destruct (Gui.watermark_text g =? EmptyString)%string eqn:Et;
      cbn [negb].
    + right. apply String.eqb_eq. exact Et.
    + split; [reflexivity |]. intros [_ Hempty]. cbn [wm_text get] in Hempty.
      rewrite Hempty in Et. discriminate Et.
Qed.

(** X24. A figure made by the batch dialog carries nothing but the two
    pasted images, rectangles and lines: [process_files] passes neither
    scale bar nor annotations nor watermark nor ROI offset, whatever the
    window's settings, so the returned canvas has no text on it, the
    reported ROI corner is the located one, and the call prints the
    low-confidence warning if it applies, saves the canvas at the
    output path and announces the file. *)
Theorem batch_figures_carry_no_text
        (fuel : nat) (g : Gui.settings) (pano zoom output_path : string)
        (canvas : image) (meta : metadata) :
  snd (create_zoom_figure fuel (Gui.process_files_args g pano zoom output_path))
    = Ok (canvas, meta) ->
  Forall bare (history canvas) /\
  (exists x y,
      find_roi_position pano zoom
        = Ok (x, y, roi_w meta, roi_h meta, confidence meta) /\
      roi_x meta = x /\ roi_y meta = y) /\
  fst (create_zoom_figure fuel (Gui.process_files_args g pano zoom output_path)) =
    ((if Py.lt (confidence meta) (Py.Float (Py.dec 5 10))
      then [ LowConfidenceWarning (confidence meta) ] else [])
       ++ [ Saved output_path canvas; Announced output_path ])%list.
Proof.
  intros Hret.
  pose proof Hret as Hret'.
  apply create_zoom_figure_returned in Hret
    as (x & y & w & h & c & lay & Hloc & Hc & ->).
  cbn [panorama_path zoom_path Gui.process_files_args roi_offset fst snd] in Hloc.
  cbn [roi_x roi_y roi_w roi_h confidence metadata_of roi_offset
       Gui.process_files_args fst snd].
  split; [| split].
  - remember (x + fst (roi_offset (Gui.process_files_args g pano zoom output_path)))
      as x' eqn:Hx'.
    remember (y + snd (roi_offset (Gui.process_files_args g pano zoom output_path)))
      as y' eqn:Hy'.
    clear Hx' Hy' Hret'.
    apply compose_stages in Hc
      as (panorama & pano_size & zoom_img & zoom_size & guided & barred
          & _ & _ & Eg & Eb & ->).
    unfold draw_all_scale_bars in Eb. cbn [scale_bar Gui.process_files_args] in Eb.
    injection Eb as <-.
    unfold add_watermark, draw_annotations.
    cbn [watermark annotations Gui.process_files_args].
    assert (Hframe : grows_by bare (blank RGB (canvas_w lay, canvas_h lay))
                       (framed_canvas
                          (Gui.process_files_args g pano zoom output_path) lay
                          x' y' w h panorama pano_size zoom_img zoom_size
                          (blank RGB (canvas_w lay, canvas_h lay)))).
    { unfold framed_canvas.
      destruct pano_size as [pano_w pano_h], zoom_size as [zoom_w zoom_h].
      destruct (roi_box lay x' y' w h) as [[[box_x1 box_y1] box_x2] box_y2].
      repeat (eapply grows_by_trans; [| apply draw_border_bare]).
      eexists. split; [reflexivity |].
      repeat constructor. }
    assert (Hguide : grows_by bare
                       (framed_canvas
                          (Gui.process_files_args g pano zoom output_path) lay
                          x' y' w h panorama pano_size zoom_img zoom_size
                          (blank RGB (canvas_w lay, canvas_h lay)))
                       guided).
    { unfold draw_guide_lines in Eg.
      destruct (roi_box lay x' y' w h) as [[[box_x1 box_y1] box_x2] box_y2].
      destruct (guide_lines _ _ _ _ _ _ _ _ _) as [g1 g2].
      apply bind_Ok in Eg as [c1 [E1 E2]].
      eapply grows_by_trans; eapply draw_guide_line_bare; eassumption. }
    destruct (grows_by_trans _ _ _ _ Hframe Hguide) as (steps & Hs & Hf).
    rewrite Hs. exact Hf.
  - exists x, y. repeat split; [exact Hloc | lia | lia].
  - rewrite (create_zoom_figure_located fuel
               (Gui.process_files_args g pano zoom output_path) x y w h c Hloc).
    cbv zeta. rewrite Hc.
    rewrite (create_zoom_figure_saved _ _ _ _ Hret'). reflexivity.
Qed.

End Requests.

Lemma batch_witness :
  let lab := Lab.bench (100, 200) (80, 80) (Py.dec 9 10) (5, 7) in
  let a := Gui.process_files_args Gui.initial "pano.png" "zoom.png" "out.png" in
  exists canvas meta,
    snd (create_zoom_figure 0 a) = Ok (canvas, meta) /\
    Forall bare (history canvas) /\
    (exists x y,
        find_roi_position "pano.png" "zoom.png"
          = Ok (x, y, roi_w meta, roi_h meta, confidence meta) /\
        roi_x meta = x /\ roi_y meta = y) /\
    fst (create_zoom_figure 0 a) =
      ((if Py.lt (confidence meta) (Py.Float (Py.dec 5 10))
        then [ LowConfidenceWarning (confidence meta) ] else [])
         ++ [ Saved "out.png" canvas; Announced "out.png" ])%list.
Proof.
  intros lab a. eexists. eexists.
  split; [vm_compute; reflexivity |].
  apply (@batch_figures_carry_no_text lab 0 Gui.initial "pano.png" "zoom.png"
           "out.png").
  vm_compute. reflexivity.
Defined.

